(* ===== verification/_CoqProject ===== *)
-Q . S2P
Prelude.v
GoStrings.v
Version.v
NetIP.v
Template.v
UserData.v
ControlPlaneInit.v
ControlPlaneJoin.v
EndToEnd.v
Rendering.v
