(* ===== verification/Prelude.v ===== *)
(** * Cloud-init user-data builders of cluster-api-bootstrap-provider-microk8s

    ** The program

    Package [cloudinit] (src/controllers/cloudinit) builds the cloud-init
    user data (a YAML document that runs shell commands) that turns a fresh
    machine into a MicroK8s control-plane node.  The bootstrap controller
    (the orchestrator, outside src/) fills an input struct and calls one of
    two builders:
    - [NewInitControlPlane(input *ControlPlaneInput)] (controlplane_init.go,
      lines 94-139) for the first control-plane node;
    - [NewJoinControlPlane(input *ControlPlaneJoinInput)]
      (controlplane_join.go, lines 74-97) for a node joining the cluster.
    Each builder mutates the struct it receives, in order:
    - it fills the embedded [BaseUserData] (the header, the write-files
      list from the certificates, and the sentinel command; the join builder
      also sets the control-plane flag and calls [prepare]);
    - it replaces [Version] ("1.21.3") by a snap channel argument
      ("--channel=1.21") through [extractVersionParts] and
      [generateSnapChannelArgument];
    - the init builder normalises [Addons] so that one of them enables DNS,
      and splices the quoted names into the template text with
      [strings.Replace];
    - it sets [ControlPlaneEndpointType] to "IP" when [net.ParseIP] accepts
      the endpoint and to "DNS" otherwise;
    - it renders its template with [generate] (Go's [text/template]).
    It returns the rendered bytes, or the first error on the way.

    ** The files, one per component

    - [Prelude] (this file): Go [error] values with pkg/errors' [Wrapf],
      [Cause] and [Error]; the [(T, error)] convention as [result]; the
      state-and-error monad [goM S A := S -> S * result A] of a function
      that mutates [*S] and may return early, with its notation in
      [go_scope]; [inspect] for loops by well-founded recursion; string,
      list and option lemmas; the hint databases [cloudinit] and [go_rw];
      the tactics [go_unfold] and [zbool]; [preserves P c], an invariant
      of a builder's struct, with one rule per combinator and the tactic
      [preserves_split].
    - [GoStrings]: the functions of Go's [strings], [strconv] and [fmt] that
      the code calls ([Contains], [Replace], [Split], [Join], [Repeat],
      [Itoa], [Atoi] with its sign, range and quoted [NumError],
      [Sprintf(" '%s' ")]), with the [Atoi]/[Itoa] round trip on every
      [int64], the substring lemmas, and [Split]/[Join] on one-byte
      separators ([SplitByte_Join], [Join_pad]).
    - [Version] (Module [Version]): [extractVersionParts] and
      [generateSnapChannelArgument], package helpers outside src/ modelled
      from the spec; the round trip of a printed version, signed parts
      included, and the failure on a channel argument.
    - [NetIP] (Module [NetIP]): Go's [net.ParseIP] of Go 1.17-1.21, function
      by function ([dtoi], [xtoi], [parseIPv4], [parseIPv6], [ParseIP]);
      the IPv6 loop both with fuel ([parseIPv6_loop], what [ParseIP] runs)
      and with Go's own condition by well-founded recursion (Equations,
      [parseIPv6_go]); [classifyEndpoint] is the endpoint-type step of the
      two builders.
    - [Template] (Module [Template]): [generate] and the part of
      [text/template] the templates use ([{{.F}}], [{{.F | Indent n}}]) with
      [templateYAMLIndent]; other actions are parse errors.  Its lemmas
      make the lexer compositional ([lex_app], [lex_run], [lex_buf], and
      [lex_action] for one [{{.F}}] action)
      and rendering local to the fields a template names ([exec_agree]);
      [Indent] is the per-line reference [indentLines] and [dedent] undoes
      it.
    - [UserData] (Module [UserData]): [BaseUserData], [File],
      [Certificate], [AsFiles]; the interface [Preparation] (a [Class]) of
      [prepare] with its law, discharged by [capiPreparation]; the class
      [Fields] of the reflection view of an input struct.
    - [ControlPlaneInit] (Module [Init]): the template
      [controlPlaneCloudInit] line for line; [ControlPlaneInput] as a
      [Record] with a setter per assigned field; one definition per step of
      [NewInitControlPlane] ([initBase] for lines 95-98, [versionStep] for
      100-104, [normalizeAddons] with [ensureDNS] and [findDNS] for
      106-119, [addonsString] and [spliceAddons] for 121-125,
      [setEndpointType] for 127-130, [renderInit] for 132-138); the builder
      composes them as a [goM] program in a Section whose [Context] is the
      renderer.
    - [ControlPlaneJoin] (Module [Join]): the same for
      [NewJoinControlPlane] ([joinBase], [prepareStep], [versionStep],
      [setEndpointType], [renderJoin]), in a Section with the
      [Preparation] interface and the renderer as [Context];
      [failingPreparation] is an implementation whose [prepare] fails.
    - [EndToEnd] (Module [EndToEnd]): both builders with the concrete
      [Template.generate] and cluster-api's [prepare], run on concrete
      requests, and compared on the same endpoint and the same failing
      renderer.
    - [Rendering] (Module [Render]): the same composition, for every
      request: the two templates parsed once, and the theorems that follow
      from the [Template] lemmas.

    ** The theorems

    - Functional behaviour of each builder on every branch.  On success the
      struct ends as the normalised request and the output is the renderer's
      output on it ([NewInitControlPlane_ok], [NewJoinControlPlane_ok]).
      Every error is returned as specified and nothing is rendered after
      it: the version error, the prepare error, and the render error, which
      only the join builder wraps.  No output is returned without a
      successful render ([*_output]).  A second run on the mutated struct
      fails ([NewInitControlPlane_not_reentrant]).
    - Addon normalisation: the cases of [ensureDNS], stated with
      [strings.Contains] itself; its result always has a DNS addon; it is
      idempotent.  The [Replace] splice leaves the template around the
      addon text unchanged.
    - Version: for every version "a.b[.p]" whose parts are Go [int]s, a
      sign included, both builders leave the channel of track a.b in the
      struct; a version without a dot fails in both.
    - The endpoint type ([net.ParseIP]): every dotted-decimal IPv4 string
      parses back to its 16-byte address; a host name (no ':', a byte
      other than a digit or '.') is typed "DNS", and so is an IPv4 literal
      whose last octet has a leading zero; for the same endpoint the two
      builders agree on the type.
    - For every request ([Rendering]): both builders produce user data when
      the version parses (and, for init, the addon names hold no '{'); the
      certificates never change the rendered text of either builder.  The
      addon names reach the init output verbatim between a fixed prefix
      and suffix, unescaped between single quotes, and the shell loop runs
      over them and then 'dns'.  The CA key and certificate are written
      under "- content: |" indented by four spaces, and dedenting the two
      blocks gives the PEM text back.  The join user data runs
      "microk8s join <IP>:<port>/<token>" with the request's values; the
      init user data installs the channel of its version and puts the
      endpoint into the certificate request with its [ParseIP] type, and
      on the same version and endpoint the join user data holds the same
      two lines ([builders_install_alike]); both rewrite the cluster-agent
      and dqlite ports and register the token with
      "microk8s add-node --token-ttl <TTL> --token <token>".
    - The addon injection ([Rendering]): an addon named ["{{.F}}"], for any
      field F, prints F's value in the addon loop
      ([initUserData_addon_field_injection]); an addon with an unclosed
      "{{" makes the init builder fail ([initUserData_addon_unclosed]).
    - Invariant of the struct ([builders_frame]): on every path, errors
      included, for any renderer and any [prepare], neither builder
      writes a field its code does not assign.

    ** Bounds and fuel

    [parseIPv6_loop] takes fuel 8: each round stores two bytes and Go's
    loop runs while [i < 16], so 8 rounds are the loop exactly, not a
    cut-off: [parseIPv6_go_fuel] proves the fuelled loop equal to Go's loop
    written with its condition, and [parseIPv6_loop_inv] that it never
    writes past 16 bytes.  The IPv4 round trip enumerates the 256
    octets once ([octet_reads_back_all]) and lifts them by lemmas.
    [extractVersionParts] parses Go [int]s: [Atoi] accepts an optional sign
    and refuses values outside [[MinInt64, MaxInt64]] (-2^63 to 2^63 - 1)
    with a range error, as Go does on a 64-bit platform.

    ** Axioms

    The kernel check lists one axiom, [functional_extensionality_dep] of
    the Standard Library: the unfolding equation Equations derives for the
    well-founded definition [parseIPv6_go] rests on it, so the two lemmas
    about that loop ([parseIPv6_go_loop], [parseIPv6_go_fuel], which
    justify the fuel) depend on it; the definition itself and every
    theorem about the builders are closed.

    ** Not modelled

    - The orchestrator that fills the input structs, looks the certificates
      up and ships the payload: it is outside src/.
    - The execution of the generated script on the machine (cloud-init,
      snap, microk8s).
    - The rest of Go's [text/template] (pipelines other than [Indent],
      conditionals, ranges): the templates do not use it.
    - IPv6 zones and the [net/netip] parser of later Go versions.
    - The promoted field [Certificates] as a template field: [%v] prints a
      [[]*Certificate] as pointer addresses, which are no function of the
      request; neither template names it.
    Only the fields of [File] and [Certificate] that the builders read are
    modelled; [%v] of a [File] prints the three others ([Encoding],
    [Append], [ContentFrom]) at their zero values, exact for the files
    [AsFiles] makes. *)

From Stdlib Require Import String Ascii List ZArith Lia Bool.
Import ListNotations.
Open Scope string_scope.

(** ** Go errors *)

(** A Go [error] value: a leaf made by [errors.New]/[fmt.Errorf], or a value
    made by [errors.Wrapf(cause, msg)] of github.com/pkg/errors, which keeps
    its cause for [errors.Cause]. *)
Inductive error : Type :=
| ErrMsg (msg : string)
| ErrWrap (msg : string) (cause : error).

(** [err.Error()]: pkg/errors prints a wrapped error as "msg: cause". *)
Fixpoint Error (e : error) : string :=
  match e with
  | ErrMsg m => m
  | ErrWrap m c => m ++ ": " ++ Error c
  end.

(** [errors.Cause(err)]: strips every wrapper. *)
Fixpoint Cause (e : error) : error :=
  match e with
  | ErrMsg m => ErrMsg m
  | ErrWrap _ c => Cause c
  end.

(** [errors.Wrapf(err, msg)]; pkg/errors returns nil for a nil [err], which
    the [result] type below makes unnecessary: only a real error is wrapped. *)
Definition Wrapf (e : error) (msg : string) : error := ErrWrap msg e.

(** ** The [(T, error)] convention *)

(** A Go function returning [(T, error)] returns either a value and a nil
    error or a zero value and an error; callers only read the value when the
    error is nil. *)
Inductive result (A : Type) : Type :=
| Ok (a : A)
| Err (e : error).
Arguments Ok {A} a.
Arguments Err {A} e.

(** ** Builders that mutate their input: a state-and-error monad

    [func F(input *T) ([]byte, error)] reads and writes the struct behind
    [input] and may return early with an error; the caller keeps the struct,
    mutated up to the point of return.  [goM S A] is such a computation:
    from the struct's state to its final state and the returned result. *)
Definition goM (S A : Type) : Type := S -> S * result A.

Definition ret {S A} (a : A) : goM S A := fun s => (s, Ok a).
Definition throw {S A} (e : error) : goM S A := fun s => (s, Err e).
Definition bind {S A B} (c : goM S A) (k : A -> goM S B) : goM S B :=
  fun s => match c s with
           | (s', Ok a) => k a s'
           | (s', Err e) => (s', Err e)
           end.
Definition get {S} : goM S S := fun s => (s, Ok s).
Definition modify {S} (f : S -> S) : goM S unit := fun s => (f s, Ok tt).
(** [v, err := f(...); if err != nil { return nil, err }]. *)
Definition lift {S A} (r : result A) : goM S A := fun s => (s, r).

(** A method called on an embedded struct: run [c] on the field [getf] of
    the state and write the field back. *)
Definition zoom {S T A} (getf : S -> T) (setf : S -> T -> S) (c : goM T A) : goM S A :=
  fun s => let '(t', r) := c (getf s) in (setf s t', r).

(** Go's [return nil, err] after the caller's own annotation of [err]. *)
Definition mapErr {S A} (f : error -> error) (c : goM S A) : goM S A :=
  fun s => match c s with
           | (s', Err e) => (s', Err (f e))
           | o => o
           end.

Declare Scope go_scope.
Delimit Scope go_scope with go.
Notation "x <- c ;; k" := (bind c (fun x => k))
  (at level 61, c at next level, right associativity) : go_scope.
Notation "' p <- c ;; k" := (bind c (fun x => match x with p => k end))
  (at level 61, p pattern, c at next level, right associativity) : go_scope.
Notation "c ;; k" := (bind c (fun _ : unit => k))
  (at level 61, right associativity) : go_scope.

(** ** Strings: Go strings are byte sequences; [string] of the Standard
    Library is a sequence of 8-bit [ascii] characters, the same thing. *)

Lemma append_assoc (a b c : string) : (a ++ b) ++ c = a ++ (b ++ c).
Proof. induction a as [|x a IH]; simpl; [reflexivity | now rewrite IH]. Qed.

Lemma append_nil_r (a : string) : a ++ "" = a.
Proof. induction a as [|x a IH]; simpl; [reflexivity | now rewrite IH]. Qed.

Lemma append_nil_l (a : string) : "" ++ a = a.
Proof. reflexivity. Qed.

Lemma append_cons (x : ascii) (a b : string) : String x a ++ b = String x (a ++ b).
Proof. reflexivity. Qed.

Lemma length_append (a b : string) : String.length (a ++ b) = String.length a + String.length b.
Proof. induction a as [|x a IH]; simpl; [reflexivity | now rewrite IH]. Qed.

Lemma append_inv_l (p a b : string) : p ++ a = p ++ b -> a = b.
Proof. induction p as [|x p IH]; simpl; [easy | intros H; injection H; auto]. Qed.

(** [injection] on [Some a = Some b] or [Ok a = Ok b] simplifies [a] and
    [b]; these do not. *)
Lemma Some_eq {A} (a b : A) : Some a = Some b -> a = b.
Proof. congruence. Qed.

Lemma Ok_eq {A} (a b : A) : Ok a = Ok b -> a = b.
Proof. congruence. Qed.

(** [inspect e]: [e] with a proof of what it equals, for definitions by
    well-founded recursion that need a loop condition in the context of
    their recursive calls. *)
Definition inspect {A} (a : A) : {b | a = b} := exist _ a eq_refl.

(** ** Lists and options *)

Lemma Forall_firstn {A} (P : A -> Prop) (n : nat) (l : list A) :
  Forall P l -> Forall P (firstn n l).
Proof. revert l; induction n as [|n IH]; intros [|x l] H; simpl; auto. inversion H; auto. Qed.

Lemma Forall_skipn {A} (P : A -> Prop) (n : nat) (l : list A) :
  Forall P l -> Forall P (skipn n l).
Proof. revert l; induction n as [|n IH]; intros [|x l] H; simpl; auto. inversion H; auto. Qed.

Lemma Forall_repeat {A} (P : A -> Prop) (x : A) (n : nat) : P x -> Forall P (repeat x n).
Proof. intros Hx. induction n; simpl; auto. Qed.

(** The first component of a triple under [Some], without the
    simplification [injection] does to it. *)
Lemma Some_fst3 {A B C} (a a' : A) (b b' : B) (c c' : C) :
  Some (a, b, c) = Some (a', b', c') -> a' = a.
Proof. congruence. Qed.

(** ** Automation *)

Create HintDb cloudinit discriminated.
Create Rewrite HintDb go_rw.

#[export] Hint Rewrite append_assoc append_nil_r : go_rw.
#[export] Hint Resolve append_inv_l : cloudinit.
#[export] Hint Resolve Forall_firstn Forall_skipn Forall_repeat : cloudinit.

Lemma bind_ret_l {S A B} (a : A) (k : A -> goM S B) (s : S) :
  bind (ret a) k s = k a s.
Proof. reflexivity. Qed.

Lemma bind_lift_ok {S A B} (a : A) (k : A -> goM S B) (s : S) :
  bind (lift (Ok a)) k s = k a s.
Proof. reflexivity. Qed.

Lemma bind_lift_err {S A B} (e : error) (k : A -> goM S B) (s : S) :
  bind (lift (Err e)) k s = (s, Err e).
Proof. reflexivity. Qed.

#[export] Hint Rewrite @bind_ret_l @bind_lift_ok @bind_lift_err : go_rw.

(** [go_unfold]: expose the plumbing of a builder run, so that the run
    reduces to the struct updates and the results it makes. *)
Ltac go_unfold := unfold bind, ret, get, modify, lift, throw, mapErr, zoom.

(** [zbool]: turn the boolean tests of the code ([&&], [||], [negb],
    [Z.leb], [Z.ltb]) in the hypotheses into propositions for [lia]. *)
Ltac zbool := repeat match goal with
  | H : (_ && _) = true |- _ => apply andb_prop in H as [? ?]
  | H : (_ || _) = false |- _ => apply orb_false_elim in H as [? ?]
  | H : negb _ = false |- _ => apply negb_false_iff in H
  | H : (_ <=? _)%Z = true |- _ => apply Z.leb_le in H
  | H : (_ <=? _)%Z = false |- _ => apply Z.leb_gt in H
  | H : (_ <? _)%Z = true |- _ => apply Z.ltb_lt in H
  | H : (_ <? _)%Z = false |- _ => apply Z.ltb_ge in H
  end.

(** ** Invariants of the struct

    [preserves P c]: running [c] from a struct satisfying [P] leaves a
    struct satisfying [P], whatever [c] returns, an early error included.
    The rules below follow the combinators, so that an invariant of a
    builder is proved step by step ([preserves_split]). *)
Definition preserves {S A} (P : S -> Prop) (c : goM S A) : Prop :=
  forall s, P s -> P (fst (c s)).

Lemma preserves_get {S} (P : S -> Prop) : preserves P get.
Proof. intros s H. exact H. Qed.
Lemma preserves_ret {S A} (P : S -> Prop) (a : A) : preserves P (ret a).
Proof. intros s H. exact H. Qed.
Lemma preserves_lift {S A} (P : S -> Prop) (r : result A) : preserves P (lift r).
Proof. intros s H. exact H. Qed.
Lemma preserves_modify {S} (P : S -> Prop) (f : S -> S) :
  (forall s, P s -> P (f s)) -> preserves P (modify f).
Proof. intros Hf s H. exact (Hf s H). Qed.
Lemma preserves_bind {S A B} (P : S -> Prop) (c : goM S A) (k : A -> goM S B) :
  preserves P c -> (forall a, preserves P (k a)) -> preserves P (bind c k).
Proof.
  intros Hc Hk s H. specialize (Hc s H). unfold bind.
  destruct (c s) as [s' [a|e]]; simpl in *; [apply Hk|]; exact Hc.
Qed.
Lemma preserves_mapErr {S A} (P : S -> Prop) (f : error -> error) (c : goM S A) :
  preserves P c -> preserves P (mapErr f c).
Proof. intros Hc s H. specialize (Hc s H). unfold mapErr. now destruct (c s) as [s' [a|e]]. Qed.
Lemma preserves_zoom {S T A} (P : S -> Prop) (getf : S -> T) (setf : S -> T -> S) (c : goM T A) :
  (forall s t, P s -> P (setf s t)) -> preserves P (zoom getf setf c).
Proof. intros Hs s H. unfold zoom. destruct (c (getf s)). exact (Hs _ _ H). Qed.

Create HintDb preserves discriminated.
#[export] Hint Resolve preserves_get preserves_ret preserves_lift : preserves.

(** [preserves_split]: reduce an invariant of a composed builder to one
    obligation per struct update ([modify f]) and per embedded-field write
    ([zoom]). *)
Ltac preserves_split :=
  repeat match goal with
  | |- preserves _ (bind _ _) => apply preserves_bind; [|intros ?]
  | |- preserves _ (match ?x with pair _ _ => _ end) => destruct x
  | |- preserves _ (let _ := _ in _) => cbv zeta
  | |- preserves _ (modify _) => apply preserves_modify
  | |- preserves _ (zoom _ _ _) => apply preserves_zoom
  | |- preserves _ (mapErr _ _) => apply preserves_mapErr
  | |- preserves _ get => apply preserves_get
  | |- preserves _ (lift _) => apply preserves_lift
  | |- preserves _ (ret _) => apply preserves_ret
  end.
