(* ===== verification/GoStrings.v ===== *)
(** * Go's [strings], [strconv] and [fmt] functions called by the builders

    Each definition models one function of Go's standard library as the two
    builders call it: [strings.Contains] (controlplane_init.go:112),
    [strings.Replace(s, old, new, -1)] (:125), [fmt.Sprintf(" '%s' ", a)]
    (:123); and, for the collaborators of [Version] and [Template],
    [strings.Split] on a one-byte separator, [strings.Join],
    [strings.Repeat], [strconv.Itoa] and [strconv.Atoi] (with its optional
    sign, its [int64] range and its [NumError], whose number is printed
    by [strconv.Quote]).  Go strings are byte strings, [string] here. *)

From Stdlib Require Import String Ascii List ZArith Lia Bool.
From Stdlib Require Import DecimalString DecimalN DecimalZ.
From S2P Require Import Prelude.
Import ListNotations.
Open Scope string_scope.

(** ** Writing Go's raw strings *)

(** The double-quote byte, and a text made of lines each ended by a
    newline: how the modelled Go raw strings (backquoted templates) are
    written here, line for line. *)
Definition dq : string := String (ascii_of_nat 34) "".
Definition nl : ascii := "010".

Fixpoint unlines (ls : list string) : string :=
  match ls with
  | [] => ""
  | l :: ls' => l ++ String nl (unlines ls')
  end.

(** ** [strings.HasPrefix] and [strings.Contains] *)

(** [strings.Contains(s, substr)]: [substr] occurs in [s] at some offset
    ([Index(s, substr) >= 0]); the empty string occurs in every string. *)
Fixpoint contains (s substr : string) : bool :=
  prefix substr s ||
  match s with
  | "" => false
  | String _ s' => contains s' substr
  end.

(** ** [strings.Replace(s, old, new, -1)] for a non-empty [old]

    Go scans [s] left to right; at each offset where [old] starts it writes
    [new] and resumes after the match, so matches do not overlap.  [skip]
    counts the bytes of a match still to be dropped. *)
Fixpoint replace_from (old new : string) (skip : nat) (s : string) : string :=
  match s with
  | "" => ""
  | String c s' =>
      match skip with
      | S k => replace_from old new k s'
      | O => if prefix old s
             then new ++ replace_from old new (String.length old - 1) s'
             else String c (replace_from old new 0 s')
      end
  end.

(** For an empty [old] Go inserts [new] before every UTF-8 sequence and at
    the end; the builders never call it so, and the model inserts [new]
    before every byte, the same on ASCII text. *)
Fixpoint insert_everywhere (new s : string) : string :=
  match s with
  | "" => new
  | String c s' => new ++ String c (insert_everywhere new s')
  end.

Definition Replace (s old new : string) : string :=
  match old with
  | "" => insert_everywhere new s
  | _ => replace_from old new 0 s
  end.

(** ** [fmt.Sprintf(" '%s' ", addon)] (controlplane_init.go:123) *)
Definition sprintf_quoted (a : string) : string := " '" ++ a ++ "' ".

(** ** [strings.Split(s, sep)] with a one-byte [sep], and [strings.Join] *)

(** [strings.Split(s, string(c))]: the pieces between the occurrences of
    [c]; n occurrences give n+1 pieces, so [Split("", ".")] is [[""]]. *)
Fixpoint SplitByte (c : ascii) (s : string) : list string :=
  match s with
  | "" => [""]
  | String x s' =>
      let r := SplitByte c s' in
      if Ascii.eqb x c then "" :: r
      else match r with
           | p :: ps => String x p :: ps
           | [] => [String x ""]
           end
  end.

(** [strings.Join(elems, sep)]. *)
Fixpoint Join (elems : list string) (sep : string) : string :=
  match elems with
  | [] => ""
  | [e] => e
  | e :: es => e ++ sep ++ Join es sep
  end.

(** [strings.Repeat(s, count)] for [count >= 0]. *)
Fixpoint Repeat (s : string) (count : nat) : string :=
  match count with
  | O => ""
  | S k => s ++ Repeat s k
  end.

(** ** [strconv.Itoa] and [strconv.Atoi] on Go's 64-bit [int] *)

Definition MaxInt64 : Z := 9223372036854775807.
Definition MinInt64 : Z := -9223372036854775808.

(** [strconv.Itoa(i)]: decimal, with a leading '-' when negative. *)
Definition Itoa (z : Z) : string := NilEmpty.string_of_int (Z.to_int z).

(** [strconv.Quote(s)] of the number in a [NumError]: a double-quoted Go
    literal; on ASCII, the quote and the backslash are escaped with a
    backslash, the control bytes with their letter escape ([\a], [\b],
    [\f], [\n], [\r], [\t], [\v]) or [\xNN], and the other bytes are
    kept.  Bytes from 0x80 up are kept as they are, which is what Quote does
    with valid UTF-8 of printable runes. *)
Definition hexDigit (n : nat) : string := String (ascii_of_nat (if Nat.ltb n 10 then 48 + n else 87 + n)%nat) "".
Definition quoteByte (c : ascii) : string :=
  let n := nat_of_ascii c in
  if Nat.eqb n 34 then "\" ++ dq
  else if Nat.eqb n 92 then "\\"
  else if Nat.eqb n 7 then "\a" else if Nat.eqb n 8 then "\b" else if Nat.eqb n 12 then "\f"
  else if Nat.eqb n 10 then "\n" else if Nat.eqb n 13 then "\r" else if Nat.eqb n 9 then "\t"
  else if Nat.eqb n 11 then "\v"
  else if Nat.ltb n 32 || (Nat.eqb n 127) then "\x" ++ hexDigit (Nat.div n 16) ++ hexDigit (Nat.modulo n 16)
  else String c "".
Fixpoint quoteBytes (s : string) : string :=
  match s with
  | "" => ""
  | String c r => quoteByte c ++ quoteBytes r
  end.
Definition Quote (s : string) : string := dq ++ quoteBytes s ++ dq.

(** The optional sign of [strconv.Atoi] and [ParseInt]: a leading '-'
    negates, a leading '+' is dropped. *)
Definition signSplit (s : string) : bool * string :=
  match s with
  | String c r => if Ascii.eqb c "-" then (true, r) else if Ascii.eqb c "+" then (false, r) else (false, s)
  | "" => (false, "")
  end.

(** [strconv.Atoi(s)] on 64-bit [int]: an optional sign and a non-empty
    run of decimal digits; anything else is a syntax error, a value outside
    [[MinInt64, MaxInt64]] a range error, both a [NumError] naming [s].
    The fast path of Atoi (fewer than 19 bytes) and [ParseInt(s, 10, 0)]
    agree on every input, so one definition models both. *)
Definition Atoi (s : string) : result Z :=
  let fail (why : string) := Err (ErrMsg ("strconv.Atoi: parsing " ++ Quote s ++ ": " ++ why)) in
  let (neg, digits) := signSplit s in
  match digits with
  | "" => fail "invalid syntax"
  | _ =>
      match NilEmpty.uint_of_string digits with
      | Some u =>
          let n := Z.of_N (N.of_uint u) in
          let z := if neg then (- n)%Z else n in
          if (MinInt64 <=? z)%Z && (z <=? MaxInt64)%Z then Ok z else fail "value out of range"
      | None => fail "invalid syntax"
      end
  end.

(** ** Lemmas *)

Lemma prefix_app (p s : string) : prefix p (p ++ s) = true.
Proof.
  induction p as [|x p IH]; simpl; [now destruct s|].
  destruct (ascii_dec x x); [exact IH | contradiction].
Qed.

Lemma prefix_spec (p s : string) : prefix p s = true <-> exists r, s = p ++ r.
Proof.
  split.
  - revert s; induction p as [|x p IH]; intros s H; [now exists s|].
    destruct s as [|y s]; [discriminate|]. simpl in H.
    destruct (ascii_dec x y) as [->|]; [|discriminate].
    destruct (IH s H) as [r ->]. now exists r.
  - intros [r ->]. apply prefix_app.
Qed.

Lemma contains_empty (s : string) : contains s "" = true.
Proof. now destruct s. Qed.

Lemma contains_prefix (s sub : string) : prefix sub s = true -> contains s sub = true.
Proof. destruct s; cbn [contains]; intros ->; reflexivity. Qed.

Lemma contains_spec (s sub : string) :
  contains s sub = true <-> exists a b, s = a ++ sub ++ b.
Proof.
  split.
  - induction s as [|x s IH]; cbn [contains]; intros H; apply orb_true_iff in H;
      destruct H as [H|H].
    + apply prefix_spec in H as [r ->]. now exists "", r.
    + discriminate.
    + apply prefix_spec in H as [r Hr]. exists "", r. exact Hr.
    + destruct (IH H) as (a & b & ->). now exists (String x a), b.
  - intros (a & b & ->). induction a as [|x a IH]; cbn [contains append].
    + apply contains_prefix, prefix_app.
    + now rewrite IH, orb_true_r.
Qed.

Lemma contains_app_l (a b sub : string) :
  contains a sub = true -> contains (a ++ b) sub = true.
Proof.
  rewrite !contains_spec. intros (x & y & ->).
  exists x, (y ++ b). now rewrite !append_assoc.
Qed.

Lemma contains_app_r (a b sub : string) :
  contains b sub = true -> contains (a ++ b) sub = true.
Proof.
  rewrite !contains_spec. intros (x & y & ->).
  exists (a ++ x), y. now rewrite !append_assoc.
Qed.

Lemma contains_self (s : string) : contains s s = true.
Proof. apply contains_spec. exists "", "". now rewrite append_nil_r. Qed.

#[export] Hint Resolve contains_app_l contains_app_r contains_self : cloudinit.

(** A string in which [old] does not occur is left as it is. *)
Lemma Replace_no_match (s old new : string) :
  contains s old = false -> Replace s old new = s.
Proof.
  destruct old as [|o old]; [now destruct s; simpl|]. unfold Replace.
  induction s as [|x s IH]; simpl; [reflexivity|].
  intros H. apply orb_false_iff in H as [Hp Hc].
  simpl in Hp. rewrite Hp. now rewrite IH.
Qed.

(** [SplitByte] on a piece without the separator, then the separator. *)
Lemma SplitByte_no_sep (c : ascii) (a : string) :
  contains a (String c "") = false -> SplitByte c a = [a].
Proof.
  induction a as [|x a IH]; simpl; [reflexivity|].
  intros H. apply orb_false_iff in H as [Hp Hc].
  destruct (Ascii.eqb_spec x c) as [->|Hne].
  - destruct (ascii_dec c c); [|contradiction]. now destruct a.
  - now rewrite IH.
Qed.

Lemma SplitByte_app (c : ascii) (a b : string) :
  contains a (String c "") = false ->
  SplitByte c (a ++ String c b) = a :: SplitByte c b.
Proof.
  induction a as [|x a IH]; simpl; intros H.
  - now rewrite Ascii.eqb_refl.
  - apply orb_false_iff in H as [Hp Hc].
    destruct (Ascii.eqb_spec x c) as [->|Hne].
    + destruct (ascii_dec c c); [|contradiction]. now destruct a.
    + now rewrite IH.
Qed.

(** Round trip: joining the pieces of [strings.Split(s, sep)] with [sep]
    gives [s] back. *)
Lemma Join_SplitByte (c : ascii) (s : string) :
  Join (SplitByte c s) (String c "") = s.
Proof.
  induction s as [|x s IH]; simpl; [reflexivity|].
  destruct (SplitByte c s) as [|p ps] eqn:E; [destruct s; discriminate|].
  destruct (Ascii.eqb_spec x c) as [->|Hne].
  - simpl. f_equal. now destruct ps.
  - destruct ps; simpl in *; now rewrite IH.
Qed.

Lemma SplitByte_not_nil (c : ascii) (s : string) : SplitByte c s <> [].
Proof.
  destruct s as [|x s]; simpl; [discriminate|].
  destruct (Ascii.eqb x c); [discriminate|]. now destruct (SplitByte c s).
Qed.

Lemma SplitByte_head (c x : ascii) (s : string) :
  x <> c -> exists p ps, SplitByte c (String x s) = String x p :: ps.
Proof.
  intros H. simpl. destruct (Ascii.eqb_spec x c); [contradiction|].
  destruct (SplitByte c s) as [|p ps] eqn:E; [now destruct (SplitByte_not_nil c s)|].
  eauto.
Qed.

Lemma contains_trans (s m p : string) :
  contains s m = true -> contains m p = true -> contains s p = true.
Proof.
  rewrite !contains_spec. intros (a & b & ->) (c & d & ->).
  exists (a ++ c), (d ++ b). now autorewrite with go_rw.
Qed.

(** *** One-byte patterns, [Split] and [Join] *)

Lemma contains_char_cons (c x : ascii) (s : string) :
  contains (String x s) (String c "") = Ascii.eqb x c || contains s (String c "").
Proof.
  cbn [contains prefix]. destruct (ascii_dec c x) as [->|Hne].
  - rewrite Ascii.eqb_refl. now destruct s.
  - destruct (Ascii.eqb_spec x c); [congruence | reflexivity].
Qed.

Lemma contains_char_app (c : ascii) (a b : string) :
  contains (a ++ b) (String c "") = contains a (String c "") || contains b (String c "").
Proof.
  induction a as [|x a IH]; [reflexivity|].
  cbn [append]. rewrite !contains_char_cons, IH. apply orb_assoc.
Qed.

Lemma SplitByte_pieces (c : ascii) (s : string) :
  Forall (fun x => contains x (String c "") = false) (SplitByte c s).
Proof.
  induction s as [|x s IH]; simpl; [now constructor|].
  destruct (Ascii.eqb x c) eqn:E; [now constructor|].
  destruct (SplitByte c s) as [|p ps]; constructor; try rewrite contains_char_cons, E;
    inversion IH; auto.
Qed.

Lemma SplitByte_Join (c : ascii) (l : list string) :
  Forall (fun x => contains x (String c "") = false) l -> l <> [] ->
  SplitByte c (Join l (String c "")) = l.
Proof.
  induction l as [|x [|y l] IH]; intros Hl Hne; [contradiction| |].
  - inversion Hl. now apply SplitByte_no_sep.
  - inversion Hl; subst.
    change (Join (x :: y :: l) (String c "")) with (x ++ String c (Join (y :: l) (String c ""))).
    rewrite SplitByte_app by assumption.
    now rewrite IH by (auto || discriminate).
Qed.

Lemma Repeat_no_char (c x : ascii) (i : nat) :
  x <> c -> contains (Repeat (String x "") i) (String c "") = false.
Proof.
  intros H. induction i as [|i IH]; [reflexivity|].
  cbn [Repeat]. rewrite contains_char_app, IH, contains_char_cons.
  destruct (Ascii.eqb_spec x c); [contradiction | reflexivity].
Qed.

Lemma Repeat_length (s : string) (i : nat) :
  String.length (Repeat s i) = i * String.length s.
Proof. induction i; cbn [Repeat]; [reflexivity|]. rewrite length_append, IHi. lia. Qed.

Lemma Join_pad (pad : string) (c : ascii) (l : list string) : l <> [] ->
  pad ++ Join l (String c pad) = Join (map (fun x => pad ++ x) l) (String c "").
Proof.
  induction l as [|x [|y l] IH]; intros Hl; [contradiction | reflexivity |].
  cbn [map Join] in *. rewrite <- IH by discriminate. now rewrite !append_assoc.
Qed.

Lemma substring_app (p s : string) :
  substring (String.length p) (String.length s) (p ++ s) = s.
Proof.
  induction p as [|x p IH]; simpl; [|exact IH].
  induction s as [|x s IH]; simpl; [reflexivity | now rewrite IH].
Qed.

(** *** Decimal numerals *)

Lemma string_of_uint_not_empty (p : positive) :
  NilEmpty.string_of_uint (Pos.to_uint p) <> "".
Proof.
  intros H. assert (Hu := NilEmpty.usu (Pos.to_uint p)). rewrite H in Hu.
  simpl in Hu. injection Hu as Hu.
  assert (Ho := Unsigned.of_to (N.pos p)). simpl in Ho.
  now rewrite <- Hu in Ho.
Qed.

Lemma Itoa_nonneg (z : Z) : (0 <= z)%Z ->
  Itoa z = NilEmpty.string_of_uint (N.to_uint (Z.to_N z)).
Proof. intros H. destruct z; [reflexivity | reflexivity | lia]. Qed.

Lemma Itoa_neg (p : positive) :
  Itoa (Z.neg p) = String "-" (NilEmpty.string_of_uint (Pos.to_uint p)).
Proof. reflexivity. Qed.

(** A numeral starts with a digit: [signSplit] leaves it whole. *)
Lemma signSplit_uint (u : Decimal.uint) :
  signSplit (NilEmpty.string_of_uint u) = (false, NilEmpty.string_of_uint u).
Proof. destruct u; reflexivity. Qed.

Lemma Atoi_digits (neg : bool) (s : string) (p : positive) :
  signSplit s = (neg, NilEmpty.string_of_uint (Pos.to_uint p)) ->
  (MinInt64 <= (if neg then Z.neg p else Z.pos p) <= MaxInt64)%Z ->
  Atoi s = Ok (if neg then Z.neg p else Z.pos p).
Proof.
  intros Hs Hb. unfold Atoi. rewrite Hs.
  destruct (NilEmpty.string_of_uint (Pos.to_uint p)) eqn:E.
  - exfalso. now apply (string_of_uint_not_empty p).
  - rewrite <- E, NilEmpty.usu. change (Pos.to_uint p) with (N.to_uint (N.pos p)).
    rewrite Unsigned.of_to. cbn [Z.of_N].
    destruct neg; cbn [Z.opp]; rewrite !(proj2 (Z.leb_le _ _)) by lia; reflexivity.
Qed.

(** Round trip: [strconv.Atoi(strconv.Itoa(z)) = z] on every [int]. *)
Lemma Atoi_Itoa (z : Z) : (MinInt64 <= z <= MaxInt64)%Z -> Atoi (Itoa z) = Ok z.
Proof.
  intros H. destruct z as [|p|p]; [reflexivity| |].
  - rewrite (Itoa_nonneg (Z.pos p)) by lia.
    exact (Atoi_digits false _ p (signSplit_uint _) H).
  - rewrite Itoa_neg. exact (Atoi_digits true (String "-" _) p eq_refl H).
Qed.

(** Bounds: what [Atoi] accepts is a value of Go's [int]. *)
Lemma Atoi_bounds (s : string) (z : Z) :
  Atoi s = Ok z -> (MinInt64 <= z <= MaxInt64)%Z.
Proof.
  unfold Atoi. destruct (signSplit s) as [neg [|x d]]; [discriminate|].
  destruct (NilEmpty.uint_of_string (String x d)); [|discriminate].
  match goal with |- context [if ?c then _ else _] => destruct c eqn:Hc end; [|discriminate].
  intros Hz. injection Hz as <-. apply andb_prop in Hc as [H1 H2].
  apply Z.leb_le in H1, H2. lia.
Qed.
