(* ===== verification/Version.v ===== *)
(** * Kubernetes version to snap channel

    [extractVersionParts] and [generateSnapChannelArgument] are package
    helpers outside src/ (the builders call them at controlplane_init.go:100
    and :104, controlplane_join.go:81 and :85); they are modelled from the
    spec (section 6): a version is "major.minor[.patch...]" with decimal
    numerals, and the channel argument is the snap flag selecting the
    [major.minor] track, as the template runs
    [snap install microk8s --classic {{.Version}}]. *)

From Stdlib Require Import String Ascii List ZArith Lia Bool.
From Stdlib Require Import DecimalString.
From S2P Require Import Prelude GoStrings.
Import ListNotations.
Open Scope string_scope.

Module Version.

(** [extractVersionParts(version) (int, int, error)]: split on '.', at least
    two parts, the first two decimal [int]s; every failure is the version
    format error of spec section 7, wrapping [strconv]'s error when a part
    is not a number. *)
Definition extractVersionParts (version : string) : result (Z * Z) :=
  match SplitByte "." version with
  | p0 :: p1 :: _ =>
      match Atoi p0 with
      | Err e => Err (Wrapf e ("failed to parse major version of " ++ version))
      | Ok major =>
          match Atoi p1 with
          | Err e => Err (Wrapf e ("failed to parse minor version of " ++ version))
          | Ok minor => Ok (major, minor)
          end
      end
  | _ => Err (ErrMsg ("unexpected version format " ++ version ++ ": expected major.minor"))
  end.

(** [generateSnapChannelArgument(major, minor)]: the snap flag of the
    [major.minor] track. *)
Definition generateSnapChannelArgument (major minor : Z) : string :=
  "--channel=" ++ Itoa major ++ "." ++ Itoa minor.

(** A version as the orchestrator writes it, for the round trip. *)
Definition showVersion (major minor : Z) (patch : option Z) : string :=
  Itoa major ++ "." ++ Itoa minor ++
  match patch with Some p => "." ++ Itoa p | None => "" end.

(** ** Lemmas *)

Lemma string_of_uint_no_dot (u : Decimal.uint) :
  contains (NilEmpty.string_of_uint u) "." = false.
Proof. induction u; simpl; try rewrite IHu; reflexivity. Qed.

Lemma Itoa_no_dot (z : Z) : contains (Itoa z) "." = false.
Proof.
  destruct z as [|p|p]; [reflexivity| |].
  - rewrite Itoa_nonneg by lia. apply string_of_uint_no_dot.
  - rewrite Itoa_neg, contains_char_cons. apply string_of_uint_no_dot.
Qed.

#[export] Hint Resolve Itoa_no_dot : cloudinit.

Lemma SplitByte_showVersion (a b : Z) (patch : option Z) :
  exists rest, SplitByte "." (showVersion a b patch) = Itoa a :: Itoa b :: rest.
Proof.
  unfold showVersion.
  destruct patch as [p|]; cbn [append]; rewrite SplitByte_app by auto with cloudinit.
  - rewrite SplitByte_app by auto with cloudinit. eauto.
  - rewrite append_nil_r, SplitByte_no_sep by auto with cloudinit. eauto.
Qed.

(** A numeral has at most one sign: [Atoi] refuses "--...". *)
Lemma Atoi_double_dash (s : string) :
  Atoi (String "-" (String "-" s)) =
    Err (ErrMsg ("strconv.Atoi: parsing " ++ Quote (String "-" (String "-" s)) ++ ": invalid syntax")).
Proof. unfold Atoi. cbn. now destruct (NilEmpty.uint_of_string s). Qed.

(** Round trip: the parts of a printed version are read back. *)
Lemma extractVersionParts_showVersion (a b : Z) (patch : option Z) :
  (MinInt64 <= a <= MaxInt64)%Z -> (MinInt64 <= b <= MaxInt64)%Z ->
  extractVersionParts (showVersion a b patch) = Ok (a, b).
Proof.
  intros Ha Hb. unfold extractVersionParts.
  destruct (SplitByte_showVersion a b patch) as [rest ->].
  now rewrite !Atoi_Itoa.
Qed.


(** Bounds: the parts of an accepted version are Go [int]s. *)
Lemma extractVersionParts_bounds (v : string) (major minor : Z) :
  extractVersionParts v = Ok (major, minor) ->
  (MinInt64 <= major <= MaxInt64)%Z /\ (MinInt64 <= minor <= MaxInt64)%Z.
Proof.
  unfold extractVersionParts.
  destruct (SplitByte "." v) as [|p0 [|p1 rest]]; try discriminate.
  destruct (Atoi p0) as [x|] eqn:E0; [|discriminate].
  destruct (Atoi p1) as [y|] eqn:E1; [|discriminate].
  intros H; injection H as -> ->.
  split; eauto using Atoi_bounds.
Qed.

(** Error: a version without a '.' has no minor part and is refused. *)
Lemma extractVersionParts_no_dot (v : string) :
  contains v "." = false ->
  extractVersionParts v =
    Err (ErrMsg ("unexpected version format " ++ v ++ ": expected major.minor")).
Proof. intros H. unfold extractVersionParts. now rewrite SplitByte_no_sep. Qed.

Lemma channel_suffix (a b : Z) :
  generateSnapChannelArgument a b = "--channel=" ++ (Itoa a ++ "." ++ Itoa b).
Proof. reflexivity. Qed.

(** The channel determines the version's track: two (major, minor) pairs
    with the same channel argument are equal. *)
Lemma generateSnapChannelArgument_inj (a b a' b' : Z) :
  (MinInt64 <= a <= MaxInt64)%Z -> (MinInt64 <= b <= MaxInt64)%Z ->
  (MinInt64 <= a' <= MaxInt64)%Z -> (MinInt64 <= b' <= MaxInt64)%Z ->
  generateSnapChannelArgument a b = generateSnapChannelArgument a' b' ->
  a = a' /\ b = b'.
Proof.
  intros Ha Hb Ha' Hb' H. rewrite !channel_suffix in H.
  apply append_inv_l in H.
  assert (Hv : showVersion a b None = showVersion a' b' None)
    by (unfold showVersion; now rewrite !append_nil_r).
  apply (f_equal extractVersionParts) in Hv.
  rewrite !extractVersionParts_showVersion in Hv by assumption.
  now injection Hv.
Qed.

(** A channel argument is not a version: normalising a request twice makes
    the second [extractVersionParts] fail, on the major part
    "--channel=<a>", which has two signs. *)
Lemma extractVersionParts_channel (a b : Z) :
  exists e, extractVersionParts (generateSnapChannelArgument a b) = Err e.
Proof.
  unfold extractVersionParts, generateSnapChannelArgument.
  replace ("--channel=" ++ Itoa a ++ "." ++ Itoa b)
    with (("--channel=" ++ Itoa a) ++ String "." (Itoa b)) by now rewrite append_assoc.
  rewrite SplitByte_app.
  - destruct (SplitByte "." (Itoa b)) as [|p ps] eqn:E; [now destruct (SplitByte_not_nil "." (Itoa b))|].
    cbn [append]. rewrite Atoi_double_dash. eauto.
  - rewrite contains_char_app, Itoa_no_dot. reflexivity.
Qed.


End Version.
