(* ===== verification/NetIP.v ===== *)
(** * [net.ParseIP] and the endpoint classification

    The builders classify the control-plane endpoint with
    [net.ParseIP(input.ControlPlaneEndpoint)] (controlplane_init.go:127,
    controlplane_join.go:88): a non-nil result makes the endpoint type "IP",
    otherwise it stays "DNS".  [ParseIP] is Go's standard library
    (src/net/ip.go, the parser of Go 1.17 to 1.21, before it moved onto
    net/netip); it is modelled here function by function: [dtoi], [xtoi],
    [parseIPv4], [parseIPv6], [ParseIP].  An [IP] is a 16-byte slice, each
    byte a [Z] in [0, 255]; IPv4 addresses are returned in their 16-byte
    IPv4-in-IPv6 form, as Go does.  The IPv6 loop is written twice: with
    the fuel of its 8 rounds ([parseIPv6_loop], what [ParseIP] runs) and
    with Go's condition [i < 16] by well-founded recursion
    ([parseIPv6_go]); the lemma [parseIPv6_go_fuel] proves them equal, so
    the fuel is the loop, not a cut-off.  The theorems are about the
    endpoint type the builders compute: every dotted-decimal IPv4 string
    parses back to its address; an endpoint with no ':' and a byte other
    than a digit or '.' (a host name) is typed "DNS"; an IPv4 literal whose
    last octet has a leading zero is typed "DNS". *)

From Stdlib Require Import String Ascii List ZArith Lia Bool DecimalString.
From Equations Require Import Equations.
From S2P Require Import Prelude GoStrings.
Import ListNotations.
Open Scope string_scope.

Module NetIP.

(** [dtoi(s) (n, i, ok)]: the decimal number at the start of [s], the
    count [i] of its digits, and whether there was one below [big]
    ([0xFFFFFF]); called as [dtoi 0 0 s].  The model returns [s[i:]] as
    well, the rest that every caller goes on with. *)
Fixpoint dtoi (n : Z) (i : nat) (s : string) : Z * nat * bool * string :=
  match s with
  | String ch s' =>
      let v := Z.of_nat (nat_of_ascii ch) in
      if ((48 <=? v) && (v <=? 57))%Z then                   (* '0' <= s[i] <= '9' *)
        let n' := (n * 10 + (v - 48))%Z in
        if (16777215 <=? n')%Z then (16777215%Z, i, false, s)  (* n >= big *)
        else dtoi n' (S i) s'
      else (n, i, negb (Nat.eqb i 0), s)
  | "" => (n, i, negb (Nat.eqb i 0), "")
  end.

(** [xtoi(s) (n, i, ok)]: the same for a hexadecimal number. *)
Fixpoint xtoi (n : Z) (i : nat) (s : string) : Z * nat * bool * string :=
  match s with
  | String ch s' =>
      let v := Z.of_nat (nat_of_ascii ch) in
      let d := if ((48 <=? v) && (v <=? 57))%Z then Some (v - 48)%Z          (* '0'..'9' *)
               else if ((97 <=? v) && (v <=? 102))%Z then Some (v - 97 + 10)%Z  (* 'a'..'f' *)
               else if ((65 <=? v) && (v <=? 70))%Z then Some (v - 65 + 10)%Z   (* 'A'..'F' *)
               else None in
      match d with
      | Some d =>
          let n' := (n * 16 + d)%Z in
          if (16777215 <=? n')%Z then (0%Z, i, false, s) else xtoi n' (S i) s'
      | None => (n, i, negb (Nat.eqb i 0), s)
      end
  | "" => (n, i, negb (Nat.eqb i 0), "")
  end.

(** [IPv4(a, b, c, d)]: the 16-byte form with the v4InV6Prefix. *)
Definition IPv4 (a b c d : Z) : list Z :=
  [0; 0; 0; 0; 0; 0; 0; 0; 0; 0; 255; 255; a; b; c; d]%Z.

(** The body of [parseIPv4]'s loop after the separator: [dtoi], the range
    check, the leading-zero check, and [s = s[c:]]. *)
Definition read_octet (s : string) : option (Z * string) :=
  let '(n, c, ok, rest) := dtoi 0 0 s in
  if negb ok || (255 <? n)%Z then None
  else if Nat.ltb 1 c && prefix "0" s then None   (* non-zero octet with leading zero *)
  else Some (n, rest).

(** [parseIPv4(s)]: the loop [for i := 0; i < IPv4len; i++] ([IPv4len = 4])
    reads one
    octet per round; [k] is the number of rounds left. *)
Fixpoint parseIPv4_loop (k i : nat) (s : string) : option (list Z) :=
  match k with
  | O => match s with "" => Some [] | _ => None end   (* len(s) != 0 *)
  | S k' =>
      match s with
      | "" => None                                        (* missing octets *)
      | String ch s1 =>
          let s2 := if Nat.eqb i 0 then Some s
                    else if Ascii.eqb ch "." then Some s1 else None in
          match s2 with
          | None => None
          | Some s2 =>
              match read_octet s2 with
              | None => None
              | Some (n, s3) => option_map (cons n) (parseIPv4_loop k' (S i) s3)
              end
          end
      end
  end.

Definition parseIPv4 (s : string) : option (list Z) :=
  match parseIPv4_loop 4 0 s with
  | Some [a; b; c; d] => Some (IPv4 a b c d)
  | _ => None
  end.

(** [parseIPv6(s)]: the loop [for i < 16] reads one hexadecimal group
    per round into [ip[i], ip[i+1]], or a trailing IPv4 address into
    [ip[i..i+4]], and records the byte position of a "::" in [ellipsis].
    [ip] holds the [i] bytes written so far ([16 = 16]).  Every round
    that goes on adds two bytes, so from [i = 0] the condition
    [i < 16] holds exactly for the first 8 rounds: [fuel] is the
    number of rounds left, [8 - i/2]. *)
Fixpoint parseIPv6_loop (fuel : nat) (ip : list Z) (ellipsis : option nat) (s : string)
  : option (list Z * option nat * string) :=
  match fuel with
  | O => Some (ip, ellipsis, s)
  | S fuel' =>
      let i := length ip in
      let '(n, c, ok, rest) := xtoi 0 0 s in
      if negb ok || (65535 <? n)%Z then None
      else if match rest with String ch _ => Ascii.eqb ch "." | "" => false end then
        (* c < len(s) && s[c] == '.': a trailing IPv4 address *)
        if (match ellipsis with None => true | Some _ => false end)
           && negb (Nat.eqb i 12) then None                       (* not the right place *)
        else if Nat.ltb 16 (i + 4) then None                     (* not enough room *)
        else match parseIPv4 s with
             | Some ip4 => Some ((ip ++ skipn 12 ip4)%list, ellipsis, "")
             | None => None
             end
      else
        let ip' := (ip ++ [Z.shiftr n 8; Z.land n 255])%list in
        match rest with
        | "" => Some (ip', ellipsis, "")                          (* end of string *)
        | String ch s1 =>
            if negb (Ascii.eqb ch ":") then None
            else match s1 with
                 | "" => None                                     (* a lone ':' at the end *)
                 | String ch2 s2 =>
                     if Ascii.eqb ch2 ":" then                    (* an ellipsis *)
                       match ellipsis with
                       | Some _ => None                           (* already have one *)
                       | None =>
                           match s2 with
                           | "" => Some (ip', Some (length ip'), "")
                           | _ => parseIPv6_loop fuel' ip' (Some (length ip')) s2
                           end
                       end
                     else parseIPv6_loop fuel' ip' ellipsis s1
                 end
        end
  end.

(** After the loop: the whole string must be used; a short address is
    expanded at the ellipsis, which must stand for at least one group. *)
Definition parseIPv6_finish (r : option (list Z * option nat * string)) : option (list Z) :=
  match r with
  | Some (ip, ellipsis, "") =>
      let i := length ip in
      if Nat.ltb i 16 then
        match ellipsis with
        | None => None
        | Some e => Some (firstn e ip ++ repeat 0%Z (16 - i) ++ skipn e ip)%list
        end
      else match ellipsis with
           | Some _ => None
           | None => Some ip
           end
  | _ => None
  end.

Definition parseIPv6 (s : string) : option (list Z) :=
  match s with
  | String c1 (String c2 s1) =>
      if Ascii.eqb c1 ":" && Ascii.eqb c2 ":" then               (* leading ellipsis *)
        match s1 with
        | "" => Some (repeat 0%Z 16)
        | _ => parseIPv6_finish (parseIPv6_loop 8 [] (Some 0) s1)
        end
      else parseIPv6_finish (parseIPv6_loop 8 [] None s)
  | _ => parseIPv6_finish (parseIPv6_loop 8 [] None s)
  end.

(** The loop of [parseIPv6] as Go writes it, [for i < IPv6len]: the
    condition is tested on the bytes written so far, and the recursion is
    well founded on the room left, [16 - i].  [parseIPv6_loop] counts the
    same rounds with fuel; [parseIPv6_go_loop] proves the two equal. *)
#[tactic="idtac"]
Equations? parseIPv6_go (ip : list Z) (ellipsis : option nat) (s : string)
  : option (list Z * option nat * string) by wf (16 - length ip) lt :=
  parseIPv6_go ip ellipsis s with inspect (Nat.ltb (length ip) 16) => {
    | exist _ false _ => Some (ip, ellipsis, s) ;
    | exist _ true Hi =>
      let i := length ip in
      let '(n, c, ok, rest) := xtoi 0 0 s in
      if negb ok || (65535 <? n)%Z then None
      else if match rest with String ch _ => Ascii.eqb ch "." | "" => false end then
        if (match ellipsis with None => true | Some _ => false end)
           && negb (Nat.eqb i 12) then None
        else if Nat.ltb 16 (i + 4) then None
        else match parseIPv4 s with
             | Some ip4 => Some ((ip ++ skipn 12 ip4)%list, ellipsis, "")
             | None => None
             end
      else
        let ip' := (ip ++ [Z.shiftr n 8; Z.land n 255])%list in
        match rest with
        | "" => Some (ip', ellipsis, "")
        | String ch s1 =>
            if negb (Ascii.eqb ch ":") then None
            else match s1 with
                 | "" => None
                 | String ch2 s2 =>
                     if Ascii.eqb ch2 ":" then
                       match ellipsis with
                       | Some _ => None
                       | None =>
                           match s2 with
                           | "" => Some (ip', Some (length ip'), "")
                           | _ => parseIPv6_go ip' (Some (length ip')) s2
                           end
                       end
                     else parseIPv6_go ip' ellipsis s1
                 end
        end }.
Proof.
  all: apply Nat.ltb_lt in Hi; unfold ip'; rewrite length_app; cbn [length]; lia.
Defined.

(** [ParseIP(s)]: the first '.' or ':' of [s] chooses the parser; a string
    with neither is not an address. *)
Fixpoint first_sep (s : string) : option ascii :=
  match s with
  | "" => None
  | String ch s' =>
      if Ascii.eqb ch "." || Ascii.eqb ch ":" then Some ch else first_sep s'
  end.

Definition ParseIP (s : string) : option (list Z) :=
  match first_sep s with
  | Some ch => if Ascii.eqb ch "." then parseIPv4 s else parseIPv6 s
  | None => None
  end.

(** The endpoint type both builders compute: ["DNS"], overwritten with
    ["IP"] when [ParseIP] accepts the endpoint (init.go:99,127-130,
    join.go:87-91). *)
Definition classifyEndpoint (endpoint : string) : string :=
  match ParseIP endpoint with
  | Some _ => "IP"
  | None => "DNS"
  end.

(** [IP.String()] of an IPv4 address: dotted decimal. *)
Definition IPv4String (a b c d : Z) : string :=
  Itoa a ++ "." ++ Itoa b ++ "." ++ Itoa c ++ "." ++ Itoa d.

Definition is_octet (a : Z) : Prop := (0 <= a <= 255)%Z.

(** The bytes a dotted-decimal IPv4 literal is made of: the digits [dtoi]
    reads and the separator '.'. *)
Definition dotted_char (c : ascii) : bool :=
  let v := Z.of_nat (nat_of_ascii c) in ((48 <=? v) && (v <=? 57))%Z || Ascii.eqb c ".".

(** What [parseIPv4] needs of a printed octet followed by "" or ".": [dtoi]
    reads it back with its length, and it has no leading zero.  Checked
    for each of the 256 octets. *)
Definition octet_reads_back (a : Z) (rest : string) : Prop :=
  dtoi 0 0 (Itoa a ++ rest) = (a, String.length (Itoa a), true, rest) /\
  (Nat.ltb 1 (String.length (Itoa a)) && prefix "0" (Itoa a ++ rest)) = false.

Definition ellipsis_within (ellipsis : option nat) (i : nat) : Prop :=
  match ellipsis with Some e => e <= i | None => True end.

(** ** Lemmas *)

Lemma octet_reads_back_all (a : Z) (r : string) :
  is_octet a -> octet_reads_back a "" /\ octet_reads_back a (String "." r).
Proof.
  unfold is_octet. intros Ha.
  assert (Hn : exists n, a = Z.of_nat n /\ n < 256) by (exists (Z.to_nat a); lia).
  destruct Hn as (n & -> & Hn). clear Ha.
  do 256 (destruct n as [|n]; [split; split; reflexivity|]). lia.
Qed.

Lemma octet_end (a : Z) : is_octet a -> octet_reads_back a "".
Proof. intros H. exact (proj1 (octet_reads_back_all a "" H)). Qed.

Lemma octet_dot (a : Z) (r : string) : is_octet a -> octet_reads_back a (String "." r).
Proof. intros H. exact (proj2 (octet_reads_back_all a r H)). Qed.

#[export] Hint Resolve octet_end octet_dot : cloudinit.

Lemma Itoa_octet_cons (a : Z) :
  is_octet a -> exists ch t, Itoa a = String ch t.
Proof.
  unfold is_octet. intros Ha. destruct a as [|q|q]; [do 2 eexists; reflexivity| |lia].
  unfold Itoa. simpl. destruct (NilEmpty.string_of_uint (Pos.to_uint q)) eqn:E.
  - now destruct (string_of_uint_not_empty q).
  - eauto.
Qed.

Lemma read_octet_Itoa (a : Z) (rest : string) :
  is_octet a -> octet_reads_back a rest -> read_octet (Itoa a ++ rest) = Some (a, rest).
Proof.
  unfold is_octet, read_octet. intros Ha [Hd Hz]. rewrite Hd, Hz.
  simpl. now destruct (Z.ltb_spec 255 a); [lia|].
Qed.

Lemma parseIPv4_loop_first (k : nat) (a : Z) (rest : string) :
  is_octet a -> octet_reads_back a rest ->
  parseIPv4_loop (S k) 0 (Itoa a ++ rest) = option_map (cons a) (parseIPv4_loop k 1 rest).
Proof.
  intros Ha Hr. destruct (Itoa_octet_cons a Ha) as (ch & t & E).
  cbn [parseIPv4_loop]. rewrite E. cbn [append Nat.eqb].
  rewrite <- append_cons, <- E, read_octet_Itoa by assumption. reflexivity.
Qed.

Lemma parseIPv4_loop_next (k i : nat) (a : Z) (rest : string) :
  i <> 0 -> is_octet a -> octet_reads_back a rest ->
  parseIPv4_loop (S k) i (String "." (Itoa a ++ rest)) =
    option_map (cons a) (parseIPv4_loop k (S i) rest).
Proof.
  intros Hi Ha Hr. cbn [parseIPv4_loop]. destruct i as [|i]; [contradiction|].
  cbn [Nat.eqb Ascii.eqb Bool.eqb]. now rewrite read_octet_Itoa.
Qed.

Lemma first_sep_app_none (p r : string) :
  first_sep p = None -> first_sep (p ++ r) = first_sep r.
Proof.
  induction p as [|x p IH]; simpl; [easy|].
  destruct (Ascii.eqb x "." || Ascii.eqb x ":"); [discriminate | exact IH].
Qed.

Lemma first_sep_Itoa (z : Z) : (0 <= z)%Z -> first_sep (Itoa z) = None.
Proof.
  intros H. rewrite Itoa_nonneg by exact H.
  generalize (N.to_uint (Z.to_N z)). induction u; simpl; auto.
Qed.

Lemma parseIP_ipv4_string (a b c d : Z) :
  is_octet a -> is_octet b -> is_octet c -> is_octet d ->
  ParseIP (IPv4String a b c d) = Some (IPv4 a b c d).
Proof.
  intros Ha Hb Hc Hd.
  unfold ParseIP, IPv4String.
  rewrite first_sep_app_none by (apply first_sep_Itoa; unfold is_octet in Ha; lia).
  cbn [append first_sep Ascii.eqb Bool.eqb orb].
  unfold parseIPv4.
  change ("." ++ ?x) with (String "." x).
  rewrite parseIPv4_loop_first by auto with cloudinit.
  do 2 (rewrite parseIPv4_loop_next by auto with cloudinit).
  rewrite <- (append_nil_r (Itoa d)).
  rewrite parseIPv4_loop_next by auto with cloudinit.
  reflexivity.
Qed.

(** *** Go's loop condition and the fuel *)

(** From [i] bytes written with [n] rounds of fuel left, [i + 2n = 16], the
    fuel-driven loop makes the same rounds as Go's [for i < 16]. *)
Lemma parseIPv6_go_loop (n : nat) (ip : list Z) (ell : option nat) (s : string) :
  length ip + 2 * n = 16 -> parseIPv6_go ip ell s = parseIPv6_loop n ip ell s.
Proof.
  revert ip ell s. induction n as [|n IH]; intros ip ell s Hn;
    rewrite parseIPv6_go_equation_1;
    destruct (inspect (Nat.ltb (length ip) 16)) as [[|] Hb].
  - pose proof (proj1 (Nat.ltb_lt _ _) Hb); lia.
  - reflexivity.
  - cbn [parseIPv6_go_unfold_clause_1 parseIPv6_loop].
    destruct (xtoi 0 0 s) as [[[v c] ok] rest].
    assert (Hl : forall a b, length (ip ++ [a; b]) + 2 * n = 16)
      by (intros; rewrite length_app; cbn [length]; lia).
    repeat match goal with
    | |- context [if ?b then _ else _] => destruct b
    | |- context [match ?x with Some _ => _ | None => _ end] => destruct x
    | |- context [match ?x with "" => _ | String _ _ => _ end] => destruct x
    end; try reflexivity; apply IH, Hl.
  - pose proof (proj1 (Nat.ltb_ge _ _) Hb); lia.
Qed.

(** *** The 16-byte invariant of [ParseIP]'s result *)

Lemma ellipsis_within_mono (ell : option nat) (i j : nat) :
  ellipsis_within ell i -> i <= j -> ellipsis_within ell j.
Proof. destruct ell; simpl; lia. Qed.

#[export] Hint Resolve ellipsis_within_mono : cloudinit.

Lemma parseIPv4_length (s : string) (ip : list Z) : parseIPv4 s = Some ip -> length ip = 16.
Proof.
  unfold parseIPv4. destruct (parseIPv4_loop 4 0 s) as [[|a [|b [|c [|d [|]]]]]|];
    intros H; try discriminate. now injection H as <-.
Qed.

(** The loop never writes past [ip[15]] and the ellipsis is a position in
    what it wrote. *)
Lemma parseIPv6_loop_inv (fuel : nat) (ip : list Z) (ell : option nat) (s : string)
      (ip' : list Z) (ell' : option nat) (s' : string) :
  parseIPv6_loop fuel ip ell s = Some (ip', ell', s') ->
  length ip + 2 * fuel <= 16 -> ellipsis_within ell (length ip) ->
  length ip' <= 16 /\ ellipsis_within ell' (length ip').
Proof.
  revert ip ell s ip' ell' s'.
  induction fuel as [|fuel IH]; intros ip ell s ip' ell' s' H Hlen Hell;
    lazy [parseIPv6_loop] in H.
  { injection H as <- <- <-. split; [lia | exact Hell]. }
  destruct (xtoi 0 0 s) as [[[n c] ok] rest].
  destruct (negb ok || (65535 <? n)%Z); [discriminate|].
  destruct (match rest with String ch _ => Ascii.eqb ch "." | "" => false end).
  - destruct (_ && _); [discriminate|].
    destruct (Nat.ltb_spec 16 (length ip + 4)); [discriminate|].
    destruct (parseIPv4 s) as [ip4|] eqn:E4; [|discriminate].
    apply parseIPv4_length in E4.
    assert (Hl4 : length (ip ++ skipn 12 ip4) = length ip + 4)
      by (rewrite length_app, length_skipn, E4; reflexivity).
    remember (ip ++ skipn 12 ip4)%list as ip6 eqn:E6.
    injection H as <- <- <-. rewrite Hl4.
    split; [lia | eapply ellipsis_within_mono; [eassumption | lia]].
  - remember (ip ++ [Z.shiftr n 8; Z.land n 255])%list as ip2 eqn:E2.
    assert (Hl : length ip2 = length ip + 2) by (subst ip2; rewrite length_app; reflexivity).
    destruct rest as [|ch s1].
    { injection H as <- <- <-. rewrite Hl.
      split; [lia | eapply ellipsis_within_mono; [eassumption | lia]]. }
    destruct (negb (Ascii.eqb ch ":")); [discriminate|].
    destruct s1 as [|ch2 s2]; [discriminate|].
    destruct (Ascii.eqb ch2 ":").
    + destruct ell; [discriminate|].
      destruct s2 as [|ch3 s3].
      * injection H as <- <- <-. simpl. lia.
      * apply (IH _ _ _ _ _ _ H); rewrite ?Hl; simpl; lia.
    + apply (IH _ _ _ _ _ _ H); rewrite Hl; [lia | eapply ellipsis_within_mono; [eassumption | lia]].
Qed.

(** *** A leading zero ends the octet *)

Lemma dtoi_count (n : Z) (i : nat) (s : string) :
  snd (fst (dtoi n i s)) = true -> i <= snd (fst (fst (dtoi n i s))).
Proof.
  revert n i. induction s as [|ch s IH]; intros n i; cbn [dtoi].
  - cbn. lia.
  - destruct ((48 <=? Z.of_nat (nat_of_ascii ch)) && (Z.of_nat (nat_of_ascii ch) <=? 57))%Z.
    + destruct (16777215 <=? _)%Z; [discriminate|]. intros H. specialize (IH _ _ H). lia.
    + cbn. lia.
Qed.

(** A decimal numeral starts with a digit. *)
Lemma Itoa_digit_head (d : Z) : (0 <= d)%Z ->
  exists x t, Itoa d = String x t /\
    ((48 <=? Z.of_nat (nat_of_ascii x)) && (Z.of_nat (nat_of_ascii x) <=? 57))%Z = true.
Proof.
  intros Hd. destruct d as [|q|q]; [now do 2 eexists| |lia].
  rewrite Itoa_nonneg by lia. cbn [Z.to_N N.to_uint].
  pose proof (string_of_uint_not_empty q) as Hne.
  destruct (Pos.to_uint q); [contradiction | ..]; do 2 eexists; split; reflexivity.
Qed.

(** One digit more, below [big]. *)
Lemma dtoi_digit (n : Z) (i : nat) (x : ascii) (s : string) :
  ((48 <=? Z.of_nat (nat_of_ascii x)) && (Z.of_nat (nat_of_ascii x) <=? 57))%Z = true ->
  (n * 10 + (Z.of_nat (nat_of_ascii x) - 48) < 16777215)%Z ->
  dtoi n i (String x s) = dtoi (n * 10 + (Z.of_nat (nat_of_ascii x) - 48)) (S i) s.
Proof.
  intros Hx Hb. cbn [dtoi]. rewrite Hx. now rewrite (proj2 (Z.leb_gt _ _) Hb).
Qed.

(** Go 1.17 and later refuse an octet of two or more digits that starts
    with '0'; [dtoi] would have read it, so the refusal is the
    leading-zero check alone. *)
Lemma read_octet_leading_zero (d : Z) (rest : string) :
  (0 <= d)%Z -> read_octet ("0" ++ Itoa d ++ rest) = None.
Proof.
  intros Hd. destruct (Itoa_digit_head d Hd) as (x & t & E & Hx). rewrite E.
  unfold read_octet. cbn [append].
  rewrite dtoi_digit by (reflexivity || (cbn; lia)).
  assert (Hr := Hx). apply andb_prop in Hr as [_ Hr]. apply Z.leb_le in Hr.
  rewrite dtoi_digit by (exact Hx || (simpl; lia)).
  pose proof (dtoi_count ((0 * 10 + (Z.of_nat (nat_of_ascii "0") - 48)) * 10 +
                          (Z.of_nat (nat_of_ascii x) - 48)) 2 (t ++ rest)) as Hc.
  destruct (dtoi _ 2 (t ++ rest)) as [[[n c] ok] r]. cbn in Hc.
  destruct ok; [|reflexivity]. specialize (Hc eq_refl).
  destruct (255 <? n)%Z; [reflexivity|]. cbn [negb orb].
  now replace (Nat.ltb 1 c) with true by (symmetry; apply Nat.ltb_lt; lia).
Qed.

(** *** What [parseIPv4] accepts is made of digits and dots *)

Lemma list_ascii_app (a b : string) :
  list_ascii_of_string (a ++ b) = (list_ascii_of_string a ++ list_ascii_of_string b)%list.
Proof. induction a as [|c a IH]; cbn; [reflexivity | now rewrite IH]. Qed.

(** [dtoi] consumes digits only: what it skips is a run of [dotted_char]s. *)
Lemma dtoi_split (n : Z) (i : nat) (s : string) :
  exists p, s = p ++ snd (dtoi n i s) /\ forallb dotted_char (list_ascii_of_string p) = true.
Proof.
  revert n i. induction s as [|ch s IH]; intros n i; [exists ""; auto|]. cbn [dtoi].
  destruct ((48 <=? Z.of_nat (nat_of_ascii ch)) && (Z.of_nat (nat_of_ascii ch) <=? 57))%Z eqn:Hd;
    [|exists ""; auto].
  destruct (16777215 <=? _)%Z; [exists ""; auto|].
  edestruct IH as (p & Hp & Hf). exists (String ch p). cbn. rewrite <- Hp, Hf.
  unfold dotted_char. now rewrite Hd.
Qed.

Lemma read_octet_split (s r : string) (n : Z) :
  read_octet s = Some (n, r) ->
  exists p, s = p ++ r /\ forallb dotted_char (list_ascii_of_string p) = true.
Proof.
  unfold read_octet. pose proof (dtoi_split 0 0 s) as Hs.
  destruct (dtoi 0 0 s) as [[[n' c] ok] rest]. cbn [snd] in Hs.
  destruct (negb ok || (255 <? n')%Z); [discriminate|].
  destruct (Nat.ltb 1 c && prefix "0" s); [discriminate|].
  intros H. injection H as _ <-. exact Hs.
Qed.

Lemma parseIPv4_loop_chars (k i : nat) (s : string) (l : list Z) :
  parseIPv4_loop k i s = Some l -> forallb dotted_char (list_ascii_of_string s) = true.
Proof.
  revert i s l. induction k as [|k IH]; intros i s l H; cbn [parseIPv4_loop] in H.
  { destruct s; [reflexivity | discriminate]. }
  destruct s as [|ch s1]; [discriminate|].
  destruct (Nat.eqb i 0); [|destruct (Ascii.eqb ch ".") eqn:Hc; [|discriminate]];
    match type of H with context [read_octet ?x] => destruct (read_octet x) as [[n s3]|] eqn:Ho end;
    try discriminate;
    destruct (parseIPv4_loop k (S i) s3) eqn:Hl; try discriminate;
    apply IH in Hl; destruct (read_octet_split _ _ _ Ho) as (p & Hs & Hp).
  - rewrite Hs, list_ascii_app, forallb_app, Hp, Hl. reflexivity.
  - cbn [list_ascii_of_string forallb]. rewrite Hs, list_ascii_app, forallb_app, Hp, Hl.
    unfold dotted_char. now rewrite Hc, orb_true_r.
Qed.

(** [first_sep] returns a '.' or a ':' of the string. *)
Lemma first_sep_spec (s : string) (ch : ascii) :
  first_sep s = Some ch -> (Ascii.eqb ch "." || Ascii.eqb ch ":") = true /\ contains s (String ch "") = true.
Proof.
  induction s as [|c s IH]; cbn [first_sep]; [discriminate|].
  destruct (Ascii.eqb c "." || Ascii.eqb c ":") eqn:E; intros H.
  - injection H as <-. rewrite contains_char_cons, Ascii.eqb_refl. auto.
  - destruct (IH H) as [H1 H2]. rewrite contains_char_cons, H2, orb_true_r. auto.
Qed.

(** C15: Round trip: Go's [ParseIP(ip.String())] gives back every IPv4 address. *)
Theorem ParseIP_IPv4String (a b c d : Z) :
  is_octet a -> is_octet b -> is_octet c -> is_octet d ->
  ParseIP (IPv4String a b c d) = Some (IPv4 a b c d).
Proof. exact (parseIP_ipv4_string a b c d). Qed.

(** C16: Go 1.17's [ParseIP] refuses an IPv4 octet with a leading zero
    (init.go:127-130, join.go:87-91): whatever its value, an endpoint
    "a.b.c.0d" is typed "DNS", not "IP". *)
Theorem classifyEndpoint_leading_zero (a b c d : Z) :
  is_octet a -> is_octet b -> is_octet c -> (0 <= d)%Z ->
  classifyEndpoint (Itoa a ++ "." ++ Itoa b ++ "." ++ Itoa c ++ "." ++ "0" ++ Itoa d) = "DNS".
Proof.
  intros Ha Hb Hc Hd. unfold classifyEndpoint, ParseIP.
  rewrite first_sep_app_none by (apply first_sep_Itoa; unfold is_octet in Ha; lia).
  cbn [first_sep append Ascii.eqb Bool.eqb orb]. unfold parseIPv4.
  change ("." ++ ?x) with (String "." x).
  rewrite parseIPv4_loop_first by auto with cloudinit.
  do 2 (rewrite parseIPv4_loop_next by auto with cloudinit).
  pose proof (read_octet_leading_zero d "" Hd) as Hz. rewrite append_nil_r in Hz.
  cbn [parseIPv4_loop Nat.eqb Ascii.eqb Bool.eqb append] in Hz |- *. now rewrite Hz.
Qed.

(** C14: The endpoint type of a host name (init.go:127-130,
    join.go:87-91): an endpoint with no ':' that has a byte other than a
    digit or '.' (a letter, a '-', ...) is never an IPv4 literal, so both
    builders type it "DNS": [ParseIP] reads it with [parseIPv4], or with
    no parser when it has no '.', and both refuse it. *)
Theorem classifyEndpoint_hostname (endpoint : string) :
  contains endpoint ":" = false ->
  existsb (fun c => negb (dotted_char c)) (list_ascii_of_string endpoint) = true ->
  classifyEndpoint endpoint = "DNS".
Proof.
  intros Hc Hx. unfold classifyEndpoint, ParseIP.
  destruct (first_sep endpoint) as [ch|] eqn:Hs; [|reflexivity].
  destruct (first_sep_spec _ _ Hs) as [Hch Hin].
  destruct (Ascii.eqb ch ".") eqn:Hd.
  - unfold parseIPv4. destruct (parseIPv4_loop 4 0 endpoint) eqn:Hl; [exfalso|reflexivity].
    apply parseIPv4_loop_chars in Hl.
    apply existsb_exists in Hx as (c & Hi & Hn).
    rewrite (proj1 (forallb_forall _ _) Hl c Hi) in Hn. discriminate.
  - cbn [orb] in Hch. apply Ascii.eqb_eq in Hch as ->. congruence.
Qed.

(** The fuel of [parseIPv6_loop] is Go's loop exactly: [for i < IPv6len],
    written with its own condition by well-founded recursion on the room
    left ([parseIPv6_go]), computes what the 8 rounds of fuel compute. *)
Lemma parseIPv6_go_fuel (ellipsis : option nat) (s : string) :
  parseIPv6_go [] ellipsis s = parseIPv6_loop 8 [] ellipsis s.
Proof. now apply parseIPv6_go_loop. Qed.

(** A host name with neither '.' nor ':' is never an address. *)
Lemma classifyEndpoint_no_sep (endpoint : string) :
  first_sep endpoint = None -> classifyEndpoint endpoint = "DNS".
Proof. intros H. unfold classifyEndpoint, ParseIP. now rewrite H. Qed.

(** ** Witnesses *)

Lemma ParseIP_IPv4String_witness :
  is_octet 10 /\ is_octet 0 /\ is_octet 5 /\
  ParseIP (IPv4String 10 0 0 5) = Some (IPv4 10 0 0 5).
Proof.
  assert (H10 : is_octet 10) by (unfold is_octet; lia).
  assert (H0 : is_octet 0) by (unfold is_octet; lia).
  assert (H5 : is_octet 5) by (unfold is_octet; lia).
  split; [exact H10 | split; [exact H0 | split; [exact H5|]]].
  exact (ParseIP_IPv4String 10 0 0 5 H10 H0 H0 H5).
Defined.

Lemma classifyEndpoint_hostname_witness :
  contains "cluster.example.com" ":" = false /\
  existsb (fun c => negb (dotted_char c)) (list_ascii_of_string "cluster.example.com") = true /\
  classifyEndpoint "cluster.example.com" = "DNS".
Proof.
  assert (H1 : contains "cluster.example.com" ":" = false) by reflexivity.
  assert (H2 : existsb (fun c => negb (dotted_char c)) (list_ascii_of_string "cluster.example.com") = true)
    by reflexivity.
  split; [exact H1 | split; [exact H2 | exact (classifyEndpoint_hostname _ H1 H2)]].
Defined.

Lemma classifyEndpoint_leading_zero_witness :
  is_octet 10 /\ is_octet 0 /\ (0 <= 5)%Z /\
  classifyEndpoint "10.0.0.05" = "DNS".
Proof.
  assert (H10 : is_octet 10) by (unfold is_octet; lia).
  assert (H0 : is_octet 0) by (unfold is_octet; lia).
  assert (H5 : (0 <= 5)%Z) by lia.
  split; [exact H10 | split; [exact H0 | split; [exact H5|]]].
  exact (classifyEndpoint_leading_zero 10 0 0 5 H10 H0 H0 H5).
Defined.

End NetIP.
