(* ===== verification/Template.v ===== *)
(** * The template renderer: [generate] and the [text/template] subset

    Both builders end with [generate(kind, template, input)]
    (controlplane_init.go:132, controlplane_join.go:92).  [generate] is a
    package helper outside src/ (modelled from the spec, section 6, and the
    helper it is taken from in cluster-api): it parses the template with Go's
    [text/template] and the function map [{"Indent": templateYAMLIndent}],
    executes it on the input struct, and wraps a parse or execution error
    with the template's kind.

    The model covers the part of [text/template] the two templates use:
    text, the actions [{{.Field}}] and [{{.Field | Indent n}}]; a template
    with any other action is refused with a parse error, so every theorem
    about a rendered text is about a template inside that part.  The input
    struct is seen through [Data], the field lookup Go's reflection does;
    [printValue] is [fmt]'s default formatting of the field kinds used. *)

From Stdlib Require Import String Ascii List ZArith Lia Bool Wf_nat.
From S2P Require Import Prelude GoStrings.
Import ListNotations.
Open Scope string_scope.

Module Template.

(** ** Values and the reflection view of a struct *)

Inductive Value : Type :=
| VString (s : string)
| VInt (z : Z)
| VBool (b : bool)
| VStrings (l : list string)
| VOther (repr : string).   (* a struct or slice the templates never print *)

(** [{{.F}}] looks field [F] up by name; [None]: no such field. *)
Definition Data : Type := string -> option Value.

(** [fmt.Sprint] of a field value, as [text/template] prints it. *)
Definition printValue (v : Value) : string :=
  match v with
  | VString s => s
  | VInt z => Itoa z
  | VBool b => if b then "true" else "false"
  | VStrings l => "[" ++ Join l " " ++ "]"
  | VOther r => r
  end.

(** ** [templateYAMLIndent] (the "Indent" template function)

    [split := strings.Split(input, "\n");
     ident := "\n" + strings.Repeat(" ", i);
     return strings.Repeat(" ", i) + strings.Join(split, ident)] *)
Definition templateYAMLIndent (i : nat) (input : string) : string :=
  Repeat " " i ++ Join (SplitByte nl input) (String nl (Repeat " " i)).

(** ** Parsing *)

Inductive Node : Type :=
| NText (s : string)
| NField (name : string) (indent : option nat).

(** The words of an action, split on spaces. *)
Definition words (body : string) : list string :=
  filter (fun w => negb (String.eqb w "")) (SplitByte " " body).

(** Letters, digits and '_'. *)
Fixpoint is_ident (s : string) : bool :=
  match s with
  | "" => true
  | String c s' =>
      let n := nat_of_ascii c in
      ((Nat.leb 48 n && Nat.leb n 57) || (Nat.leb 65 n && Nat.leb n 90) ||
       (Nat.leb 97 n && Nat.leb n 122) || Nat.eqb n 95) && is_ident s'
  end.

(** [.Name] *)
Definition field_name (w : string) : option string :=
  match w with
  | String c (String x name) =>
      if Ascii.eqb c "." && is_ident (String x name) then Some (String x name) else None
  | _ => None
  end.

(** An action: [.F] or [.F | Indent n]. *)
Definition parse_action (body : string) : result Node :=
  match words body with
  | [w] =>
      match field_name w with
      | Some f => Ok (NField f None)
      | None => Err (ErrMsg ("unsupported action {{" ++ body ++ "}}"))
      end
  | [w; "|"; "Indent"; n] =>
      match field_name w, Atoi n with
      | Some f, Ok k => Ok (NField f (Some (Z.to_nat k)))
      | _, _ => Err (ErrMsg ("unsupported action {{" ++ body ++ "}}"))
      end
  | _ => Err (ErrMsg ("unsupported action {{" ++ body ++ "}}"))
  end.

(** The lexer: in text, "{{" opens an action; in an action, "}}" closes
    it; [buf] is the text or the action body read so far.  The byte after a
    brace is looked at only to see whether it doubles it. *)
Fixpoint lex (s : string) (inAction : bool) (buf : string) : result (list Node) :=
  match s with
  | "" =>
      if inAction then Err (ErrMsg "unclosed action")
      else Ok [NText buf]
  | String c s' =>
      if negb inAction && Ascii.eqb c "{" then
        match s' with
        | String c2 s'' =>
            if Ascii.eqb c2 "{" then
              match lex s'' true "" with
              | Ok ns => Ok (NText buf :: ns)
              | Err e => Err e
              end
            else lex s' false (buf ++ String c "")
        | "" => lex s' false (buf ++ String c "")
        end
      else if inAction && Ascii.eqb c "}" then
        match s' with
        | String c2 s'' =>
            if Ascii.eqb c2 "}" then
              match parse_action buf with
              | Ok n => match lex s'' false "" with
                        | Ok ns => Ok (n :: ns)
                        | Err e => Err e
                        end
              | Err e => Err e
              end
            else lex s' true (buf ++ String c "")
        | "" => lex s' true (buf ++ String c "")
        end
      else lex s' inAction (buf ++ String c "")
  end.

(** ** Execution *)

Definition exec_node (n : Node) (d : Data) : result string :=
  match n with
  | NText s => Ok s
  | NField f ind =>
      match d f, ind with
      | None, _ => Err (ErrMsg ("can't evaluate field " ++ f))
      | Some v, None => Ok (printValue v)
      | Some (VString s), Some k => Ok (templateYAMLIndent k s)
      | Some _, Some _ =>
          Err (ErrMsg ("error calling Indent: wrong type for value of field " ++ f))
      end
  end.

Fixpoint exec (ns : list Node) (d : Data) : result string :=
  match ns with
  | [] => Ok ""
  | n :: ns' =>
      match exec_node n d with
      | Err e => Err e
      | Ok out => match exec ns' d with
                  | Err e => Err e
                  | Ok rest => Ok (out ++ rest)
                  end
      end
  end.

(** [generate(kind, tpl, data)]: [template.New(kind).Parse(tpl)], then
    [Execute] on [data]. *)
Definition generate (kind tpl : string) (d : Data) : result string :=
  match lex tpl false "" with
  | Err e => Err (Wrapf e ("failed to parse " ++ kind ++ " template"))
  | Ok ns =>
      match exec ns d with
      | Err e => Err (Wrapf e ("failed to generate " ++ kind ++ " template"))
      | Ok out => Ok out
      end
  end.

(** ** Views used by the theorems *)

(** A text that does not end with a brace: the lexer's look-ahead after a
    brace never reaches past it. *)
Fixpoint safe_end (s : string) : bool :=
  match s with
  | "" => true
  | String c "" => negb (Ascii.eqb c "{" || Ascii.eqb c "}")
  | String _ s' => safe_end s'
  end.

(** The fields a parsed template names. *)
Definition names (ns : list Node) : list string :=
  flat_map (fun n => match n with NField f _ => [f] | NText _ => [] end) ns.

(** [Indent] described line by line: every line of the input, prefixed
    with [i] spaces, joined with newlines. *)
Definition indentLines (i : nat) (input : string) : string :=
  Join (map (fun l => Repeat " " i ++ l) (SplitByte nl input)) (String nl "").

(** Removing the first [i] bytes of every line. *)
Definition dedent (i : nat) (t : string) : string :=
  Join (map (fun l => substring i (String.length l - i) l) (SplitByte nl t)) (String nl "").

(** ** Lemmas: the lexer piece by piece *)

(** Outside an action the lexer accumulates every character up to a
    ['{'], inside one every character up to a ['}']. *)

Lemma lex_run (inA : bool) (t r buf : string) :
  contains t (if inA then "}" else "{") = false -> lex (t ++ r) inA buf = lex r inA (buf ++ t).
Proof.
  revert buf. induction t as [|c t IH]; intros buf H.
  - now rewrite append_nil_r.
  - destruct inA; rewrite contains_char_cons in H; apply orb_false_iff in H as [Hc Ht];
      cbn [append lex negb andb]; rewrite Hc; cbn [andb];
      rewrite IH by exact Ht; now rewrite append_assoc.
Qed.

Lemma lex_text_app (t r buf : string) :
  contains t "{" = false -> lex (t ++ r) false buf = lex r false (buf ++ t).
Proof. exact (lex_run false t r buf). Qed.

(** An action [{{body}}] whose body has no closing brace is one node. *)

Lemma lex_action_text (t r buf : string) :
  contains t "}" = false -> lex (t ++ r) true buf = lex r true (buf ++ t).
Proof. exact (lex_run true t r buf). Qed.

Lemma lex_action (body r buf : string) :
  contains body "}" = false ->
  lex ("{{" ++ body ++ "}}" ++ r) false buf =
  match parse_action body with
  | Ok n => match lex r false "" with Ok ns => Ok (NText buf :: n :: ns) | Err e => Err e end
  | Err e => Err e
  end.
Proof.
  intros Hb. cbn [append lex negb andb Ascii.eqb Bool.eqb].
  rewrite lex_action_text by exact Hb. cbn [append lex negb andb Ascii.eqb Bool.eqb].
  destruct (parse_action body) as [n|e]; [|reflexivity].
  now destruct (lex r false "").
Qed.

(** "{{" opens an action; an action that meets no "}" never closes. *)
Lemma lex_open (r buf : string) :
  lex ("{{" ++ r) false buf =
  match lex r true "" with Ok ns => Ok (NText buf :: ns) | Err e => Err e end.
Proof. reflexivity. Qed.

Lemma lex_unclosed (r buf : string) :
  contains r "}" = false -> lex r true buf = Err (ErrMsg "unclosed action").
Proof. intros H. rewrite <- (append_nil_r r), (lex_run true r "" buf) by exact H. reflexivity. Qed.

Lemma is_ident_excludes (c : ascii) (s : string) :
  is_ident (String c "") = false -> is_ident s = true -> contains s (String c "") = false.
Proof.
  intros Hc. induction s as [|x s IH]; [reflexivity|].
  cbn [is_ident]. intros H. apply andb_prop in H as [Hx Hs].
  rewrite contains_char_cons, IH by exact Hs. rewrite orb_false_r.
  destruct (Ascii.eqb_spec x c) as [->|]; [|reflexivity].
  cbn [is_ident] in Hc. now rewrite Hx in Hc.
Qed.

Lemma parse_action_field (f : string) :
  is_ident f = true -> f <> "" -> parse_action ("." ++ f) = Ok (NField f None).
Proof.
  intros Hi Hne. destruct f as [|x name]; [contradiction|].
  unfold parse_action, words.
  rewrite SplitByte_no_sep.
  - cbn [append filter String.eqb negb field_name Ascii.eqb Bool.eqb andb]. now rewrite Hi.
  - cbn [append]. rewrite contains_char_cons, is_ident_excludes by (reflexivity || exact Hi). reflexivity.
Qed.

Lemma lex_not_nil (s : string) (inA : bool) (buf : string) (ns : list Node) :
  lex s inA buf = Ok ns -> ns <> [].
Proof.
  revert inA buf ns. induction s as [|c s IH]; intros inA buf ns H; cbn [lex] in H.
  - destruct inA; [discriminate|]. injection H as <-. discriminate.
  - destruct (negb inA && Ascii.eqb c "{"); [|destruct (inA && Ascii.eqb c "}")].
    + destruct s as [|c2 s2]; [exact (IH _ _ _ H)|].
      destruct (Ascii.eqb c2 "{"); [|exact (IH _ _ _ H)].
      destruct (lex s2 true ""); [injection H as <-; discriminate | discriminate].
    + destruct s as [|c2 s2]; [exact (IH _ _ _ H)|].
      destruct (Ascii.eqb c2 "}"); [|exact (IH _ _ _ H)].
      destruct (parse_action buf); [|discriminate].
      destruct (lex s2 false ""); [injection H as <-; discriminate | discriminate].
    + exact (IH _ _ _ H).
Qed.

Lemma lex_buf (s b b' : string) :
  lex s false (b ++ b') =
  match lex s false b' with
  | Ok (NText t :: ns) => Ok (NText (b ++ t) :: ns)
  | r => r
  end.
Proof.
  revert b'. induction s as [|c s IH]; intros b'; cbn [lex negb andb]; [reflexivity|].
  destruct (Ascii.eqb c "{").
  - destruct s as [|c2 s2].
    + rewrite append_assoc. apply IH.
    + destruct (Ascii.eqb c2 "{").
      * now destruct (lex s2 true "").
      * rewrite append_assoc. apply IH.
  - rewrite append_assoc. apply IH.
Qed.

Lemma cons_app_last (x y : Node) (ns P : list Node) :
  x :: ns = (P ++ [y])%list -> ns <> [] -> exists P', P = x :: P' /\ ns = (P' ++ [y])%list.
Proof.
  destruct P as [|z P]; simpl; intros H Hn.
  - injection H as -> ->. contradiction.
  - injection H as -> ->. eauto.
Qed.

Lemma unit_app_last (z y : Node) (P : list Node) :
  [z] = (P ++ [y])%list -> P = [] /\ y = z.
Proof.
  destruct P as [|w [|u P]]; simpl; intros H; inversion H; auto.
Qed.

Lemma safe_end_cons (c c2 : ascii) (s : string) :
  safe_end (String c (String c2 s)) = safe_end (String c2 s).
Proof. reflexivity. Qed.

Lemma lex_app (p r : string) (inA : bool) (buf B : string) (P : list Node) :
  safe_end p = true -> lex p inA buf = Ok (P ++ [NText B])%list ->
  lex (p ++ r) inA buf =
  match lex r false B with Ok ns => Ok (P ++ ns)%list | Err e => Err e end.
Proof.
  remember (String.length p) as n eqn:En. revert p En inA buf B P.
  induction n as [n IH] using lt_wf_ind; intros p En inA buf B P Hs H.
  destruct p as [|c p'].
  - cbn [lex] in H. destruct inA; [discriminate|]. injection H as H.
    apply unit_app_last in H as [-> [= ->]]. simpl. now destruct (lex r false buf).
  - cbn [append lex] in *.
    destruct (negb inA && Ascii.eqb c "{") eqn:Eo; [|destruct (inA && Ascii.eqb c "}") eqn:Ec].
    + destruct p' as [|c2 p''].
      { apply andb_prop in Eo as [_ Eo]. simpl in Hs. now rewrite Eo in Hs. }
      cbn [append] in *. rewrite safe_end_cons in Hs.
      destruct (Ascii.eqb c2 "{") eqn:E2.
      * destruct p'' as [|c3 p3]; [simpl in Hs; rewrite E2 in Hs; discriminate|].
        destruct (lex (String c3 p3) true "") as [ns|e] eqn:E; [|discriminate].
        injection H as H. destruct (cons_app_last _ _ _ _ H (lex_not_nil _ _ _ _ E)) as (P' & -> & ->).
        rewrite (IH (String.length (String c3 p3))) with (B := B) (P := P'); simpl in *; try lia; auto.
        now destruct (lex r false B).
      * change (String c2 (p'' ++ r)) with (String c2 p'' ++ r).
        eapply IH; [| reflexivity | exact Hs | exact H]. simpl in *. lia.
    + destruct p' as [|c2 p''].
      { apply andb_prop in Ec as [_ Ec]. simpl in Hs. rewrite Ec, orb_true_r in Hs. discriminate. }
      cbn [append] in *. rewrite safe_end_cons in Hs.
      destruct (Ascii.eqb c2 "}") eqn:E2.
      * destruct p'' as [|c3 p3]; [simpl in Hs; rewrite E2, orb_true_r in Hs; discriminate|].
        destruct (parse_action buf) as [nd|e]; [|discriminate].
        destruct (lex (String c3 p3) false "") as [ns|e] eqn:E; [|discriminate].
        injection H as H. destruct (cons_app_last _ _ _ _ H (lex_not_nil _ _ _ _ E)) as (P' & -> & ->).
        rewrite (IH (String.length (String c3 p3))) with (B := B) (P := P'); simpl in *; try lia; auto.
        now destruct (lex r false B).
      * change (String c2 (p'' ++ r)) with (String c2 p'' ++ r).
        eapply IH; [| reflexivity | exact Hs | exact H]. simpl in *. lia.
    + destruct p' as [|c2 p''].
      * cbn [lex] in H. destruct inA; [discriminate|]. injection H as H.
        apply unit_app_last in H as [-> [= ->]]. simpl. now destruct (lex r false _).
      * change (String c2 (p'' ++ r)) with (String c2 p'' ++ r).
        eapply IH; [| reflexivity | exact Hs | exact H]. simpl in *. lia.
Qed.

Lemma exec_app (ns1 ns2 : list Node) (d : Data) :
  exec (ns1 ++ ns2) d =
  match exec ns1 d with
  | Ok a => match exec ns2 d with Ok b => Ok (a ++ b) | Err e => Err e end
  | Err e => Err e
  end.
Proof.
  induction ns1 as [|n ns1 IH]; simpl; [now destruct (exec ns2 d)|].
  destruct (exec_node n d) as [a|e]; [|reflexivity]. rewrite IH.
  destruct (exec ns1 d) as [b|e]; [|reflexivity].
  destruct (exec ns2 d); [now rewrite append_assoc | reflexivity].
Qed.

Lemma exec_agree (ns : list Node) (d d' : Data) :
  (forall f, In f (names ns) -> d f = d' f) -> exec ns d = exec ns d'.
Proof.
  induction ns as [|[s|f k] ns IH]; simpl; intros H; [reflexivity| |].
  - now rewrite IH.
  - rewrite (H f (or_introl eq_refl)), IH by auto. reflexivity.
Qed.

(** A segment of the parsed nodes renders inside the whole text. *)
Lemma exec_segment (ns1 seg ns2 : list Node) (d : Data) (out m : string) :
  exec (ns1 ++ seg ++ ns2)%list d = Ok out -> exec seg d = Ok m -> contains out m = true.
Proof.
  rewrite !exec_app. intros H Hm. rewrite Hm in H.
  destruct (exec ns1 d) as [a|]; [|discriminate]. destruct (exec ns2 d) as [b|]; [|discriminate].
  injection H as <-. auto with cloudinit.
Qed.

(** A template that parses into the nodes [P] followed by whatever the
    rest parses into renders [P] first. *)
Lemma exec_segment_tail (ns1 seg ns2 : list Node) (d : Data) (out lead m : string) :
  exec (ns1 ++ seg ++ ns2)%list d = Ok out -> exec seg d = Ok (lead ++ m) -> contains out m = true.
Proof.
  intros H Hm. eapply contains_trans; [exact (exec_segment _ _ _ _ _ _ H Hm)|].
  apply contains_app_r, contains_self.
Qed.

Lemma generate_prefix (kind tpl r B : string) (P : list Node) (d : Data) (out : string) :
  lex tpl false "" = match lex r false B with Ok ns => Ok (P ++ ns)%list | Err e => Err e end ->
  generate kind tpl d = Ok out ->
  exists ns, exec (P ++ ns)%list d = Ok out.
Proof.
  unfold generate. intros -> H.
  destruct (lex r false B) as [ns|e]; [|discriminate].
  exists ns. destruct (exec (P ++ ns)%list d); [exact H | discriminate].
Qed.

(** ** Lemmas: [Indent] *)

Lemma indent_lines_eq (i : nat) (s : string) :
  templateYAMLIndent i s = indentLines i s.
Proof. apply Join_pad, SplitByte_not_nil. Qed.

Lemma indent_split (i : nat) (s : string) :
  SplitByte nl (templateYAMLIndent i s) = map (fun l => Repeat " " i ++ l) (SplitByte nl s).
Proof.
  rewrite indent_lines_eq. unfold indentLines. apply SplitByte_Join.
  - apply Forall_map. eapply Forall_impl; [|apply SplitByte_pieces].
    intros x Hx. simpl. rewrite contains_char_app, Hx, Repeat_no_char by discriminate. reflexivity.
  - destruct (SplitByte nl s) eqn:E; [now destruct (SplitByte_not_nil nl s) | discriminate].
Qed.

(** Round trip: [Indent] loses nothing.  Dropping the first [i] bytes of
    every line of the indented text gives the input back. *)
Lemma templateYAMLIndent_dedent (i : nat) (s : string) :
  dedent i (templateYAMLIndent i s) = s.
Proof.
  unfold dedent. rewrite indent_split, map_map.
  rewrite map_ext with (g := fun l => l); [now rewrite map_id, Join_SplitByte|].
  intros l. rewrite length_append, Repeat_length. simpl.
  replace (i * 1 + String.length l - i) with (String.length l) by lia.
  replace i with (String.length (Repeat " " i)) at 1 by (rewrite Repeat_length; simpl; lia).
  apply substring_app.
Qed.

End Template.
