(* ===== verification/UserData.v ===== *)
(** * Shared user-data fields: [BaseUserData], files and certificates

    The two input structs embed [BaseUserData] and [secret.Certificates]
    (controlplane_init.go:79-80, controlplane_join.go:61-62).  Neither is
    under src/: [BaseUserData], its [prepare] method, [cloudConfigHeader]
    and [sentinelFileCommand] are package code modelled from the spec
    (sections 3, 4.2 and 6); [Certificates.AsFiles] is cluster-api's
    (util/secret), modelled from the spec's contract "a list of write this
    content to this path with these permissions".

    [Preparation] is the interface the join builder relies on: what
    [prepare] promises when it succeeds.  [capiPreparation] is the
    cluster-api implementation and discharges it.  [Fields] is the
    reflection view of an input struct that [generate] executes a template
    on. *)

From Stdlib Require Import String Ascii List ZArith Lia Bool.
From S2P Require Import Prelude GoStrings Template.
Import ListNotations.
Open Scope string_scope.

Module UserData.

(** ** Files and certificates *)

(** [bootstrapv1.File] (the fields the builders use). *)
Record File : Type := mkFile {
  Path : string;
  Owner : string;
  Permissions : string;
  Content : string
}.

(** [certs.KeyPair]: PEM bytes. *)
Record KeyPair : Type := mkKeyPair { Cert : string; Key : string }.

(** [secret.Certificate]: a nil [KeyPair] is a certificate not generated or
    looked up yet. *)
Record Certificate : Type := mkCertificate {
  Purpose : string;
  CertKeyPair : option KeyPair;
  CertFile : string;
  KeyFile : string
}.

(** [Certificate.AsFiles()] (pointer receiver): the certificate, then the key, each when
    its PEM bytes are not empty. *)
Definition certificateAsFiles (c : Certificate) : list File :=
  match CertKeyPair c with
  | None => []
  | Some kp =>
      (if String.eqb (Cert kp) "" then []
       else [mkFile (CertFile c) "root:root" "0640" (Cert kp)]) ++
      (if String.eqb (Key kp) "" then []
       else [mkFile (KeyFile c) "root:root" "0600" (Key kp)])
  end.

(** [Certificates.AsFiles()]: the files of every certificate with a key
    pair, in order. *)
Definition AsFiles (cs : list Certificate) : list File :=
  flat_map certificateAsFiles cs.

(** ** [BaseUserData] *)

Record BaseUserData : Type := mkBase {
  Header : string;
  AdditionalFiles : list File;
  WriteFiles : list File;
  ControlPlane : bool;
  SentinelFileCommand : string
}.

Definition set_Header (b : BaseUserData) (h : string) : BaseUserData :=
  mkBase h (AdditionalFiles b) (WriteFiles b) (ControlPlane b) (SentinelFileCommand b).
Definition set_WriteFiles (b : BaseUserData) (fs : list File) : BaseUserData :=
  mkBase (Header b) (AdditionalFiles b) fs (ControlPlane b) (SentinelFileCommand b).
Definition set_ControlPlane (b : BaseUserData) (cp : bool) : BaseUserData :=
  mkBase (Header b) (AdditionalFiles b) (WriteFiles b) cp (SentinelFileCommand b).
Definition set_SentinelFileCommand (b : BaseUserData) (c : string) : BaseUserData :=
  mkBase (Header b) (AdditionalFiles b) (WriteFiles b) (ControlPlane b) c.

(** [cloudConfigHeader]: the first lines of every cloud-init document. *)
Definition cloudConfigHeader : string :=
  "## template: jinja" ++ String nl "#cloud-config" ++ String nl "".

(** [sentinelFileCommand]: the command that marks a finished bootstrap. *)
Definition sentinelFileCommand : string :=
  "echo success > /run/cluster-api/bootstrap-success.complete".

(** ** The [prepare] interface *)

(** [func (input *BaseUserData) prepare() error]: it may fail (spec 4.2,
    step 3, "PreparationError"); when it returns nil it has set the header
    and the sentinel command and appended the additional files to the
    write-files list, without touching the rest. *)
Class Preparation : Type := {
  prepare : goM BaseUserData unit;
  prepare_ok : forall b b', prepare b = (b', Ok tt) ->
    b' = mkBase cloudConfigHeader (AdditionalFiles b)
                (WriteFiles b ++ AdditionalFiles b)
                (ControlPlane b) sentinelFileCommand
}.

(** cluster-api's [prepare], which never fails. *)
Definition capi_prepare : goM BaseUserData unit :=
  fun b => (set_SentinelFileCommand
              (set_WriteFiles (set_Header b cloudConfigHeader)
                              (WriteFiles b ++ AdditionalFiles b))
              sentinelFileCommand, Ok tt).

(** It discharges the interface. *)
#[export] Instance capiPreparation : Preparation :=
  {| prepare := capi_prepare;
     prepare_ok := ltac:(intros b b' H; injection H as <-; reflexivity) |}.



(** ** The reflection view of an input struct *)

Class Fields (T : Type) : Type := fields : T -> Template.Data.

(** [fmt]'s [%v] of a slice of [bootstrapv1.File] values: every field in
    declaration order (Path, Owner, Permissions, Encoding, Append,
    Content, ContentFrom) separated by spaces.  [Encoding], [Append] and
    [ContentFrom] are not fields of the model, since the builders never
    read them; they are printed at their zero values ("", false, <nil>),
    which is exact for every file [AsFiles] makes. *)
Definition printFile (f : File) : string :=
  "{" ++ Join [Path f; Owner f; Permissions f; ""; "false"; Content f; "<nil>"] " " ++ "}".
Definition printFiles (fs : list File) : string :=
  "[" ++ Join (map printFile fs) " " ++ "]".

(** The promoted fields of an embedded [BaseUserData]. *)
Definition baseFields (b : BaseUserData) : Template.Data :=
  fun f =>
    if String.eqb f "Header" then Some (Template.VString (Header b))
    else if String.eqb f "AdditionalFiles" then Some (Template.VOther (printFiles (AdditionalFiles b)))
    else if String.eqb f "WriteFiles" then Some (Template.VOther (printFiles (WriteFiles b)))
    else if String.eqb f "ControlPlane" then Some (Template.VBool (ControlPlane b))
    else if String.eqb f "SentinelFileCommand" then Some (Template.VString (SentinelFileCommand b))
    else None.

End UserData.
