(* ===== verification/ControlPlaneInit.v ===== *)
(** * [NewInitControlPlane]: user data of the first control-plane node

    Models src/controllers/cloudinit/controlplane_init.go: the template
    [controlPlaneCloudInit], the input struct [ControlPlaneInput] and the
    builder [NewInitControlPlane], which mutates the struct it is given and
    returns the rendered user data or an error.  The renderer [generate] is
    a parameter of the section [Builder]: the theorems about the builder
    hold for every renderer, a failing stub included (spec section 8).
    The builder is the composition of its steps, one definition per group
    of Go statements; what the rendered text holds is proved in
    [Rendering], with the concrete renderer. *)

From Stdlib Require Import String Ascii List ZArith Lia Bool.
From S2P Require Import Prelude GoStrings Version NetIP Template UserData.
Import ListNotations UserData.
Open Scope string_scope.

Module Init.

(** ** The template (controlplane_init.go:39-75), line for line *)
Definition controlPlaneCloudInit : string := unlines [
    "{{.Header}}";
    "write_files:";
    "- content: |";
    "{{.CAKey | Indent 4}}";
    "  path: /var/tmp/ca.key";
    "  permissions: '0600'";
    "- content: |";
    "{{.CACert | Indent 4}}";
    "  path: /var/tmp/ca.crt";
    "  permissions: '0600'";
    "runcmd:";
    "- sudo echo ControlPlaneEndpoint {{.ControlPlaneEndpoint}}";
    "- sudo echo ControlPlaneEndpointType {{.ControlPlaneEndpointType}}";
    "- sudo echo JoinTokenTTLInSecs {{.JoinTokenTTLInSecs}}";
    "- sudo echo Version {{.Version}}";
    "- sudo iptables -t nat -A OUTPUT -o lo -p tcp --dport 6443 -j REDIRECT --to-port 16443";
    "- sudo iptables -A PREROUTING -t nat  -p tcp --dport 6443 -j REDIRECT --to-port 16443";
    "- sudo apt-get update";
    "- sudo apt-get install iptables-persistent";
    "- sudo sh -c " ++ dq ++ "while ! snap install microk8s --classic {{.Version}} ; do sleep 10 ; echo 'Retry snap installation'; done" ++ dq;
    "- sudo sed -i 's/25000/{{.PortOfClusterAgent}}/' /var/snap/microk8s/current/args/cluster-agent";
    "- sudo grep Address /var/snap/microk8s/current/var/kubernetes/backend/info.yaml > /var/tmp/port-update.yaml";
    "- sudo sed -i 's/19001/{{.PortOfDqlite}}/' /var/tmp/port-update.yaml";
    "- sudo microk8s stop";
    "- sudo mv /var/tmp/port-update.yaml /var/snap/microk8s/current/var/kubernetes/backend/update.yaml";
    "- sudo microk8s start";
    "- sudo microk8s status --wait-ready";
    "- sudo microk8s refresh-certs /var/tmp";
    "- sudo sleep 30";
    "- sudo sed -i '/^DNS.1 = kubernetes/a {{.ControlPlaneEndpointType}}.100 = {{.ControlPlaneEndpoint}}' /var/snap/microk8s/current/certs/csr.conf.template";
    "- sudo microk8s status --wait-ready";
    "- sudo microk8s add-node --token-ttl {{.JoinTokenTTLInSecs}} --token {{.JoinToken}}";
    "- sudo sh -c " ++ dq ++ "for a in {{.Addons}} ; do echo 'Enabling ' \$a ; microk8s enable \$a ; sleep 10; microk8s status --wait-ready ; done" ++ dq;
    "- sudo sleep 15"
  ].

(** ** The input struct (controlplane_init.go:77-91)

    [Addons] is a Go slice: [None] is the nil slice, which is not the empty
    slice [Some []] for the [== nil] test of line 107. *)
Record ControlPlaneInput : Type := mkInput {
  Base : BaseUserData;                 (* embedded BaseUserData *)
  Certificates : list Certificate;     (* embedded secret.Certificates *)
  CACert : string;
  CAKey : string;
  ControlPlaneEndpoint : string;
  ControlPlaneEndpointType : string;
  JoinToken : string;
  JoinTokenTTLInSecs : Z;              (* int64 *)
  Version : string;
  PortOfClusterAgent : string;
  PortOfDqlite : string;
  Addons : option (list string)
}.

Definition set_Base (i : ControlPlaneInput) (b : BaseUserData) : ControlPlaneInput :=
  mkInput b (Certificates i) (CACert i) (CAKey i) (ControlPlaneEndpoint i)
    (ControlPlaneEndpointType i) (JoinToken i) (JoinTokenTTLInSecs i) (Version i)
    (PortOfClusterAgent i) (PortOfDqlite i) (Addons i).
Definition set_ControlPlaneEndpointType (i : ControlPlaneInput) (t : string) : ControlPlaneInput :=
  mkInput (Base i) (Certificates i) (CACert i) (CAKey i) (ControlPlaneEndpoint i)
    t (JoinToken i) (JoinTokenTTLInSecs i) (Version i)
    (PortOfClusterAgent i) (PortOfDqlite i) (Addons i).
Definition set_Version (i : ControlPlaneInput) (v : string) : ControlPlaneInput :=
  mkInput (Base i) (Certificates i) (CACert i) (CAKey i) (ControlPlaneEndpoint i)
    (ControlPlaneEndpointType i) (JoinToken i) (JoinTokenTTLInSecs i) v
    (PortOfClusterAgent i) (PortOfDqlite i) (Addons i).
Definition set_Addons (i : ControlPlaneInput) (a : option (list string)) : ControlPlaneInput :=
  mkInput (Base i) (Certificates i) (CACert i) (CAKey i) (ControlPlaneEndpoint i)
    (ControlPlaneEndpointType i) (JoinToken i) (JoinTokenTTLInSecs i) (Version i)
    (PortOfClusterAgent i) (PortOfDqlite i) a.

(** [range] over a slice: a nil slice has no elements. *)
Definition elems (a : option (list string)) : list string :=
  match a with Some l => l | None => [] end.

(** The fields a template can name: the struct's own, then the promoted
    fields of the embedded [BaseUserData].  The promoted [Certificates]
    of the embedded [secret.Certificates] is left out: [%v] prints a
    [[]*Certificate] as pointer addresses, which are no function of the
    request, and the template never names it (only an injected addon
    name could, see [Render.initUserData_addon_field_injection]). *)
Definition inputFields (i : ControlPlaneInput) : Template.Data :=
  fun f =>
    if String.eqb f "CACert" then Some (Template.VString (CACert i))
    else if String.eqb f "CAKey" then Some (Template.VString (CAKey i))
    else if String.eqb f "ControlPlaneEndpoint" then Some (Template.VString (ControlPlaneEndpoint i))
    else if String.eqb f "ControlPlaneEndpointType" then Some (Template.VString (ControlPlaneEndpointType i))
    else if String.eqb f "JoinToken" then Some (Template.VString (JoinToken i))
    else if String.eqb f "JoinTokenTTLInSecs" then Some (Template.VInt (JoinTokenTTLInSecs i))
    else if String.eqb f "Version" then Some (Template.VString (Version i))
    else if String.eqb f "PortOfClusterAgent" then Some (Template.VString (PortOfClusterAgent i))
    else if String.eqb f "PortOfDqlite" then Some (Template.VString (PortOfDqlite i))
    else if String.eqb f "Addons" then Some (Template.VStrings (elems (Addons i)))
    else baseFields (Base i) f.

#[export] Instance ControlPlaneInput_Fields : Fields ControlPlaneInput := inputFields.

(** ** The steps of [NewInitControlPlane] *)

(** Lines 95-98: header, write files (certificates, then the additional
    files), sentinel command. *)
Definition initBase (i : ControlPlaneInput) : ControlPlaneInput :=
  let b0 := Base i in
  let b1 := set_Header b0 cloudConfigHeader in
  let b2 := set_WriteFiles b1 (AsFiles (Certificates i)) in
  let b3 := set_WriteFiles b2 (WriteFiles b2 ++ AdditionalFiles b2) in
  let b4 := set_SentinelFileCommand b3 sentinelFileCommand in
  set_Base i b4.

(** Lines 107-109: a nil addon slice becomes [["dns"]]. *)
Definition defaultAddons (a : option (list string)) : list string :=
  match a with
  | None => ["dns"]
  | Some l => l
  end.

(** Lines 110-116: [found] after the loop that breaks at the first addon
    whose name contains "dns". *)
Fixpoint findDNS (l : list string) : bool :=
  match l with
  | [] => false
  | addon :: rest => if contains addon "dns" then true else findDNS rest
  end.

(** Lines 106-119: the addon list after normalisation. *)
Definition ensureDNS (a : option (list string)) : list string :=
  let l := defaultAddons a in
  if findDNS l then l else l ++ ["dns"].

(** Lines 121-124: [addons_str += fmt.Sprintf(" '%s' ", addon)]. *)
Definition addonsString (l : list string) : string :=
  fold_left (fun acc addon => acc ++ sprintf_quoted addon) l "".

(** Line 125: the addon list spliced into the template text. *)
Definition addonsPlaceholder : string := "{{.Addons}}".

Definition spliceAddons (addons_str : string) : string :=
  Replace controlPlaneCloudInit addonsPlaceholder addons_str.

(** Lines 99 and 127-130: the endpoint type is "DNS" unless [net.ParseIP]
    accepts the endpoint. *)
Definition setEndpointType (i : ControlPlaneInput) : ControlPlaneInput :=
  match NetIP.ParseIP (ControlPlaneEndpoint i) with
  | Some _ => set_ControlPlaneEndpointType i "IP"
  | None => i
  end.

Section Builder.

(** [generate(kind, template, data)]: any renderer. *)
Context (generate : string -> string -> Template.Data -> result string).

Local Open Scope go_scope.

(** Lines 100-104: the version is replaced by the snap channel argument of
    its major.minor track; a version that does not parse ends the call. *)
Definition versionStep : goM ControlPlaneInput unit :=
  i <- get ;;
  '(major, minor) <- lift (Version.extractVersionParts (Version i)) ;;
  modify (fun i => set_Version i (Version.generateSnapChannelArgument major minor)).

(** Lines 106-119, on the struct. *)
Definition normalizeAddons (i : ControlPlaneInput) : ControlPlaneInput :=
  set_Addons i (Some (ensureDNS (Addons i))).

(** Lines 132-138: render, and return the renderer's result as it is. *)
Definition renderInit (cloudinit_str : string) : goM ControlPlaneInput string :=
  i <- get ;;
  lift (generate "InitControlplane" cloudinit_str (fields i)).

(** [NewInitControlPlane(input *ControlPlaneInput) ([]byte, error)]
    (lines 94-138). *)
Definition NewInitControlPlane : goM ControlPlaneInput string :=
  modify initBase ;;
  modify (fun i => set_ControlPlaneEndpointType i "DNS") ;;
  versionStep ;;
  modify normalizeAddons ;;
  i <- get ;;
  let cloudinit_str := spliceAddons (addonsString (elems (Addons i))) in
  modify setEndpointType ;;
  renderInit cloudinit_str.

End Builder.

(** ** The normalised request (spec section 3)

    What [NewInitControlPlane] promises about the struct it leaves behind
    and the text it renders: certificates then additional files as write
    files, the header and sentinel command set, the endpoint type of
    [classifyEndpoint], the version replaced by its channel, the addon list
    normalised; the renderer receives the template with the addon list
    spliced in. *)
Definition normalizedInput (i : ControlPlaneInput) (major minor : Z) : ControlPlaneInput :=
  mkInput
    (mkBase cloudConfigHeader (AdditionalFiles (Base i))
            (AsFiles (Certificates i) ++ AdditionalFiles (Base i))
            (ControlPlane (Base i)) sentinelFileCommand)
    (Certificates i) (CACert i) (CAKey i) (ControlPlaneEndpoint i)
    (NetIP.classifyEndpoint (ControlPlaneEndpoint i))
    (JoinToken i) (JoinTokenTTLInSecs i)
    (Version.generateSnapChannelArgument major minor)
    (PortOfClusterAgent i) (PortOfDqlite i) (Some (ensureDNS (Addons i))).

Definition initTemplate (i : ControlPlaneInput) : string :=
  spliceAddons (addonsString (ensureDNS (Addons i))).

(** The template text before and after its one [{{.Addons}}]. *)
Definition placeholderAt : nat :=
  match String.index 0 addonsPlaceholder controlPlaneCloudInit with Some k => k | None => 0 end.
Definition initBefore : string := substring 0 placeholderAt controlPlaneCloudInit.
Definition initAfter : string :=
  substring (placeholderAt + String.length addonsPlaceholder)
            (String.length controlPlaneCloudInit) controlPlaneCloudInit.

(** The fields [NewInitControlPlane] never writes: the request as the
    orchestrator filled it, except the header, the write files, the
    sentinel command, the endpoint type, the version and the addons. *)
Definition initFrame (i0 i : ControlPlaneInput) : Prop :=
  Certificates i = Certificates i0 /\ CACert i = CACert i0 /\
  CAKey i = CAKey i0 /\ ControlPlaneEndpoint i = ControlPlaneEndpoint i0 /\
  JoinToken i = JoinToken i0 /\ JoinTokenTTLInSecs i = JoinTokenTTLInSecs i0 /\
  PortOfClusterAgent i = PortOfClusterAgent i0 /\ PortOfDqlite i = PortOfDqlite i0 /\
  AdditionalFiles (Base i) = AdditionalFiles (Base i0) /\
  ControlPlane (Base i) = ControlPlane (Base i0).

(** The struct as the builder leaves it when the version is refused. *)
Definition versionFailedInput (i : ControlPlaneInput) : ControlPlaneInput :=
  set_ControlPlaneEndpointType (initBase i) "DNS".

(** A request as the orchestrator fills it, for the witnesses. *)
Definition sampleInput : ControlPlaneInput :=
  mkInput (mkBase "" [] [] false "") [] "CA-CERT" "CA-KEY" "10.0.0.5" "" "token" 120
          "1.21.3" "25000" "19001" (Some ["metrics-server"]).

(** The same request with a version that has no minor part. *)
Definition sampleBadVersion : ControlPlaneInput := set_Version sampleInput "latest".

(** ** Lemmas *)

(** Unfold a run of the builder down to its struct updates. *)
Ltac init_unfold :=
  unfold NewInitControlPlane, versionStep, normalizeAddons, renderInit; go_unfold.

Lemma findDNS_spec (l : list string) :
  findDNS l = true <-> exists a, In a l /\ contains a "dns" = true.
Proof.
  induction l as [|a l IH]; simpl.
  - split; [discriminate | intros (x & [] & _)].
  - destruct (contains a "dns") eqn:E.
    + split; [intros _; eauto | reflexivity].
    + rewrite IH. split; intros (x & Hx & Hd); [eauto|].
      destruct Hx as [->|Hx]; [congruence | eauto].
Qed.

Lemma findDNS_app (l l' : list string) : findDNS (l ++ l') = findDNS l || findDNS l'.
Proof. induction l as [|a l IH]; simpl; [reflexivity|]. now destruct (contains a "dns"). Qed.

#[export] Hint Rewrite findDNS_app : go_rw.

Lemma init_run_ok
    (generate : string -> string -> Template.Data -> result string)
    (i : ControlPlaneInput) (major minor : Z) :
  Version.extractVersionParts (Version i) = Ok (major, minor) ->
  NewInitControlPlane generate i =
    (normalizedInput i major minor,
     generate "InitControlplane" (initTemplate i) (inputFields (normalizedInput i major minor))).
Proof.
  intros H. init_unfold. cbn [Version initBase set_Base set_ControlPlaneEndpointType].
  rewrite H. unfold setEndpointType, normalizedInput, initTemplate, NetIP.classifyEndpoint.
  cbn. now destruct (NetIP.ParseIP (ControlPlaneEndpoint i)).
Qed.

(** The result of a run, for a version that parses: what the renderer
    returns on the spliced template and the normalised request. *)
Lemma init_run_output
    (generate : string -> string -> Template.Data -> result string)
    (i : ControlPlaneInput) (major minor : Z) :
  Version.extractVersionParts (Version i) = Ok (major, minor) ->
  snd (NewInitControlPlane generate i) =
    generate "InitControlplane" (initTemplate i) (inputFields (normalizedInput i major minor)).
Proof. intros H. now rewrite (init_run_ok generate i major minor H). Qed.

Lemma init_run_version_error
    (generate : string -> string -> Template.Data -> result string)
    (i : ControlPlaneInput) (e : error) :
  Version.extractVersionParts (Version i) = Err e ->
  NewInitControlPlane generate i = (versionFailedInput i, Err e).
Proof.
  intros H. init_unfold.
  cbn [Version initBase set_Base set_ControlPlaneEndpointType]. now rewrite H.
Qed.

Lemma ensureDNS_found (a : option (list string)) : findDNS (ensureDNS a) = true.
Proof.
  unfold ensureDNS. destruct (findDNS (defaultAddons a)) eqn:E; [exact E|].
  now rewrite findDNS_app, E.
Qed.

(** Line 125 as an equation: the template around its one placeholder. *)
Lemma spliceAddons_eq (addons_str : string) :
  spliceAddons addons_str = initBefore ++ addons_str ++ initAfter.
Proof. vm_compute. reflexivity. Qed.

(** A property of every addon name, and of "dns", holds of the normalised
    list. *)
Lemma ensureDNS_Forall (P : string -> Prop) (a : option (list string)) :
  P "dns" -> Forall P (elems a) -> Forall P (ensureDNS a).
Proof.
  intros Hd Hl. unfold ensureDNS. destruct a as [l|]; simpl in *.
  - destruct (findDNS l); [exact Hl | apply Forall_app; auto].
  - auto.
Qed.

(** Every step of the builder keeps the fields it does not write. *)
Lemma init_preserves_frame (generate : string -> string -> Template.Data -> result string)
    (i0 : ControlPlaneInput) :
  preserves (initFrame i0) (NewInitControlPlane generate).
Proof.
  unfold NewInitControlPlane, versionStep, renderInit. preserves_split;
  intros [b cs ca ck ep ept tok ttl v pa pd ad];
    unfold initBase, normalizeAddons, setEndpointType; simpl;
    try (destruct (NetIP.ParseIP ep)); unfold initFrame; simpl; tauto.
Qed.

(** ** Theorems *)

(** C1: Refinement: on a version that parses, [NewInitControlPlane] leaves the
    normalised request in the struct and returns what the renderer returns
    on the addon-spliced template and that request. *)
Theorem NewInitControlPlane_ok
    (generate : string -> string -> Template.Data -> result string)
    (i : ControlPlaneInput) (major minor : Z) :
  Version.extractVersionParts (Version i) = Ok (major, minor) ->
  NewInitControlPlane generate i =
    (normalizedInput i major minor,
     generate "InitControlplane" (initTemplate i) (inputFields (normalizedInput i major minor))).
Proof. exact (init_run_ok generate i major minor). Qed.

(** C3: Error: a version that does not parse is returned as is, before the
    renderer runs; the struct keeps the changes of lines 95-99 and its
    version. *)
Theorem NewInitControlPlane_version_error
    (generate : string -> string -> Template.Data -> result string)
    (i : ControlPlaneInput) (e : error) :
  Version.extractVersionParts (Version i) = Err e ->
  NewInitControlPlane generate i = (versionFailedInput i, Err e).
Proof. exact (init_run_version_error generate i e). Qed.


(** Error: a failing renderer's error is returned unchanged, with no added
    context (spec section 8, the stubbed renderer). *)
Corollary NewInitControlPlane_render_error (i : ControlPlaneInput) (major minor : Z) (e : error) :
  Version.extractVersionParts (Version i) = Ok (major, minor) ->
  snd (NewInitControlPlane (fun _ _ _ => Err e) i) = Err e.
Proof. intros H. now rewrite (init_run_ok _ i major minor H). Qed.

(** C9: No partial output: user data is returned only when the version parsed
    and the renderer succeeded on the normalised request. *)
Theorem NewInitControlPlane_output
    (generate : string -> string -> Template.Data -> result string)
    (i : ControlPlaneInput) (out : string) :
  snd (NewInitControlPlane generate i) = Ok out ->
  exists major minor,
    Version.extractVersionParts (Version i) = Ok (major, minor) /\
    generate "InitControlplane" (initTemplate i) (inputFields (normalizedInput i major minor)) = Ok out.
Proof.
  destruct (Version.extractVersionParts (Version i)) as [[major minor]|e] eqn:H.
  - rewrite (init_run_ok _ i major minor H). simpl. eauto.
  - rewrite (init_run_version_error _ i e H). discriminate.
Qed.

(** C6: The addon list of spec sections 3 and 8 (lines 106-119): a nil or
    empty list becomes [["dns"]]; a list in which some name contains the
    substring "dns" ([strings.Contains], so "coredns-extra" counts) is
    kept as it is; any other list gets "dns" appended. *)
Theorem ensureDNS_cases (l : list string) :
  ensureDNS None = ["dns"] /\ ensureDNS (Some []) = ["dns"] /\
  ensureDNS (Some l) = if existsb (fun a => contains a "dns") l then l else (l ++ ["dns"])%list.
Proof.
  split; [reflexivity | split; [reflexivity|]].
  assert (E : findDNS l = existsb (fun a => contains a "dns") l)
    by (induction l as [|a l IH]; [reflexivity | cbn [findDNS existsb]; rewrite IH;
                                    now destruct (contains a "dns")]).
  unfold ensureDNS, defaultAddons. now rewrite E.
Qed.

(** C7: Invariant: after normalisation some addon name contains "dns". *)
Theorem ensureDNS_has_dns (a : option (list string)) :
  exists addon, In addon (ensureDNS a) /\ contains addon "dns" = true.
Proof. apply findDNS_spec, ensureDNS_found. Qed.

(** C8: Idempotence: normalising a normalised addon list changes nothing. *)
Theorem ensureDNS_idempotent (a : option (list string)) :
  ensureDNS (Some (ensureDNS a)) = ensureDNS a.
Proof.
  unfold ensureDNS at 1. cbn [defaultAddons].
  now rewrite ensureDNS_found.
Qed.

Lemma addonsString_acc (l : list string) (acc : string) :
  fold_left (fun acc addon => acc ++ sprintf_quoted addon) l acc =
  acc ++ fold_right (fun addon s => sprintf_quoted addon ++ s) "" l.
Proof.
  revert acc. induction l as [|a l IH]; intros acc; cbn [fold_left fold_right].
  - now autorewrite with go_rw.
  - rewrite IH. now autorewrite with go_rw.
Qed.

(** C17: Given a version "a.b" or "a.b.p" with [int] parts (a sign
    included: [strconv.Atoi] reads "-1" as -1), the builder
    leaves the snap channel argument of track a.b in the struct's
    [Version], the value the template prints after [--classic]. *)
Theorem NewInitControlPlane_channel
    (generate : string -> string -> Template.Data -> result string)
    (i : ControlPlaneInput) (a b : Z) (patch : option Z) :
  (MinInt64 <= a <= MaxInt64)%Z -> (MinInt64 <= b <= MaxInt64)%Z ->
  Version i = Version.showVersion a b patch ->
  Version (fst (NewInitControlPlane generate i)) = Version.generateSnapChannelArgument a b.
Proof.
  intros Ha Hb Hv.
  assert (He : Version.extractVersionParts (Version i) = Ok (a, b))
    by (rewrite Hv; now apply Version.extractVersionParts_showVersion).
  now rewrite (init_run_ok generate i a b He).
Qed.

(** C22: Line 125 replaces the one occurrence of [{{.Addons}}] in the template
    by the addon string, whatever it is, before the template engine runs:
    the shell loop's word list is the addon string itself. *)
Theorem spliceAddons_split (addons_str : string) :
  spliceAddons addons_str = initBefore ++ addons_str ++ initAfter /\
  contains initBefore addonsPlaceholder = false /\
  contains initAfter addonsPlaceholder = false.
Proof. split; [apply spliceAddons_eq | split; vm_compute; reflexivity]. Qed.

(** C21: The builder cannot run twice on the same struct: the first run leaves a
    channel argument in [Version], which the second run refuses. *)
Theorem NewInitControlPlane_not_reentrant
    (generate : string -> string -> Template.Data -> result string)
    (i : ControlPlaneInput) (major minor : Z) :
  Version.extractVersionParts (Version i) = Ok (major, minor) ->
  exists e, snd (NewInitControlPlane generate (fst (NewInitControlPlane generate i))) = Err e.
Proof.
  intros H. rewrite (init_run_ok _ i major minor H). simpl fst.
  destruct (Version.extractVersionParts_channel major minor) as [e He].
  exists e. now rewrite (init_run_version_error generate (normalizedInput i major minor) e He).
Qed.

(** ** Witnesses *)

Lemma NewInitControlPlane_ok_witness :
  Version.extractVersionParts (Version sampleInput) = Ok (1%Z, 21%Z) /\
  NewInitControlPlane Template.generate sampleInput =
    (normalizedInput sampleInput 1 21,
     Template.generate "InitControlplane" (initTemplate sampleInput)
                       (inputFields (normalizedInput sampleInput 1 21))).
Proof.
  assert (H : Version.extractVersionParts (Version sampleInput) = Ok (1%Z, 21%Z)) by reflexivity.
  split; [exact H | exact (NewInitControlPlane_ok Template.generate sampleInput 1 21 H)].
Defined.

Lemma NewInitControlPlane_version_error_witness :
  Version.extractVersionParts (Version sampleBadVersion) =
    Err (ErrMsg "unexpected version format latest: expected major.minor") /\
  NewInitControlPlane Template.generate sampleBadVersion =
    (versionFailedInput sampleBadVersion,
     Err (ErrMsg "unexpected version format latest: expected major.minor")).
Proof.
  assert (H : Version.extractVersionParts (Version sampleBadVersion) =
                Err (ErrMsg "unexpected version format latest: expected major.minor"))
    by reflexivity.
  split; [exact H | exact (NewInitControlPlane_version_error _ sampleBadVersion _ H)].
Defined.

Lemma NewInitControlPlane_render_error_witness :
  Version.extractVersionParts (Version sampleInput) = Ok (1%Z, 21%Z) /\
  snd (NewInitControlPlane (fun _ _ _ => Err (ErrMsg "stub")) sampleInput) = Err (ErrMsg "stub").
Proof.
  assert (H : Version.extractVersionParts (Version sampleInput) = Ok (1%Z, 21%Z)) by reflexivity.
  split; [exact H | exact (NewInitControlPlane_render_error sampleInput 1 21 _ H)].
Defined.

Lemma NewInitControlPlane_output_witness :
  exists out, snd (NewInitControlPlane Template.generate sampleInput) = Ok out /\
  exists major minor,
    Version.extractVersionParts (Version sampleInput) = Ok (major, minor) /\
    Template.generate "InitControlplane" (initTemplate sampleInput)
                      (inputFields (normalizedInput sampleInput major minor)) = Ok out.
Proof.
  eexists. split; [vm_compute; reflexivity|].
  apply (NewInitControlPlane_output Template.generate sampleInput). vm_compute. reflexivity.
Defined.


Lemma NewInitControlPlane_channel_witness :
  (MinInt64 <= 1 <= MaxInt64)%Z /\ (MinInt64 <= 21 <= MaxInt64)%Z /\
  Version sampleInput = Version.showVersion 1 21 (Some 3%Z) /\
  Version (fst (NewInitControlPlane Template.generate sampleInput)) =
    Version.generateSnapChannelArgument 1 21.
Proof.
  assert (H1 : (MinInt64 <= 1 <= MaxInt64)%Z) by (unfold MinInt64, MaxInt64; lia).
  assert (H2 : (MinInt64 <= 21 <= MaxInt64)%Z) by (unfold MinInt64, MaxInt64; lia).
  assert (H3 : Version sampleInput = Version.showVersion 1 21 (Some 3%Z)) by reflexivity.
  split; [exact H1 | split; [exact H2 | split; [exact H3|]]].
  exact (NewInitControlPlane_channel Template.generate sampleInput 1 21 _ H1 H2 H3).
Defined.

Lemma NewInitControlPlane_not_reentrant_witness :
  Version.extractVersionParts (Version sampleInput) = Ok (1%Z, 21%Z) /\
  exists e, snd (NewInitControlPlane Template.generate
                   (fst (NewInitControlPlane Template.generate sampleInput))) = Err e.
Proof.
  assert (H : Version.extractVersionParts (Version sampleInput) = Ok (1%Z, 21%Z)) by reflexivity.
  split; [exact H | exact (NewInitControlPlane_not_reentrant _ sampleInput 1 21 H)].
Defined.

End Init.
