(* ===== verification/ControlPlaneJoin.v ===== *)
(** * [NewJoinControlPlane]: user data of a joining control-plane node

    Models src/controllers/cloudinit/controlplane_join.go: the template
    [controlPlaneJoinCloudInit], the struct [ControlPlaneJoinInput] and the
    builder [NewJoinControlPlane].  The builder is proved against the
    [Preparation] interface of [prepare] and for every renderer [generate];
    unlike the init builder it annotates a renderer error with
    [errors.Wrapf]. *)

From Stdlib Require Import String Ascii List ZArith Lia Bool.
From S2P Require Import Prelude GoStrings Version NetIP Template UserData.
Import ListNotations UserData.
Open Scope string_scope.

Module Join.

(** ** The template (controlplane_join.go:27-57), line for line *)
Definition controlPlaneJoinCloudInit : string := unlines [
    "{{.Header}}";
    "runcmd:";
    "- sudo echo ControlPlaneEndpoint {{.ControlPlaneEndpoint}}";
    "- sudo echo ControlPlaneEndpointType {{.ControlPlaneEndpointType}}";
    "- sudo echo JoinTokenTTLInSecs {{.JoinTokenTTLInSecs}}";
    "- sudo echo IPOfNodeToJoin {{.IPOfNodeToJoin}}";
    "- sudo echo PortOfNodeToJoin {{.PortOfNodeToJoin}}";
    "- sudo echo Version {{.Version}}";
    "- sudo iptables -t nat -A OUTPUT -o lo -p tcp --dport 6443 -j REDIRECT --to-port 16443";
    "- sudo iptables -A PREROUTING -t nat  -p tcp --dport 6443 -j REDIRECT --to-port 16443";
    "- sudo apt-get update";
    "- sudo apt-get install iptables-persistent";
    "- sudo sh -c " ++ dq ++ "while ! snap install microk8s --classic {{.Version}}; do sleep 10 ; echo 'Retry snap installation'; done" ++ dq;
    "- sudo microk8s status --wait-ready";
    "- sudo sed -i 's/25000/{{.PortOfNodeToJoin}}/' /var/snap/microk8s/current/args/cluster-agent";
    "- sudo grep Address /var/snap/microk8s/current/var/kubernetes/backend/info.yaml > /var/tmp/port-update.yaml";
    "- sudo sed -i 's/19001/{{.PortOfDqlite}}/' /var/tmp/port-update.yaml";
    "- sudo microk8s stop";
    "- sudo mv /var/tmp/port-update.yaml /var/snap/microk8s/current/var/kubernetes/backend/update.yaml";
    "- sudo microk8s start";
    "- sudo microk8s status --wait-ready";
    "- sudo sed -i '/^DNS.1 = kubernetes/a {{.ControlPlaneEndpointType}}.100 = {{.ControlPlaneEndpoint}}' /var/snap/microk8s/current/certs/csr.conf.template";
    "- sudo sleep 10";
    "- sudo microk8s status --wait-ready";
    "- sudo sh -c " ++ dq ++ "while ! microk8s join {{.IPOfNodeToJoin}}:{{.PortOfNodeToJoin}}/{{.JoinToken}} ; do sleep 10 ; echo 'Retry join'; done" ++ dq;
    "- sudo sleep 20";
    "- sudo microk8s status --wait-ready";
    "- sudo microk8s add-node --token-ttl {{.JoinTokenTTLInSecs}} --token {{.JoinToken}}"
  ].

(** ** The input struct (controlplane_join.go:59-71) *)
Record ControlPlaneJoinInput : Type := mkJoinInput {
  Base : BaseUserData;                 (* embedded BaseUserData *)
  Certificates : list Certificate;     (* embedded secret.Certificates *)
  ControlPlaneEndpoint : string;
  ControlPlaneEndpointType : string;
  JoinToken : string;
  JoinTokenTTLInSecs : Z;              (* int64 *)
  IPOfNodeToJoin : string;
  PortOfNodeToJoin : string;
  PortOfDqlite : string;
  Version : string
}.

Definition set_Base (i : ControlPlaneJoinInput) (b : BaseUserData) : ControlPlaneJoinInput :=
  mkJoinInput b (Certificates i) (ControlPlaneEndpoint i) (ControlPlaneEndpointType i)
    (JoinToken i) (JoinTokenTTLInSecs i) (IPOfNodeToJoin i) (PortOfNodeToJoin i)
    (PortOfDqlite i) (Version i).
Definition set_ControlPlaneEndpointType (i : ControlPlaneJoinInput) (t : string) : ControlPlaneJoinInput :=
  mkJoinInput (Base i) (Certificates i) (ControlPlaneEndpoint i) t
    (JoinToken i) (JoinTokenTTLInSecs i) (IPOfNodeToJoin i) (PortOfNodeToJoin i)
    (PortOfDqlite i) (Version i).
Definition set_Version (i : ControlPlaneJoinInput) (v : string) : ControlPlaneJoinInput :=
  mkJoinInput (Base i) (Certificates i) (ControlPlaneEndpoint i) (ControlPlaneEndpointType i)
    (JoinToken i) (JoinTokenTTLInSecs i) (IPOfNodeToJoin i) (PortOfNodeToJoin i)
    (PortOfDqlite i) v.

(** The fields the join template can name; as for the init request, the
    promoted [Certificates] (pointer addresses under [%v]) is left out,
    and the template never names it. *)
Definition joinInputFields (i : ControlPlaneJoinInput) : Template.Data :=
  fun f =>
    if String.eqb f "ControlPlaneEndpoint" then Some (Template.VString (ControlPlaneEndpoint i))
    else if String.eqb f "ControlPlaneEndpointType" then Some (Template.VString (ControlPlaneEndpointType i))
    else if String.eqb f "JoinToken" then Some (Template.VString (JoinToken i))
    else if String.eqb f "JoinTokenTTLInSecs" then Some (Template.VInt (JoinTokenTTLInSecs i))
    else if String.eqb f "IPOfNodeToJoin" then Some (Template.VString (IPOfNodeToJoin i))
    else if String.eqb f "PortOfNodeToJoin" then Some (Template.VString (PortOfNodeToJoin i))
    else if String.eqb f "PortOfDqlite" then Some (Template.VString (PortOfDqlite i))
    else if String.eqb f "Version" then Some (Template.VString (Version i))
    else baseFields (Base i) f.

#[export] Instance ControlPlaneJoinInput_Fields : Fields ControlPlaneJoinInput := joinInputFields.

(** ** The steps of [NewJoinControlPlane] *)

(** Lines 76-77: the certificates as write files; the control-plane role. *)
Definition joinBase (i : ControlPlaneJoinInput) : ControlPlaneJoinInput :=
  set_Base i (set_ControlPlane (set_WriteFiles (Base i) (AsFiles (Certificates i))) true).

(** Lines 87-91. *)
Definition setEndpointType (i : ControlPlaneJoinInput) : ControlPlaneJoinInput :=
  let i := set_ControlPlaneEndpointType i "DNS" in
  match NetIP.ParseIP (ControlPlaneEndpoint i) with
  | Some _ => set_ControlPlaneEndpointType i "IP"
  | None => i
  end.

(** The context line 94 adds to a renderer error. *)
Definition joinErrorContext : string :=
  "failed to generate user data for machine joining control plane".

Section Builder.

Context `{Preparation}.
Context (generate : string -> string -> Template.Data -> result string).

Local Open Scope go_scope.

(** Lines 78-80: [input.prepare()] on the embedded [BaseUserData]; its error
    ends the call unchanged. *)
Definition prepareStep : goM ControlPlaneJoinInput unit :=
  zoom Base set_Base prepare.

(** Lines 81-85. *)
Definition versionStep : goM ControlPlaneJoinInput unit :=
  i <- get ;;
  '(major, minor) <- lift (Version.extractVersionParts (Version i)) ;;
  modify (fun i => set_Version i (Version.generateSnapChannelArgument major minor)).

(** Lines 92-97: render; an error gets the join context. *)
Definition renderJoin : goM ControlPlaneJoinInput string :=
  i <- get ;;
  mapErr (fun e => Wrapf e joinErrorContext)
         (lift (generate "JoinControlplane" controlPlaneJoinCloudInit (fields i))).

(** [NewJoinControlPlane(input *ControlPlaneJoinInput) ([]byte, error)]
    (lines 74-97). *)
Definition NewJoinControlPlane : goM ControlPlaneJoinInput string :=
  modify joinBase ;;
  prepareStep ;;
  versionStep ;;
  modify setEndpointType ;;
  renderJoin.

End Builder.

(** ** The normalised request and the annotated result *)

Definition joinNormalized (i : ControlPlaneJoinInput) (major minor : Z) : ControlPlaneJoinInput :=
  mkJoinInput
    (mkBase cloudConfigHeader (AdditionalFiles (Base i))
            (AsFiles (Certificates i) ++ AdditionalFiles (Base i))
            true sentinelFileCommand)
    (Certificates i) (ControlPlaneEndpoint i)
    (NetIP.classifyEndpoint (ControlPlaneEndpoint i))
    (JoinToken i) (JoinTokenTTLInSecs i) (IPOfNodeToJoin i) (PortOfNodeToJoin i)
    (PortOfDqlite i) (Version.generateSnapChannelArgument major minor).

(** Lines 93-97: an error gets the join context, a text is returned. *)
Definition wrapJoin (r : result string) : result string :=
  match r with
  | Ok out => Ok out
  | Err e => Err (Wrapf e joinErrorContext)
  end.

(** The fields [NewJoinControlPlane] never writes: all but the embedded
    [BaseUserData] (which [prepare] may change), the endpoint type and the
    version. *)
Definition joinFrame (j0 j : ControlPlaneJoinInput) : Prop :=
  Certificates j = Certificates j0 /\ ControlPlaneEndpoint j = ControlPlaneEndpoint j0 /\
  JoinToken j = JoinToken j0 /\ JoinTokenTTLInSecs j = JoinTokenTTLInSecs j0 /\
  IPOfNodeToJoin j = IPOfNodeToJoin j0 /\ PortOfNodeToJoin j = PortOfNodeToJoin j0 /\
  PortOfDqlite j = PortOfDqlite j0.

(** A join request as the orchestrator fills it, for the witnesses. *)
Definition sampleJoinInput : ControlPlaneJoinInput :=
  mkJoinInput (mkBase "" [] [] false "") [] "cluster.example.com" "" "token" 120
              "10.0.0.5" "25000" "19001" "1.21.3".

(** A [prepare] that fails: the interface allows it (spec 4.2, step 3). *)
Definition failing_prepare : goM BaseUserData unit :=
  fun b => (b, Err (ErrMsg "prepare failed")).

Definition failingPreparation : Preparation :=
  {| prepare := failing_prepare;
     prepare_ok := ltac:(intros b b' H; discriminate H) |}.

(** ** Lemmas *)

(** Unfold a run of the builder down to its struct updates. *)
Ltac join_unfold :=
  unfold NewJoinControlPlane, prepareStep, versionStep, renderJoin; go_unfold.

Lemma run_prepare_ok `{Preparation} (i : ControlPlaneJoinInput) (b' : BaseUserData) :
  prepare (Base (joinBase i)) = (b', Ok tt) ->
  b' = mkBase cloudConfigHeader (AdditionalFiles (Base i))
              (AsFiles (Certificates i) ++ AdditionalFiles (Base i)) true sentinelFileCommand.
Proof. intros Hp. apply prepare_ok in Hp. now rewrite Hp. Qed.

Lemma Version_prepared `{Preparation} (i : ControlPlaneJoinInput) (b' : BaseUserData) :
  Version (set_Base (joinBase i) b') = Version i.
Proof. reflexivity. Qed.

(** Every step of the builder keeps the fields it does not write, whatever
    [prepare] does to the embedded struct and whether it fails. *)
Lemma join_preserves_frame `{Preparation}
    (generate : string -> string -> Template.Data -> result string) (j0 : ControlPlaneJoinInput) :
  preserves (joinFrame j0) (NewJoinControlPlane generate).
Proof.
  unfold NewJoinControlPlane, prepareStep, versionStep, renderJoin. preserves_split;
  intros [b cs ep ept tok ttl ipn pn pd v]; intros;
    unfold joinBase, setEndpointType; simpl;
    try (destruct (NetIP.ParseIP ep)); unfold joinFrame in *; simpl in *; tauto.
Qed.

(** ** Theorems *)

Lemma join_run_ok `{Preparation}
    (generate : string -> string -> Template.Data -> result string)
    (i : ControlPlaneJoinInput) (major minor : Z) :
  snd (prepare (Base (joinBase i))) = Ok tt ->
  Version.extractVersionParts (Version i) = Ok (major, minor) ->
  NewJoinControlPlane generate i =
    (joinNormalized i major minor,
     wrapJoin (generate "JoinControlplane" controlPlaneJoinCloudInit
                        (joinInputFields (joinNormalized i major minor)))).
Proof.
  intros Hp Hv. join_unfold.
  destruct (prepare (Base (joinBase i))) as [b' r] eqn:E. simpl in Hp. subst r.
  apply run_prepare_ok in E. subst b'. cbn [Version set_Base joinBase].
  rewrite Hv. unfold setEndpointType, joinNormalized, NetIP.classifyEndpoint. cbn.
  destruct (NetIP.ParseIP (ControlPlaneEndpoint i));
    destruct (generate _ _ _); reflexivity.
Qed.

(** C2: Refinement: when [prepare] succeeds and the version parses, the struct
    holds the normalised request (role flag set, certificates then
    additional files, endpoint type of [classifyEndpoint], version replaced
    by its channel) and the result is the renderer's, annotated on error. *)
Theorem NewJoinControlPlane_ok `{Preparation}
    (generate : string -> string -> Template.Data -> result string)
    (i : ControlPlaneJoinInput) (major minor : Z) :
  snd (prepare (Base (joinBase i))) = Ok tt ->
  Version.extractVersionParts (Version i) = Ok (major, minor) ->
  NewJoinControlPlane generate i =
    (joinNormalized i major minor,
     wrapJoin (generate "JoinControlplane" controlPlaneJoinCloudInit
                        (joinInputFields (joinNormalized i major minor)))).
Proof. exact (@join_run_ok _ generate i major minor). Qed.

Lemma join_run_prepare_error `{Preparation}
    (generate : string -> string -> Template.Data -> result string)
    (i : ControlPlaneJoinInput) (e : error) :
  snd (prepare (Base (joinBase i))) = Err e ->
  snd (NewJoinControlPlane generate i) = Err e.
Proof.
  intros Hp. join_unfold.
  destruct (prepare (Base (joinBase i))) as [b' r] eqn:E. simpl in Hp. now subst r.
Qed.

(** C11: Error: a failing [prepare] ends the call with its error, unchanged,
    before the version is read or the renderer runs. *)
Theorem NewJoinControlPlane_prepare_error `{Preparation}
    (generate : string -> string -> Template.Data -> result string)
    (i : ControlPlaneJoinInput) (e : error) :
  snd (prepare (Base (joinBase i))) = Err e ->
  snd (NewJoinControlPlane generate i) = Err e.
Proof. exact (@join_run_prepare_error _ generate i e). Qed.

Lemma join_run_version_error `{Preparation}
    (generate : string -> string -> Template.Data -> result string)
    (i : ControlPlaneJoinInput) (e : error) :
  snd (prepare (Base (joinBase i))) = Ok tt ->
  Version.extractVersionParts (Version i) = Err e ->
  snd (NewJoinControlPlane generate i) = Err e.
Proof.
  intros Hp Hv. join_unfold.
  destruct (prepare (Base (joinBase i))) as [b' r] eqn:E. simpl in Hp. subst r.
  rewrite Version_prepared, Hv. reflexivity.
Qed.

(** C12: Error: after a successful [prepare], a version that does not parse is
    returned unchanged, without the join context. *)
Theorem NewJoinControlPlane_version_error `{Preparation}
    (generate : string -> string -> Template.Data -> result string)
    (i : ControlPlaneJoinInput) (e : error) :
  snd (prepare (Base (joinBase i))) = Ok tt ->
  Version.extractVersionParts (Version i) = Err e ->
  snd (NewJoinControlPlane generate i) = Err e.
Proof. exact (@join_run_version_error _ generate i e). Qed.

(** C4: Error: a failing renderer's error comes back wrapped with the join
    context (spec section 8): the message names the control-plane join and
    [errors.Cause] still finds the renderer's error. *)
Theorem NewJoinControlPlane_render_error `{Preparation}
    (i : ControlPlaneJoinInput) (major minor : Z) (e : error) :
  snd (prepare (Base (joinBase i))) = Ok tt ->
  Version.extractVersionParts (Version i) = Ok (major, minor) ->
  exists w, snd (NewJoinControlPlane (fun _ _ _ => Err e) i) = Err w /\
    Cause w = Cause e /\
    Error w = joinErrorContext ++ ": " ++ Error e /\
    contains (Error w) "joining control plane" = true.
Proof.
  intros Hp Hv. rewrite (join_run_ok _ i major minor Hp Hv).
  eexists; repeat split.
Qed.

(** C10: No partial output: user data is returned only when [prepare]
    succeeded, the version parsed and the renderer succeeded. *)
Theorem NewJoinControlPlane_output `{Preparation}
    (generate : string -> string -> Template.Data -> result string)
    (i : ControlPlaneJoinInput) (out : string) :
  snd (NewJoinControlPlane generate i) = Ok out ->
  snd (prepare (Base (joinBase i))) = Ok tt /\
  exists major minor,
    Version.extractVersionParts (Version i) = Ok (major, minor) /\
    generate "JoinControlplane" controlPlaneJoinCloudInit
             (joinInputFields (joinNormalized i major minor)) = Ok out.
Proof.
  intros Hout. destruct (snd (prepare (Base (joinBase i)))) as [[]|e] eqn:Hp.
  - split; [reflexivity|].
    destruct (Version.extractVersionParts (Version i)) as [[major minor]|e] eqn:Hv.
    + rewrite (join_run_ok _ i major minor Hp Hv) in Hout.
      exists major, minor. split; [reflexivity|].
      simpl in Hout. destruct (generate _ _ _); [exact Hout | discriminate].
    + now rewrite (join_run_version_error _ i e Hp Hv) in Hout.
  - now rewrite (join_run_prepare_error _ i e Hp) in Hout.
Qed.

(** C18: Given a version "a.b" or "a.b.p" whose parts are Go [int]s, a
    sign included ([strconv.Atoi] reads "-1" as -1), the join builder
    leaves the snap channel argument of track a.b in the struct once
    [prepare] succeeds (lines 81-85): the version check accepts "-1.21"
    and the template installs "--channel=-1.21". *)
Theorem NewJoinControlPlane_channel `{Preparation}
    (generate : string -> string -> Template.Data -> result string)
    (j : ControlPlaneJoinInput) (a b : Z) (patch : option Z) :
  (MinInt64 <= a <= MaxInt64)%Z -> (MinInt64 <= b <= MaxInt64)%Z ->
  snd (prepare (Base (joinBase j))) = Ok tt ->
  Version j = Version.showVersion a b patch ->
  Version (fst (NewJoinControlPlane generate j)) = Version.generateSnapChannelArgument a b.
Proof.
  intros Ha Hb Hp Hv.
  assert (He : Version.extractVersionParts (Version j) = Ok (a, b))
    by (rewrite Hv; now apply Version.extractVersionParts_showVersion).
  now rewrite (join_run_ok generate j a b Hp He).
Qed.

(** ** Witnesses *)

Lemma NewJoinControlPlane_ok_witness :
  snd (@prepare capiPreparation (Base (joinBase sampleJoinInput))) = Ok tt /\
  Version.extractVersionParts (Version sampleJoinInput) = Ok (1%Z, 21%Z) /\
  @NewJoinControlPlane capiPreparation Template.generate sampleJoinInput =
    (joinNormalized sampleJoinInput 1 21,
     wrapJoin (Template.generate "JoinControlplane" controlPlaneJoinCloudInit
                 (joinInputFields (joinNormalized sampleJoinInput 1 21)))).
Proof.
  assert (Hp : snd (@prepare capiPreparation (Base (joinBase sampleJoinInput))) = Ok tt)
    by reflexivity.
  assert (Hv : Version.extractVersionParts (Version sampleJoinInput) = Ok (1%Z, 21%Z))
    by reflexivity.
  split; [exact Hp | split; [exact Hv|]].
  exact (@NewJoinControlPlane_ok capiPreparation Template.generate sampleJoinInput 1 21 Hp Hv).
Defined.

Lemma NewJoinControlPlane_prepare_error_witness :
  snd (@prepare failingPreparation (Base (joinBase sampleJoinInput))) =
    Err (ErrMsg "prepare failed") /\
  snd (@NewJoinControlPlane failingPreparation Template.generate sampleJoinInput) =
    Err (ErrMsg "prepare failed").
Proof.
  assert (Hp : snd (@prepare failingPreparation (Base (joinBase sampleJoinInput))) =
                 Err (ErrMsg "prepare failed")) by reflexivity.
  split; [exact Hp|].
  exact (@NewJoinControlPlane_prepare_error failingPreparation Template.generate _ _ Hp).
Defined.

Lemma NewJoinControlPlane_version_error_witness :
  snd (@prepare capiPreparation (Base (joinBase (set_Version sampleJoinInput "v1")))) = Ok tt /\
  Version.extractVersionParts (Version (set_Version sampleJoinInput "v1")) =
    Err (ErrMsg "unexpected version format v1: expected major.minor") /\
  snd (@NewJoinControlPlane capiPreparation Template.generate (set_Version sampleJoinInput "v1")) =
    Err (ErrMsg "unexpected version format v1: expected major.minor").
Proof.
  assert (Hp : snd (@prepare capiPreparation (Base (joinBase (set_Version sampleJoinInput "v1"))))
               = Ok tt) by reflexivity.
  assert (Hv : Version.extractVersionParts (Version (set_Version sampleJoinInput "v1")) =
                 Err (ErrMsg "unexpected version format v1: expected major.minor"))
    by reflexivity.
  split; [exact Hp | split; [exact Hv|]].
  exact (@NewJoinControlPlane_version_error capiPreparation Template.generate _ _ Hp Hv).
Defined.

Lemma NewJoinControlPlane_render_error_witness :
  snd (@prepare capiPreparation (Base (joinBase sampleJoinInput))) = Ok tt /\
  Version.extractVersionParts (Version sampleJoinInput) = Ok (1%Z, 21%Z) /\
  exists w, snd (@NewJoinControlPlane capiPreparation (fun _ _ _ => Err (ErrMsg "stub"))
                   sampleJoinInput) = Err w /\
    Cause w = Cause (ErrMsg "stub") /\
    Error w = joinErrorContext ++ ": " ++ Error (ErrMsg "stub") /\
    contains (Error w) "joining control plane" = true.
Proof.
  assert (Hp : snd (@prepare capiPreparation (Base (joinBase sampleJoinInput))) = Ok tt)
    by reflexivity.
  assert (Hv : Version.extractVersionParts (Version sampleJoinInput) = Ok (1%Z, 21%Z))
    by reflexivity.
  split; [exact Hp | split; [exact Hv|]].
  exact (@NewJoinControlPlane_render_error capiPreparation sampleJoinInput 1 21 _ Hp Hv).
Defined.

Lemma NewJoinControlPlane_output_witness :
  exists out,
    snd (@NewJoinControlPlane capiPreparation Template.generate sampleJoinInput) = Ok out /\
    (snd (@prepare capiPreparation (Base (joinBase sampleJoinInput))) = Ok tt /\
     exists major minor,
       Version.extractVersionParts (Version sampleJoinInput) = Ok (major, minor) /\
       Template.generate "JoinControlplane" controlPlaneJoinCloudInit
         (joinInputFields (joinNormalized sampleJoinInput major minor)) = Ok out).
Proof.
  eexists. split; [vm_compute; reflexivity|].
  apply (@NewJoinControlPlane_output capiPreparation Template.generate sampleJoinInput).
  vm_compute. reflexivity.
Defined.

Lemma NewJoinControlPlane_channel_witness :
  Version (fst (@NewJoinControlPlane capiPreparation Template.generate
                  (set_Version sampleJoinInput "-1.21"))) = "--channel=-1.21".
Proof.
  apply (@NewJoinControlPlane_channel capiPreparation Template.generate _ (-1) 21 None);
    [unfold MinInt64, MaxInt64; lia | unfold MinInt64, MaxInt64; lia | reflexivity | reflexivity].
Defined.

End Join.
