(* ===== verification/Rendering.v ===== *)
(** * The builders with the concrete renderer: general theorems

    [EndToEnd] evaluates the builders on sample requests; this file proves
    what holds of every request.  The two templates are parsed once
    ([initBeforeNodes], [initBeforeText], [initAfterText], [joinNodes]: the
    lexer's output, computed), and the compositional lemmas of [Template]
    ([lex_app], [lex_text_app], [lex_buf]) show that the init template
    spliced with any addon list whose names hold no '{' parses into the
    same nodes around one text node that holds the quoted names verbatim.
    Rendering then only looks up the fields the nodes name
    ([Template.exec_agree]), none of which is a certificate or a write
    file.  The theorems: both builders produce user data for every request
    whose version parses (liveness); the addon names reach the output
    verbatim, unescaped and nowhere else, in the shell loop that ends
    with 'dns'; the certificates never change the output; the CA key and
    certificate are written as YAML blocks indented by four spaces that
    dedent back to the PEM text; the join user data runs the join command
    of the request and the init user data installs the channel of its
    version and registers its endpoint with its type, the same two lines
    the join user data holds for the same version and endpoint; both
    rewrite the cluster-agent and dqlite ports and register the join
    token with its TTL.  An addon named ["{{.F}}"] parses, by
    [Template.lex_action], into a node that prints the field F, for every
    field; an addon with an unclosed "{{" makes rendering fail
    ([Template.lex_open], [Template.lex_unclosed]).  The segments of the
    parsed templates these theorems look at ([initCa], [initVer],
    [initMid], [initCsr], [initRest], [joinVer], [joinMid], [joinCsr],
    [joinCmd], [joinAdd]) are cut out of the computed node lists by
    position; each segment's render lemma, checked by the kernel, pins
    the template text around its fields. *)

From Stdlib Require Import String Ascii List ZArith Lia Bool.
From S2P Require Import Prelude GoStrings Version NetIP Template UserData.
From S2P Require Import ControlPlaneInit ControlPlaneJoin EndToEnd.
Import ListNotations UserData Template EndToEnd.
Open Scope string_scope.

Module Render.

(** ** The parsed templates *)

(** The init template before [{{.Addons}}]: the nodes, then the text that
    runs up to the placeholder. *)
Definition initBeforeNodes : list Node := Eval vm_compute in
  match lex Init.initBefore false "" with Ok ns => removelast ns | Err _ => [] end.
Definition initBeforeText : string := Eval vm_compute in
  match lex Init.initBefore false "" with
  | Ok ns => match last ns (NText "") with NText b => b | NField _ _ => "" end
  | Err _ => ""
  end.
(** The text after the placeholder: it names no field. *)
Definition initAfterText : string := Eval vm_compute in
  match lex Init.initAfter false "" with Ok (NText a :: _) => a | _ => "" end.
(** The join template, parsed. *)
Definition joinNodes : list Node := Eval vm_compute in
  match lex Join.controlPlaneJoinCloudInit false "" with Ok ns => ns | Err _ => [] end.

(** A name the template engine reads as plain text. *)
Definition no_brace (s : string) : Prop := contains s "{" = false.

(** The join command of the join template (its nodes 24 to 29): the text
    ending in "microk8s join ", the node's address, ":", its port, "/",
    the token; and the nodes before and after it. *)
Definition joinPre : list Node := Eval vm_compute in firstn 24 joinNodes.
Definition joinCmd : list Node := Eval vm_compute in firstn 6 (skipn 24 joinNodes).
Definition joinPost : list Node := Eval vm_compute in skipn 30 joinNodes.
(** The text before "microk8s join " in the first node of [joinCmd]. *)
Definition joinLead : string := Eval vm_compute in
  match joinCmd with NText t :: _ => substring 0 (String.length t - 14) t | _ => "" end.

(** The snap install (nodes 14 and 15) and the certificate-request entry
    (nodes 20 to 23) of the init template, and the nodes around them. *)
Definition initVerPre : list Node := Eval vm_compute in firstn 14 initBeforeNodes.
Definition initVer : list Node := Eval vm_compute in firstn 2 (skipn 14 initBeforeNodes).
Definition initMid : list Node := Eval vm_compute in firstn 4 (skipn 16 initBeforeNodes).
Definition initCsr : list Node := Eval vm_compute in firstn 4 (skipn 20 initBeforeNodes).
Definition initRest : list Node := Eval vm_compute in skipn 24 initBeforeNodes.
Definition verLead : string := Eval vm_compute in
  match initVer with NText t :: _ => substring 0 (String.length t - 32) t | _ => "" end.
Definition csrLead : string := Eval vm_compute in
  match initCsr with NText t :: _ => substring 0 (String.length t - 2) t | _ => "" end.

(** The shell loop of line 72, [for a in {{.Addons}} ; do]: the text before
    the placeholder ends in "for a in ", the text after it starts with
    " ; do". *)
Definition loopLead : string := Eval vm_compute in
  substring 0 (String.length initBeforeText - 9) initBeforeText.
Definition loopTail : string := Eval vm_compute in
  substring 5 (String.length initAfterText - 5) initAfterText.

(** The write-files part of the init template (its nodes 2 to 6, lines
    41-48): the CA key block, then the CA certificate block, each a
    [{{. | Indent 4}}] action between "- content: |" and its path line;
    [caTail] is what follows the certificate's path line up to the next
    action. *)
Definition initCaPre : list Node := Eval vm_compute in firstn 2 initBeforeNodes.
Definition initCa : list Node := Eval vm_compute in firstn 5 (skipn 2 initBeforeNodes).
Definition initCaRest : list Node := Eval vm_compute in skipn 7 initBeforeNodes.
Definition caText0 : string := Eval vm_compute in
  match initCa with NText t :: _ => t | _ => "" end.
Definition caText1 : string := Eval vm_compute in
  match initCa with [_; _; NText t; _; _] => t | _ => "" end.
Definition caText2 : string := Eval vm_compute in
  match initCa with [_; _; _; _; NText t] => t | _ => "" end.
Definition caKeyMid : string := Eval vm_compute in substring 24 (String.length caText1 - 37) caText1.
Definition caTail : string := Eval vm_compute in substring 24 (String.length caText2 - 24) caText2.

(** The same two segments of the join template: its snap install (nodes 14
    and 15) and its certificate-request entry (nodes 20 to 23), all within
    [joinPre]. *)
Definition joinVerPre : list Node := Eval vm_compute in firstn 14 joinPre.
Definition joinVer : list Node := Eval vm_compute in firstn 2 (skipn 14 joinPre).
Definition joinMid : list Node := Eval vm_compute in firstn 4 (skipn 16 joinPre).
Definition joinCsr : list Node := Eval vm_compute in skipn 20 joinPre.
Definition joinVerLead : string := Eval vm_compute in
  match joinVer with NText t :: _ => substring 0 (String.length t - 32) t | _ => "" end.
Definition joinCsrLead : string := Eval vm_compute in
  match joinCsr with NText t :: _ => substring 0 (String.length t - 2) t | _ => "" end.

(** The port rewrites (nodes 16 to 19 of both templates: the cluster-agent
    port, then the dqlite port) and the [add-node] line (the last four
    nodes before the addon loop of the init template; nodes 30 to 33 of
    the join template); the texts around the fields. *)
Definition joinAdd : list Node := Eval vm_compute in firstn 4 joinPost.
Definition joinAddRest : list Node := Eval vm_compute in skipn 4 joinPost.
Definition portLead (seg : list Node) : string :=
  match seg with NText t :: _ => substring 0 (String.length t - 16) t | _ => "" end.
Definition portMid (seg : list Node) : string :=
  match seg with [_; _; NText t; _] => substring 48 (String.length t - 64) t | _ => "" end.
Definition addLead (seg : list Node) : string :=
  match seg with NText t :: _ => substring 0 (String.length t - 30) t | _ => "" end.
Definition imLead : string := Eval vm_compute in portLead initMid.
Definition imMid : string := Eval vm_compute in portMid initMid.
Definition jmLead : string := Eval vm_compute in portLead joinMid.
Definition jmMid : string := Eval vm_compute in portMid joinMid.
Definition irLead : string := Eval vm_compute in addLead initRest.
Definition jaLead : string := Eval vm_compute in addLead joinAdd.

Lemma lex_initBefore :
  lex Init.initBefore false "" = Ok (initBeforeNodes ++ [NText initBeforeText])%list.
Proof. vm_compute. reflexivity. Qed.
Lemma lex_initAfter : lex Init.initAfter false "" = Ok [NText initAfterText].
Proof. vm_compute. reflexivity. Qed.
Lemma lex_join : lex Join.controlPlaneJoinCloudInit false "" = Ok joinNodes.
Proof. vm_compute. reflexivity. Qed.

(** A byte that is no part of the quoting and of no name is not in the
    addon string. *)
Lemma addonsString_no_char (c : ascii) (l : list string) :
  contains " '" (String c "") = false -> contains "' " (String c "") = false ->
  Forall (fun a => contains a (String c "") = false) l ->
  contains (Init.addonsString l) (String c "") = false.
Proof.
  intros Hq1 Hq2. unfold Init.addonsString. rewrite Init.addonsString_acc. cbn [append].
  induction 1 as [|a l Ha Hl IH]; [reflexivity|].
  cbn [fold_right]. rewrite contains_char_app, IH.
  unfold sprintf_quoted. rewrite !contains_char_app, Hq1, Hq2, Ha. reflexivity.
Qed.

Lemma addonsString_no_brace (l : list string) :
  Forall no_brace l -> no_brace (Init.addonsString l).
Proof. apply addonsString_no_char; reflexivity. Qed.

Lemma lex_initTemplate (i : Init.ControlPlaneInput) :
  Forall no_brace (Init.elems (Init.Addons i)) ->
  lex (Init.initTemplate i) false "" =
  Ok (initBeforeNodes ++
      [NText (initBeforeText ++ Init.addonsString (Init.ensureDNS (Init.Addons i)) ++ initAfterText)])%list.
Proof.
  intros Ha. unfold Init.initTemplate. rewrite Init.spliceAddons_eq.
  rewrite (lex_app _ _ false "" initBeforeText initBeforeNodes) by (vm_compute; reflexivity).
  rewrite lex_text_app.
  - rewrite <- (append_nil_r (initBeforeText ++ _)), lex_buf, lex_initAfter. reflexivity.
  - apply addonsString_no_brace, Init.ensureDNS_Forall; [reflexivity | exact Ha].
Qed.

Lemma exec_last (ns : list Node) (t : string) (d : Data) :
  exec (ns ++ [NText t]) d = match exec ns d with Ok a => Ok (a ++ t) | Err e => Err e end.
Proof. rewrite exec_app. simpl. now rewrite append_nil_r. Qed.

Lemma initBefore_renders (n : Init.ControlPlaneInput) :
  exists pre, exec initBeforeNodes (Init.inputFields n) = Ok pre.
Proof. eexists. cbv. reflexivity. Qed.

Lemma joinNodes_render (n : Join.ControlPlaneJoinInput) :
  exists out, exec joinNodes (Join.joinInputFields n) = Ok out.
Proof. eexists. cbv. reflexivity. Qed.


(** Two requests that agree on the fields the parsed nodes name render
    them alike. *)
Ltac names_agree :=
  intros f Hf; vm_compute in Hf;
  repeat (destruct Hf as [<-|Hf]; [reflexivity|]); contradiction.
Ltac agree_on_names := apply exec_agree; names_agree.

(** [m] is a substring of a rendered text [pre ++ m ++ post]. *)
Ltac substring_of pre post :=
  apply contains_spec; exists pre, post; autorewrite with go_rw; reflexivity.

Lemma init_render (i : Init.ControlPlaneInput) (major minor : Z) (pre : string) :
  Version.extractVersionParts (Init.Version i) = Ok (major, minor) ->
  Forall no_brace (Init.elems (Init.Addons i)) ->
  exec initBeforeNodes (Init.inputFields (Init.normalizedInput i major minor)) = Ok pre ->
  initUserData i =
    Ok (pre ++ initBeforeText ++ Init.addonsString (Init.ensureDNS (Init.Addons i)) ++ initAfterText).
Proof.
  intros Hv Ha Hp. unfold initUserData. rewrite (Init.init_run_ok _ i major minor Hv).
  cbn [snd]. unfold generate. rewrite (lex_initTemplate i Ha), exec_last, Hp.
  now autorewrite with go_rw.
Qed.

Lemma join_render (j : Join.ControlPlaneJoinInput) (major minor : Z) :
  Version.extractVersionParts (Join.Version j) = Ok (major, minor) ->
  joinUserData j =
    match exec joinNodes (Join.joinInputFields (Join.joinNormalized j major minor)) with
    | Ok out => Ok out
    | Err e => Err (Wrapf (Wrapf e "failed to generate JoinControlplane template")
                          Join.joinErrorContext)
    end.
Proof.
  intros Hv. unfold joinUserData. rewrite (@Join.join_run_ok capiPreparation _ j major minor eq_refl Hv).
  cbn [snd]. unfold generate. rewrite lex_join.
  now destruct (exec joinNodes _).
Qed.

Lemma joinNodes_split : joinNodes = (joinPre ++ joinCmd ++ joinPost)%list.
Proof. vm_compute. reflexivity. Qed.

Lemma joinCmd_renders (n : Join.ControlPlaneJoinInput) :
  exec joinCmd (Join.joinInputFields n) =
  Ok (joinLead ++ "microk8s join " ++ Join.IPOfNodeToJoin n ++ ":" ++ Join.PortOfNodeToJoin n ++
      "/" ++ Join.JoinToken n).
Proof. rewrite <- (append_nil_r (Join.JoinToken n)). reflexivity. Qed.

Lemma join_version_ok (j : Join.ControlPlaneJoinInput) (out : string) :
  joinUserData j = Ok out ->
  exists major minor, Version.extractVersionParts (Join.Version j) = Ok (major, minor).
Proof.
  destruct (Version.extractVersionParts (Join.Version j)) as [[a b]|e] eqn:Hv; [eauto|].
  unfold joinUserData. now rewrite (@Join.join_run_version_error capiPreparation _ _ e eq_refl Hv).
Qed.

Lemma initBeforeNodes_split :
  initBeforeNodes = (initVerPre ++ initVer ++ initMid ++ initCsr ++ initRest)%list.
Proof. vm_compute. reflexivity. Qed.

Lemma initVer_renders (n : Init.ControlPlaneInput) :
  exec initVer (Init.inputFields n) =
  Ok (verLead ++ "snap install microk8s --classic " ++ Init.Version n).
Proof. rewrite <- (append_nil_r (Init.Version n)). reflexivity. Qed.

Lemma initCsr_renders (n : Init.ControlPlaneInput) :
  exec initCsr (Init.inputFields n) =
  Ok (csrLead ++ "a " ++ Init.ControlPlaneEndpointType n ++ ".100 = " ++ Init.ControlPlaneEndpoint n).
Proof. rewrite <- (append_nil_r (Init.ControlPlaneEndpoint n)). reflexivity. Qed.

Lemma lex_initTemplate_prefix (i : Init.ControlPlaneInput) :
  lex (Init.initTemplate i) false "" =
  match lex (Init.addonsString (Init.ensureDNS (Init.Addons i)) ++ Init.initAfter) false initBeforeText with
  | Ok ns => Ok (initBeforeNodes ++ ns)%list
  | Err e => Err e
  end.
Proof.
  unfold Init.initTemplate. rewrite Init.spliceAddons_eq.
  apply (lex_app _ _ false "" initBeforeText initBeforeNodes); vm_compute; reflexivity.
Qed.

Lemma init_render_prefix (i : Init.ControlPlaneInput) (major minor : Z) (out : string) :
  Version.extractVersionParts (Init.Version i) = Ok (major, minor) ->
  initUserData i = Ok out ->
  exists ns, exec (initBeforeNodes ++ ns)%list (Init.inputFields (Init.normalizedInput i major minor)) = Ok out.
Proof.
  intros Hv H. unfold initUserData in H. rewrite (Init.init_run_output _ i major minor Hv) in H.
  exact (generate_prefix _ _ _ _ _ _ _ (lex_initTemplate_prefix i) H).
Qed.

(** With the addon list [["{{." ++ f ++ "}}"]] the init template parses into
    the prefix, the text up to the first quote, a node that prints the
    field [f], and the rest: the addon name is read as an action. *)
Lemma lex_injected (i : Init.ControlPlaneInput) (f : string) :
  Init.Addons i = Some ["{{." ++ f ++ "}}"] -> is_ident f = true -> f <> "" ->
  contains ("{{." ++ f ++ "}}") "dns" = false ->
  lex (Init.initTemplate i) false "" =
  Ok (initBeforeNodes ++ [NText (initBeforeText ++ " '"); NField f None;
                          NText ("' " ++ " 'dns' " ++ initAfterText)])%list.
Proof.
  intros Ha Hi Hne Hd. rewrite lex_initTemplate_prefix.
  assert (Ens : Init.ensureDNS (Init.Addons i) = ["{{." ++ f ++ "}}"; "dns"]).
  { rewrite Ha. unfold Init.ensureDNS. cbn [Init.defaultAddons Init.findDNS]. now rewrite Hd. }
  assert (Hx : Init.addonsString ["{{." ++ f ++ "}}"; "dns"] ++ Init.initAfter =
               " '" ++ ("{{" ++ ("." ++ f) ++ "}}" ++ ("' " ++ (" 'dns' " ++ Init.initAfter)))).
  { unfold Init.addonsString, sprintf_quoted. cbn [fold_left]. autorewrite with go_rw. reflexivity. }
  rewrite Ens, Hx, lex_text_app by reflexivity.
  rewrite lex_action.
  2:{ cbn [append]. rewrite contains_char_cons, is_ident_excludes by (reflexivity || exact Hi).
      reflexivity. }
  rewrite parse_action_field by assumption.
  rewrite !lex_text_app by reflexivity.
  rewrite <- (append_nil_r (("" ++ "' ") ++ " 'dns' ")), lex_buf, lex_initAfter.
  reflexivity.
Qed.

Lemma joinPre_split : joinPre = (joinVerPre ++ joinVer ++ joinMid ++ joinCsr)%list.
Proof. vm_compute. reflexivity. Qed.

Lemma joinVer_renders (n : Join.ControlPlaneJoinInput) :
  exec joinVer (Join.joinInputFields n) =
  Ok (joinVerLead ++ "snap install microk8s --classic " ++ Join.Version n).
Proof. rewrite <- (append_nil_r (Join.Version n)). reflexivity. Qed.

Lemma joinCsr_renders (n : Join.ControlPlaneJoinInput) :
  exec joinCsr (Join.joinInputFields n) =
  Ok (joinCsrLead ++ "a " ++ Join.ControlPlaneEndpointType n ++ ".100 = " ++ Join.ControlPlaneEndpoint n).
Proof. rewrite <- (append_nil_r (Join.ControlPlaneEndpoint n)). reflexivity. Qed.

Lemma init_version_ok (i : Init.ControlPlaneInput) (out : string) :
  initUserData i = Ok out ->
  exists major minor, Version.extractVersionParts (Init.Version i) = Ok (major, minor).
Proof.
  destruct (Version.extractVersionParts (Init.Version i)) as [[a b]|e] eqn:Hv; [eauto|].
  unfold initUserData. now rewrite (Init.init_run_version_error _ _ e Hv).
Qed.

(** The init user data holds the snap install of the channel and the
    certificate-request entry of the endpoint. *)
Lemma init_channel_entries (i : Init.ControlPlaneInput) (major minor : Z) (out : string) :
  Version.extractVersionParts (Init.Version i) = Ok (major, minor) ->
  initUserData i = Ok out ->
  contains out ("snap install microk8s --classic " ++ Version.generateSnapChannelArgument major minor) = true /\
  contains out ("a " ++ NetIP.classifyEndpoint (Init.ControlPlaneEndpoint i) ++ ".100 = " ++
                Init.ControlPlaneEndpoint i) = true.
Proof.
  intros Hv H. destruct (init_render_prefix i major minor out Hv H) as [ns E].
  rewrite initBeforeNodes_split, <- !app_assoc in E. split.
  - exact (exec_segment_tail _ _ _ _ _ _ _ E (initVer_renders _)).
  - assert (E2 : exec ((initVerPre ++ initVer ++ initMid) ++ initCsr ++ (initRest ++ ns))%list
                    (Init.inputFields (Init.normalizedInput i major minor)) = Ok out)
      by (rewrite <- !app_assoc; exact E).
    exact (exec_segment_tail _ _ _ _ _ _ _ E2 (initCsr_renders _)).
Qed.

(** The join user data holds the same two lines for its own version and
    endpoint. *)
Lemma join_channel_entries (j : Join.ControlPlaneJoinInput) (major minor : Z) (out : string) :
  Version.extractVersionParts (Join.Version j) = Ok (major, minor) ->
  joinUserData j = Ok out ->
  contains out ("snap install microk8s --classic " ++ Version.generateSnapChannelArgument major minor) = true /\
  contains out ("a " ++ NetIP.classifyEndpoint (Join.ControlPlaneEndpoint j) ++ ".100 = " ++
                Join.ControlPlaneEndpoint j) = true.
Proof.
  intros Hv H. rewrite (join_render j major minor Hv) in H.
  destruct (exec joinNodes _) as [o|e] eqn:E; [|discriminate]. injection H as <-.
  rewrite joinNodes_split, joinPre_split, <- !app_assoc in E. split.
  - exact (exec_segment_tail _ _ _ _ _ _ _ E (joinVer_renders _)).
  - assert (E2 : exec ((joinVerPre ++ joinVer ++ joinMid) ++ joinCsr ++ (joinCmd ++ joinPost))%list
                    (Join.joinInputFields (Join.joinNormalized j major minor)) = Ok o)
      by (rewrite <- !app_assoc; exact E).
    exact (exec_segment_tail _ _ _ _ _ _ _ E2 (joinCsr_renders _)).
Qed.

Lemma initCa_split : initBeforeNodes = (initCaPre ++ initCa ++ initCaRest)%list.
Proof. vm_compute. reflexivity. Qed.

Lemma initCa_eq :
  initCa = [NText caText0; NField "CAKey" (Some 4); NText caText1; NField "CACert" (Some 4);
            NText caText2].
Proof. vm_compute. reflexivity. Qed.

Lemma caText_split :
  caText0 = String nl "write_files:" ++ String nl "- content: |" ++ String nl "" /\
  caText1 = String nl "  path: /var/tmp/ca.key" ++ caKeyMid ++ "- content: |" ++ String nl "" /\
  caText2 = String nl "  path: /var/tmp/ca.crt" ++ caTail.
Proof. split; [|split]; vm_compute; reflexivity. Qed.

(** Whatever the data, once its [CAKey] and [CACert] are strings, the
    rendered init template holds the two blocks, each content indented by
    [templateYAMLIndent 4], between the template's own lines. *)
Lemma exec_CA_split (d : Data) (ns : list Node) (out key cert : string) :
  d "CAKey" = Some (VString key) -> d "CACert" = Some (VString cert) ->
  exec (initBeforeNodes ++ ns)%list d = Ok out ->
  exists pre post,
    out = pre ++ "- content: |" ++ String nl (templateYAMLIndent 4 key) ++
          String nl "  path: /var/tmp/ca.key" ++ caKeyMid ++
          "- content: |" ++ String nl (templateYAMLIndent 4 cert) ++
          String nl "  path: /var/tmp/ca.crt" ++ post.
Proof.
  intros Hk Hc H. rewrite initCa_split, <- !app_assoc, exec_app, (exec_app initCa) in H.
  destruct (exec initCaPre d) as [p|]; [|discriminate H].
  destruct (exec (initCaRest ++ ns) d) as [r|]; [|destruct (exec initCa d); discriminate H].
  rewrite initCa_eq in H. cbn [exec exec_node] in H. rewrite Hk, Hc in H. cbv beta iota in H.
  destruct caText_split as (E0 & E1 & E2). rewrite E0, E1, E2 in H. apply Ok_eq in H as <-.
  exists (p ++ String nl "write_files:" ++ String nl ""), (caTail ++ r).
  autorewrite with go_rw. reflexivity.
Qed.

(** The quoted names of a list hold the quoted form of each member. *)
Lemma addonsString_member (l : list string) (a : string) :
  In a l -> contains (Init.addonsString l) (sprintf_quoted a) = true.
Proof.
  unfold Init.addonsString. rewrite Init.addonsString_acc. cbn [append].
  induction l as [|x l IH]; [intros []|]. intros [<-|Hin]; cbn [fold_right].
  - apply contains_app_l, contains_self.
  - apply contains_app_r, IH, Hin.
Qed.

Lemma ensureDNS_member (a : option (list string)) (x : string) :
  In x (Init.elems a) -> In x (Init.ensureDNS a).
Proof.
  unfold Init.ensureDNS. destruct a as [l|]; cbn [Init.elems Init.defaultAddons]; [|intros []].
  destruct l as [|y l]; [intros []|]. intros H.
  destruct (Init.findDNS (y :: l)); [exact H | apply in_or_app; now left].
Qed.

Lemma loop_texts : initBeforeText = loopLead ++ "for a in " /\ initAfterText = " ; do" ++ loopTail.
Proof. split; vm_compute; reflexivity. Qed.

(** Lines 106-119 on a list no name of which contains "dns": "dns" is
    appended. *)
Lemma ensureDNS_no_dns (l : list string) :
  forallb (fun a => negb (contains a "dns")) l = true -> Init.ensureDNS (Some l) = (l ++ ["dns"])%list.
Proof.
  intros H. unfold Init.ensureDNS. cbn [Init.defaultAddons].
  replace (Init.findDNS l) with false; [reflexivity|].
  induction l as [|a l IH]; [reflexivity|]. cbn [forallb] in H. apply andb_prop in H as [Ha Hl].
  cbn [Init.findDNS]. destruct (contains a "dns"); [discriminate | exact (IH Hl)].
Qed.

Lemma addonsString_app (l l' : list string) :
  Init.addonsString (l ++ l')%list = Init.addonsString l ++ Init.addonsString l'.
Proof.
  unfold Init.addonsString. rewrite fold_left_app, !Init.addonsString_acc.
  now autorewrite with go_rw.
Qed.

Lemma addonsString_cons (a : string) (l : list string) :
  Init.addonsString (a :: l) = sprintf_quoted a ++ Init.addonsString l.
Proof. change (a :: l) with ([a] ++ l)%list. rewrite addonsString_app. reflexivity. Qed.

Lemma addonsString_snoc (l : list string) (a : string) :
  Init.addonsString (l ++ [a])%list = Init.addonsString l ++ sprintf_quoted a.
Proof. rewrite addonsString_app. reflexivity. Qed.

Lemma joinPost_split : joinPost = (joinAdd ++ joinAddRest)%list.
Proof. vm_compute. reflexivity. Qed.

Lemma initMid_renders (n : Init.ControlPlaneInput) :
  exec initMid (Init.inputFields n) =
  Ok (imLead ++ "sed -i 's/25000/" ++ Init.PortOfClusterAgent n ++
      "/' /var/snap/microk8s/current/args/cluster-agent" ++ imMid ++
      "sed -i 's/19001/" ++ Init.PortOfDqlite n).
Proof. rewrite <- (append_nil_r (Init.PortOfDqlite n)). reflexivity. Qed.

Lemma joinMid_renders (n : Join.ControlPlaneJoinInput) :
  exec joinMid (Join.joinInputFields n) =
  Ok (jmLead ++ "sed -i 's/25000/" ++ Join.PortOfNodeToJoin n ++
      "/' /var/snap/microk8s/current/args/cluster-agent" ++ jmMid ++
      "sed -i 's/19001/" ++ Join.PortOfDqlite n).
Proof. rewrite <- (append_nil_r (Join.PortOfDqlite n)). reflexivity. Qed.

(** The rendered join user data, cut at the segments above. *)
Lemma join_segments (j : Join.ControlPlaneJoinInput) (out : string) :
  joinUserData j = Ok out ->
  exists major minor, Version.extractVersionParts (Join.Version j) = Ok (major, minor) /\
    exec (joinVerPre ++ joinVer ++ joinMid ++ joinCsr ++ joinCmd ++ joinAdd ++ joinAddRest)%list
         (Join.joinInputFields (Join.joinNormalized j major minor)) = Ok out.
Proof.
  intros H. destruct (join_version_ok j out H) as (a & b & Hv). exists a, b. split; [exact Hv|].
  rewrite (join_render j a b Hv) in H.
  destruct (exec joinNodes _) as [o|e] eqn:E; [|discriminate]. apply Ok_eq in H as <-.
  now rewrite joinNodes_split, joinPre_split, joinPost_split, <- !app_assoc in E.
Qed.

(** ** Theorems *)

(** C33: Safety of the addon splice: for a request whose version parses, the
    init user data is a fixed prefix, the quoted addon names of the
    normalised list, and a fixed suffix, for every addon list whose names
    hold no '{'.  The names reach the output verbatim and change nothing
    else of it. *)
Theorem initUserData_addons_verbatim (i : Init.ControlPlaneInput) (major minor : Z) :
  Version.extractVersionParts (Init.Version i) = Ok (major, minor) ->
  exists pre post, forall a : option (list string),
    Forall no_brace (Init.elems a) ->
    initUserData (Init.set_Addons i a) = Ok (pre ++ Init.addonsString (Init.ensureDNS a) ++ post).
Proof.
  intros Hv. destruct (initBefore_renders (Init.normalizedInput i major minor)) as [pre Hp].
  exists (pre ++ initBeforeText), initAfterText. intros a Ha.
  rewrite (init_render (Init.set_Addons i a) major minor pre Hv Ha).
  - now autorewrite with go_rw.
  - rewrite <- Hp. agree_on_names.
Qed.

(** C34: Liveness of the init builder with the concrete renderer: every
    request whose version parses and whose addon names hold no '{' gets
    its user data. *)
Theorem initUserData_succeeds (i : Init.ControlPlaneInput) (major minor : Z) :
  Version.extractVersionParts (Init.Version i) = Ok (major, minor) ->
  Forall no_brace (Init.elems (Init.Addons i)) ->
  exists out, initUserData i = Ok out.
Proof.
  intros Hv Ha. destruct (initBefore_renders (Init.normalizedInput i major minor)) as [pre Hp].
  eexists. exact (init_render i major minor pre Hv Ha Hp).
Qed.

(** C35: The certificates never reach the init user data: for any request
    whose addon names hold no '{', changing its certificates changes the
    write files of the struct and not the rendered text.  (An addon named
    "{{.WriteFiles}}" would make them reach it: see C27.) *)
Theorem initUserData_certificates_irrelevant (i : Init.ControlPlaneInput) (cs : list Certificate) :
  Forall no_brace (Init.elems (Init.Addons i)) ->
  initUserData (withCertificates i cs) = initUserData i.
Proof.
  intros Ha. destruct (Version.extractVersionParts (Init.Version i)) as [[a b]|e] eqn:Hv.
  - destruct (initBefore_renders (Init.normalizedInput i a b)) as [pre Hp].
    rewrite (init_render i a b pre Hv Ha Hp).
    apply (init_render (withCertificates i cs) a b pre Hv Ha). rewrite <- Hp. agree_on_names.
  - unfold initUserData. now rewrite !(Init.init_run_version_error _ _ e).
Qed.

(** C36: Liveness of the join builder with the concrete renderer and
    cluster-api's [prepare]: every request whose version parses gets its
    user data. *)
Theorem joinUserData_succeeds (j : Join.ControlPlaneJoinInput) (major minor : Z) :
  Version.extractVersionParts (Join.Version j) = Ok (major, minor) ->
  exists out, joinUserData j = Ok out.
Proof.
  intros Hv. rewrite (join_render j major minor Hv).
  destruct (joinNodes_render (Join.joinNormalized j major minor)) as [out ->]. eauto.
Qed.

(** C37: The certificates never reach the join user data, whatever the
    request: its template names none of the fields they fill. *)
Theorem joinUserData_certificates_irrelevant (j : Join.ControlPlaneJoinInput) (cs : list Certificate) :
  joinUserData (joinWithCertificates j cs) = joinUserData j.
Proof.
  destruct (Version.extractVersionParts (Join.Version j)) as [[a b]|e] eqn:Hv.
  - rewrite !(join_render _ a b) by exact Hv.
    rewrite (exec_agree joinNodes _ (Join.joinInputFields (Join.joinNormalized j a b)));
      [reflexivity | names_agree].
  - unfold joinUserData.
    now rewrite !(@Join.join_run_version_error capiPreparation _ _ e eq_refl).
Qed.

(** C38: The join user data runs the join command of the request: whenever
    the join builder returns user data, it contains
    "microk8s join <IPOfNodeToJoin>:<PortOfNodeToJoin>/<JoinToken>" with
    the request's own values (controlplane_join.go:52). *)
Theorem joinUserData_join_command (j : Join.ControlPlaneJoinInput) (out : string) :
  joinUserData j = Ok out ->
  contains out ("microk8s join " ++ Join.IPOfNodeToJoin j ++ ":" ++ Join.PortOfNodeToJoin j ++
                "/" ++ Join.JoinToken j) = true.
Proof.
  intros H. destruct (join_version_ok j out H) as (a & b & Hv).
  rewrite (join_render j a b Hv) in H.
  destruct (exec joinNodes _) as [o|e] eqn:E; [|discriminate]. injection H as <-.
  rewrite joinNodes_split in E.
  exact (exec_segment_tail _ _ _ _ _ _ _ E (joinCmd_renders _)).
Qed.

(** C39: The init user data installs the snap channel of the request's
    version and registers the endpoint in the API server certificate
    request with the type [net.ParseIP] gives it ("IP.100 = ..." or
    "DNS.100 = ...", controlplane_init.go:59 and 69), whatever the addon
    names: the template before the addon list parses the same for every
    addon list. *)
Theorem initUserData_installs_channel (i : Init.ControlPlaneInput) (major minor : Z) (out : string) :
  Version.extractVersionParts (Init.Version i) = Ok (major, minor) ->
  initUserData i = Ok out ->
  contains out ("snap install microk8s --classic " ++ Version.generateSnapChannelArgument major minor) = true /\
  contains out ("a " ++ NetIP.classifyEndpoint (Init.ControlPlaneEndpoint i) ++ ".100 = " ++
                Init.ControlPlaneEndpoint i) = true.
Proof. exact (init_channel_entries i major minor out). Qed.

(** C25: The addon names are spliced into the template before it is parsed
    (controlplane_init.go:121-125), so an addon named ["{{.F}}"], for any
    field F of the request, is executed as an action: the init user data
    prints F's value between the quotes where the addon name belongs in
    the addon loop (line 72), followed by the appended "dns" addon. *)
Theorem initUserData_addon_field_injection (i : Init.ControlPlaneInput) (f : string)
    (major minor : Z) (v : Value) :
  Version.extractVersionParts (Init.Version i) = Ok (major, minor) ->
  Init.Addons i = Some ["{{." ++ f ++ "}}"] -> is_ident f = true -> f <> "" ->
  contains ("{{." ++ f ++ "}}") "dns" = false ->
  Init.inputFields (Init.normalizedInput i major minor) f = Some v ->
  exists pre post, initUserData i = Ok (pre ++ " '" ++ printValue v ++ "'  'dns' " ++ post).
Proof.
  intros Hv Ha Hi Hne Hd Hf.
  destruct (initBefore_renders (Init.normalizedInput i major minor)) as [pre Hp].
  exists (pre ++ initBeforeText), initAfterText.
  unfold initUserData. rewrite (Init.init_run_output _ i major minor Hv). unfold generate.
  rewrite (lex_injected i f Ha Hi Hne Hd), exec_app, Hp.
  cbn [exec exec_node]. rewrite Hf. destruct v; cbv beta iota; autorewrite with go_rw; reflexivity.
Qed.

(** C26: The two builders agree on what a node of one cluster installs:
    for an init request and a join request with the same version and
    endpoint, whenever both return user data, the version parses and both
    scripts install the same snap channel and add the same
    certificate-request entry for the endpoint (controlplane_init.go:59
    and 69, controlplane_join.go:40 and 49). *)
Theorem builders_install_alike (i : Init.ControlPlaneInput) (j : Join.ControlPlaneJoinInput)
    (oi oj : string) :
  Init.Version i = Join.Version j ->
  Init.ControlPlaneEndpoint i = Join.ControlPlaneEndpoint j ->
  initUserData i = Ok oi -> joinUserData j = Ok oj ->
  exists major minor, Version.extractVersionParts (Init.Version i) = Ok (major, minor) /\
    forall line, In line ["snap install microk8s --classic " ++ Version.generateSnapChannelArgument major minor;
                          "a " ++ NetIP.classifyEndpoint (Init.ControlPlaneEndpoint i) ++ ".100 = " ++
                          Init.ControlPlaneEndpoint i] ->
      contains oi line = true /\ contains oj line = true.
Proof.
  intros HV HE Hi Hj. destruct (init_version_ok i oi Hi) as (a & b & Hv).
  exists a, b. split; [exact Hv|].
  destruct (init_channel_entries i a b oi Hv Hi) as [I1 I2].
  rewrite HV in Hv. rewrite HE in I2 |- *.
  destruct (join_channel_entries j a b oj Hv Hj) as [J1 J2].
  intros line [<-|[<-|[]]]; auto.
Qed.

(** C31: The CA key and certificate reach the init user data as YAML
    block content (lines 41-48): whenever the builder returns user data,
    it holds "- content: |", then every PEM line of [CAKey] behind four
    spaces, then the key's path line, and the same for [CACert] with the
    certificate's path line. *)
Theorem initUserData_CA_blocks (i : Init.ControlPlaneInput) (out : string) :
  initUserData i = Ok out ->
  contains out ("- content: |" ++ String nl (indentLines 4 (Init.CAKey i)) ++
                String nl "  path: /var/tmp/ca.key") = true /\
  contains out ("- content: |" ++ String nl (indentLines 4 (Init.CACert i)) ++
                String nl "  path: /var/tmp/ca.crt") = true.
Proof.
  intros H. destruct (init_version_ok i out H) as (a & b & Hv).
  destruct (init_render_prefix i a b out Hv H) as [ns E].
  destruct (exec_CA_split _ _ _ (Init.CAKey i) (Init.CACert i) eq_refl eq_refl E)
    as (pre & post & ->).
  rewrite <- !indent_lines_eq. split; apply contains_spec.
  - exists pre, (caKeyMid ++ "- content: |" ++ String nl (templateYAMLIndent 4 (Init.CACert i)) ++
                  String nl "  path: /var/tmp/ca.crt" ++ post).
    autorewrite with go_rw. reflexivity.
  - exists (pre ++ "- content: |" ++ String nl (templateYAMLIndent 4 (Init.CAKey i)) ++
             String nl "  path: /var/tmp/ca.key" ++ caKeyMid), post.
    autorewrite with go_rw. reflexivity.
Qed.

(** C32: Round trip: the CA blocks of the init user data lose nothing.
    Whenever the builder returns user data, it splits at the template's
    lines into a key block and a certificate block, and removing four
    spaces from every line of each gives back [CAKey] and [CACert]
    exactly. *)
Theorem initUserData_CA_roundtrip (i : Init.ControlPlaneInput) (out : string) :
  initUserData i = Ok out ->
  exists pre key cert post,
    out = pre ++ "- content: |" ++ String nl key ++
          String nl "  path: /var/tmp/ca.key" ++ String nl "  permissions: '0600'" ++
          String nl "- content: |" ++ String nl cert ++
          String nl "  path: /var/tmp/ca.crt" ++ post /\
    dedent 4 key = Init.CAKey i /\ dedent 4 cert = Init.CACert i.
Proof.
  intros H. destruct (init_version_ok i out H) as (a & b & Hv).
  destruct (init_render_prefix i a b out Hv H) as [ns E].
  destruct (exec_CA_split _ _ _ (Init.CAKey i) (Init.CACert i) eq_refl eq_refl E)
    as (pre & post & ->).
  assert (Hm : caKeyMid = String nl "  permissions: '0600'" ++ String nl "") by (vm_compute; reflexivity).
  exists pre, (templateYAMLIndent 4 (Init.CAKey i)), (templateYAMLIndent 4 (Init.CACert i)), post.
  split; [rewrite Hm; autorewrite with go_rw; reflexivity | split; apply templateYAMLIndent_dedent].
Qed.

(** C28: Spec section 9: an addon name is quoted without escaping
    (line 123): whenever the init builder returns user data for addon
    names without '{', each name appears in it verbatim between the two
    quotes, a quote inside the name included. *)
Theorem initUserData_addon_unescaped (i : Init.ControlPlaneInput) (a out : string) :
  Forall no_brace (Init.elems (Init.Addons i)) -> In a (Init.elems (Init.Addons i)) ->
  initUserData i = Ok out ->
  contains out (" '" ++ a ++ "' ") = true.
Proof.
  intros Ha Hin H. destruct (init_version_ok i out H) as (x & y & Hv).
  destruct (initBefore_renders (Init.normalizedInput i x y)) as [pre Hp].
  rewrite (init_render i x y pre Hv Ha Hp) in H. apply Ok_eq in H as <-.
  apply contains_app_r, contains_app_r, contains_app_l.
  exact (addonsString_member _ _ (ensureDNS_member _ _ Hin)).
Qed.

(** C24: The addon loop of the init script (lines 72 and 106-123): for an
    addon list no name of which contains "dns" and none a '{', whenever the
    builder returns user data, its shell loop runs over the quoted names
    in their order and then over 'dns'. *)
Theorem initUserData_addon_loop (i : Init.ControlPlaneInput) (l : list string) (out : string) :
  Init.Addons i = Some l -> Forall no_brace l ->
  forallb (fun a => negb (contains a "dns")) l = true ->
  initUserData i = Ok out ->
  contains out ("for a in " ++ Init.addonsString l ++ " 'dns' " ++ " ; do") = true.
Proof.
  intros Ha Hb Hd H. destruct (init_version_ok i out H) as (x & y & Hv).
  destruct (initBefore_renders (Init.normalizedInput i x y)) as [pre Hp].
  assert (Ha' : Forall no_brace (Init.elems (Init.Addons i))) by (rewrite Ha; exact Hb).
  rewrite (init_render i x y pre Hv Ha' Hp) in H. apply Ok_eq in H as <-.
  rewrite Ha, (ensureDNS_no_dns l Hd), addonsString_snoc.
  destruct loop_texts as [E1 E2]. rewrite E1, E2. apply contains_spec.
  exists (pre ++ loopLead), loopTail. unfold sprintf_quoted. autorewrite with go_rw. reflexivity.
Qed.

(** C27: An addon name is template text (line 125): an addon name with a
    "{{" that no "}" follows opens an action the template never closes,
    so the init builder returns an error and no user data, for every
    request whose version parses. *)
Theorem initUserData_addon_unclosed (i : Init.ControlPlaneInput) (ls rs : list string)
    (x y : string) (major minor : Z) :
  Version.extractVersionParts (Init.Version i) = Ok (major, minor) ->
  Init.Addons i = Some (ls ++ (x ++ "{{" ++ y)%string :: rs)%list ->
  Forall no_brace ls -> no_brace x ->
  contains y "}" = false -> Forall (fun a => contains a "}" = false) rs ->
  exists e, initUserData i = Err e.
Proof.
  intros Hv Ha Hls Hx Hy Hrs.
  unfold initUserData. rewrite (Init.init_run_output _ i major minor Hv). unfold generate.
  rewrite lex_initTemplate_prefix.
  assert (HL : exists rs', Init.ensureDNS (Init.Addons i) = (ls ++ (x ++ "{{" ++ y)%string :: rs')%list /\
                           Forall (fun a => contains a "}" = false) rs').
  { rewrite Ha. unfold Init.ensureDNS. cbn [Init.defaultAddons].
    destruct (Init.findDNS _); [now exists rs|].
    exists (rs ++ ["dns"])%list. split; [now rewrite <- app_assoc | apply Forall_app; auto]. }
  destruct HL as (rs' & -> & Hrs'). rewrite addonsString_app, addonsString_cons. unfold sprintf_quoted.
  autorewrite with go_rw.
  rewrite lex_text_app by exact (addonsString_no_brace _ Hls).
  rewrite lex_text_app by reflexivity. rewrite lex_text_app by exact Hx. rewrite lex_open.
  rewrite lex_unclosed; [eexists; reflexivity|].
  rewrite !contains_char_app, Hy, addonsString_no_char by (reflexivity || exact Hrs').
  reflexivity.
Qed.

(** C20: The join user data points the joining node at the cluster's
    ports (controlplane_join.go:42 and 44): whenever the builder returns
    user data, it rewrites the cluster agent's port 25000 to
    [PortOfNodeToJoin] and the dqlite port 19001 to [PortOfDqlite]. *)
Theorem joinUserData_port_rewrites (j : Join.ControlPlaneJoinInput) (out : string) :
  joinUserData j = Ok out ->
  contains out ("sed -i 's/25000/" ++ Join.PortOfNodeToJoin j ++
                "/' /var/snap/microk8s/current/args/cluster-agent") = true /\
  contains out ("sed -i 's/19001/" ++ Join.PortOfDqlite j) = true.
Proof.
  intros H. destruct (join_segments j out H) as (a & b & _ & E).
  assert (E2 : exec ((joinVerPre ++ joinVer) ++ joinMid ++ (joinCsr ++ joinCmd ++ joinAdd ++ joinAddRest))%list
                    (Join.joinInputFields (Join.joinNormalized j a b)) = Ok out)
    by (rewrite <- !app_assoc; exact E).
  pose proof (exec_segment _ _ _ _ _ _ E2 (joinMid_renders _)) as Hw.
  split; (eapply contains_trans; [exact Hw|]).
  - substring_of jmLead (jmMid ++ "sed -i 's/19001/" ++ Join.PortOfDqlite j).
  - substring_of (jmLead ++ "sed -i 's/25000/" ++ Join.PortOfNodeToJoin j ++
                  "/' /var/snap/microk8s/current/args/cluster-agent" ++ jmMid) "".
Qed.

(** C23: The init user data sets the node's own ports
    (controlplane_init.go:60 and 62): whenever the builder returns user
    data, it rewrites the cluster agent's port 25000 to
    [PortOfClusterAgent] and the dqlite port 19001 to [PortOfDqlite],
    whatever the addon names. *)
Theorem initUserData_port_rewrites (i : Init.ControlPlaneInput) (out : string) :
  initUserData i = Ok out ->
  contains out ("sed -i 's/25000/" ++ Init.PortOfClusterAgent i ++
                "/' /var/snap/microk8s/current/args/cluster-agent") = true /\
  contains out ("sed -i 's/19001/" ++ Init.PortOfDqlite i) = true.
Proof.
  intros H. destruct (init_version_ok i out H) as (a & b & Hv).
  destruct (init_render_prefix i a b out Hv H) as [ns E].
  rewrite initBeforeNodes_split in E.
  assert (E2 : exec ((initVerPre ++ initVer) ++ initMid ++ (initCsr ++ initRest ++ ns))%list
                    (Init.inputFields (Init.normalizedInput i a b)) = Ok out)
    by (rewrite <- !app_assoc; exact E).
  pose proof (exec_segment _ _ _ _ _ _ E2 (initMid_renders _)) as Hw.
  split; (eapply contains_trans; [exact Hw|]).
  - substring_of imLead (imMid ++ "sed -i 's/19001/" ++ Init.PortOfDqlite i).
  - substring_of (imLead ++ "sed -i 's/25000/" ++ Init.PortOfClusterAgent i ++
                  "/' /var/snap/microk8s/current/args/cluster-agent" ++ imMid) "".
Qed.

(** C29: The join user data registers the request's join token on the new
    node too (controlplane_join.go:55): whenever the builder returns user
    data, it runs "microk8s add-node --token-ttl <TTL> --token <token>",
    the TTL printed as a decimal [int64]. *)
Theorem joinUserData_add_node (j : Join.ControlPlaneJoinInput) (out : string) :
  joinUserData j = Ok out ->
  contains out ("microk8s add-node --token-ttl " ++ Itoa (Join.JoinTokenTTLInSecs j) ++
                " --token " ++ Join.JoinToken j) = true.
Proof.
  intros H. destruct (join_segments j out H) as (a & b & _ & E).
  assert (E2 : exec ((joinVerPre ++ joinVer ++ joinMid ++ joinCsr ++ joinCmd) ++ joinAdd ++ joinAddRest)%list
                    (Join.joinInputFields (Join.joinNormalized j a b)) = Ok out)
    by (rewrite <- !app_assoc; exact E).
  apply (exec_segment_tail _ _ _ _ _ jaLead _ E2).
  rewrite <- (append_nil_r (Join.JoinToken j)). reflexivity.
Qed.

(** C30: The init user data creates the join token the other nodes use
    (controlplane_init.go:71): whenever the builder returns user data, it
    runs "microk8s add-node --token-ttl <TTL> --token <token>" with the
    request's values, before the addon loop. *)
Theorem initUserData_add_node (i : Init.ControlPlaneInput) (out : string) :
  initUserData i = Ok out ->
  contains out ("microk8s add-node --token-ttl " ++ Itoa (Init.JoinTokenTTLInSecs i) ++
                " --token " ++ Init.JoinToken i) = true.
Proof.
  intros H. destruct (init_version_ok i out H) as (a & b & Hv).
  destruct (init_render_prefix i a b out Hv H) as [ns E].
  rewrite initBeforeNodes_split in E.
  assert (E2 : exec ((initVerPre ++ initVer ++ initMid ++ initCsr) ++ initRest ++ ns)%list
                    (Init.inputFields (Init.normalizedInput i a b)) = Ok out)
    by (rewrite <- !app_assoc; exact E).
  apply (exec_segment_tail _ _ _ _ _ irLead _ E2).
  rewrite <- (append_nil_r (Init.JoinToken i)). reflexivity.
Qed.

(** ** Witnesses *)

Lemma initUserData_addons_verbatim_witness :
  Version.extractVersionParts (Init.Version Init.sampleInput) = Ok (1%Z, 21%Z) /\
  exists pre post, forall a : option (list string),
    Forall no_brace (Init.elems a) ->
    initUserData (Init.set_Addons Init.sampleInput a) =
      Ok (pre ++ Init.addonsString (Init.ensureDNS a) ++ post).
Proof.
  assert (Hv : Version.extractVersionParts (Init.Version Init.sampleInput) = Ok (1%Z, 21%Z))
    by reflexivity.
  split; [exact Hv | exact (initUserData_addons_verbatim Init.sampleInput 1 21 Hv)].
Defined.

Lemma initUserData_succeeds_witness :
  Version.extractVersionParts (Init.Version Init.sampleInput) = Ok (1%Z, 21%Z) /\
  Forall no_brace (Init.elems (Init.Addons Init.sampleInput)) /\
  exists out, initUserData Init.sampleInput = Ok out.
Proof.
  assert (Hv : Version.extractVersionParts (Init.Version Init.sampleInput) = Ok (1%Z, 21%Z))
    by reflexivity.
  assert (Ha : Forall no_brace (Init.elems (Init.Addons Init.sampleInput)))
    by (repeat constructor).
  split; [exact Hv | split; [exact Ha | exact (initUserData_succeeds _ 1 21 Hv Ha)]].
Defined.

Lemma initUserData_certificates_irrelevant_witness :
  Forall no_brace (Init.elems (Init.Addons Init.sampleInput)) /\
  initUserData (withCertificates Init.sampleInput [sampleCA]) = initUserData Init.sampleInput.
Proof.
  assert (Ha : Forall no_brace (Init.elems (Init.Addons Init.sampleInput)))
    by (repeat constructor).
  split; [exact Ha | exact (initUserData_certificates_irrelevant _ [sampleCA] Ha)].
Defined.

Lemma joinUserData_succeeds_witness :
  Version.extractVersionParts (Join.Version Join.sampleJoinInput) = Ok (1%Z, 21%Z) /\
  exists out, joinUserData Join.sampleJoinInput = Ok out.
Proof.
  assert (Hv : Version.extractVersionParts (Join.Version Join.sampleJoinInput) = Ok (1%Z, 21%Z))
    by reflexivity.
  split; [exact Hv | exact (joinUserData_succeeds _ 1 21 Hv)].
Defined.

Lemma joinUserData_join_command_witness :
  exists out, joinUserData Join.sampleJoinInput = Ok out /\
  contains out ("microk8s join " ++ "10.0.0.5" ++ ":" ++ "25000" ++ "/" ++ "token") = true.
Proof.
  eexists. split; [vm_compute; reflexivity|].
  apply (joinUserData_join_command Join.sampleJoinInput). vm_compute. reflexivity.
Defined.

Lemma initUserData_installs_channel_witness :
  exists out, Version.extractVersionParts (Init.Version Init.sampleInput) = Ok (1%Z, 21%Z) /\
  initUserData Init.sampleInput = Ok out /\
  contains out ("snap install microk8s --classic " ++ Version.generateSnapChannelArgument 1 21) = true /\
  contains out ("a " ++ NetIP.classifyEndpoint "10.0.0.5" ++ ".100 = " ++ "10.0.0.5") = true.
Proof.
  assert (Hv : Version.extractVersionParts (Init.Version Init.sampleInput) = Ok (1%Z, 21%Z))
    by reflexivity.
  eexists. split; [exact Hv|]. split; [vm_compute; reflexivity|].
  apply (initUserData_installs_channel Init.sampleInput 1 21 _ Hv). vm_compute. reflexivity.
Defined.

Lemma initUserData_addon_field_injection_witness :
  exists pre post,
    initUserData (Init.set_Addons Init.sampleInput (Some ["{{.JoinToken}}"])) =
      Ok (pre ++ " '" ++ printValue (VString "token") ++ "'  'dns' " ++ post).
Proof.
  apply (initUserData_addon_field_injection _ "JoinToken" 1 21); try reflexivity. discriminate.
Defined.

Lemma builders_install_alike_witness :
  exists oi oj, initUserData Init.sampleInput = Ok oi /\
    joinUserData (Join.set_Version joinSameEndpoint "1.21.3") = Ok oj /\
    exists major minor, Version.extractVersionParts (Init.Version Init.sampleInput) = Ok (major, minor) /\
      forall line, In line ["snap install microk8s --classic " ++ Version.generateSnapChannelArgument major minor;
                            "a " ++ NetIP.classifyEndpoint (Init.ControlPlaneEndpoint Init.sampleInput) ++
                            ".100 = " ++ Init.ControlPlaneEndpoint Init.sampleInput] ->
        contains oi line = true /\ contains oj line = true.
Proof.
  do 2 eexists. split; [vm_compute; reflexivity|]. split; [vm_compute; reflexivity|].
  apply (builders_install_alike _ (Join.set_Version joinSameEndpoint "1.21.3"));
    [reflexivity | reflexivity | vm_compute; reflexivity ..].
Defined.

Lemma initUserData_CA_blocks_witness :
  exists out, initUserData Init.sampleInput = Ok out /\
  contains out ("- content: |" ++ String nl (indentLines 4 "CA-KEY") ++
                String nl "  path: /var/tmp/ca.key") = true /\
  contains out ("- content: |" ++ String nl (indentLines 4 "CA-CERT") ++
                String nl "  path: /var/tmp/ca.crt") = true.
Proof.
  eexists. split; [vm_compute; reflexivity|].
  apply (initUserData_CA_blocks Init.sampleInput). vm_compute. reflexivity.
Defined.

Lemma initUserData_CA_roundtrip_witness :
  exists out, initUserData Init.sampleInput = Ok out /\
  exists pre key cert post,
    out = pre ++ "- content: |" ++ String nl key ++
          String nl "  path: /var/tmp/ca.key" ++ String nl "  permissions: '0600'" ++
          String nl "- content: |" ++ String nl cert ++
          String nl "  path: /var/tmp/ca.crt" ++ post /\
    dedent 4 key = "CA-KEY" /\ dedent 4 cert = "CA-CERT".
Proof.
  eexists. split; [vm_compute; reflexivity|].
  apply (initUserData_CA_roundtrip Init.sampleInput). vm_compute. reflexivity.
Defined.

Lemma initUserData_addon_unescaped_witness :
  Forall no_brace (Init.elems (Init.Addons (Init.set_Addons Init.sampleInput (Some ["x'y"])))) /\
  exists out, initUserData (Init.set_Addons Init.sampleInput (Some ["x'y"])) = Ok out /\
  contains out (" '" ++ "x'y" ++ "' ") = true.
Proof.
  assert (Ha : Forall no_brace (Init.elems (Init.Addons (Init.set_Addons Init.sampleInput (Some ["x'y"])))))
    by (repeat constructor).
  split; [exact Ha|]. eexists. split; [vm_compute; reflexivity|].
  apply (initUserData_addon_unescaped _ "x'y" _ Ha); [now left | vm_compute; reflexivity].
Defined.

Lemma initUserData_addon_loop_witness :
  Init.Addons Init.sampleInput = Some ["metrics-server"] /\
  Forall no_brace ["metrics-server"] /\
  forallb (fun a => negb (contains a "dns")) ["metrics-server"] = true /\
  exists out, initUserData Init.sampleInput = Ok out /\
  contains out ("for a in " ++ Init.addonsString ["metrics-server"] ++ " 'dns' " ++ " ; do") = true.
Proof.
  assert (H1 : Init.Addons Init.sampleInput = Some ["metrics-server"]) by reflexivity.
  assert (H2 : Forall no_brace ["metrics-server"]) by (repeat constructor).
  assert (H3 : forallb (fun a => negb (contains a "dns")) ["metrics-server"] = true) by reflexivity.
  split; [exact H1 | split; [exact H2 | split; [exact H3|]]].
  eexists. split; [vm_compute; reflexivity|].
  apply (initUserData_addon_loop _ _ _ H1 H2 H3). vm_compute. reflexivity.
Defined.

Lemma initUserData_addon_unclosed_witness :
  Version.extractVersionParts (Init.Version (Init.set_Addons Init.sampleInput (Some ["a{{b"]))) =
    Ok (1%Z, 21%Z) /\
  exists e, initUserData (Init.set_Addons Init.sampleInput (Some ["a{{b"])) = Err e.
Proof.
  assert (Hv : Version.extractVersionParts (Init.Version (Init.set_Addons Init.sampleInput (Some ["a{{b"]))) =
                 Ok (1%Z, 21%Z)) by reflexivity.
  split; [exact Hv|].
  apply (initUserData_addon_unclosed _ [] [] "a" "b" 1 21 Hv); try reflexivity; constructor.
Defined.

Lemma joinUserData_port_rewrites_witness :
  exists out, joinUserData Join.sampleJoinInput = Ok out /\
  contains out ("sed -i 's/25000/" ++ "25000" ++ "/' /var/snap/microk8s/current/args/cluster-agent") = true /\
  contains out ("sed -i 's/19001/" ++ "19001") = true.
Proof.
  eexists. split; [vm_compute; reflexivity|].
  apply (joinUserData_port_rewrites Join.sampleJoinInput). vm_compute. reflexivity.
Defined.

Lemma initUserData_port_rewrites_witness :
  exists out, initUserData Init.sampleInput = Ok out /\
  contains out ("sed -i 's/25000/" ++ "25000" ++ "/' /var/snap/microk8s/current/args/cluster-agent") = true /\
  contains out ("sed -i 's/19001/" ++ "19001") = true.
Proof.
  eexists. split; [vm_compute; reflexivity|].
  apply (initUserData_port_rewrites Init.sampleInput). vm_compute. reflexivity.
Defined.

Lemma joinUserData_add_node_witness :
  exists out, joinUserData Join.sampleJoinInput = Ok out /\
  contains out ("microk8s add-node --token-ttl " ++ Itoa 120 ++ " --token " ++ "token") = true.
Proof.
  eexists. split; [vm_compute; reflexivity|].
  apply (joinUserData_add_node Join.sampleJoinInput). vm_compute. reflexivity.
Defined.

Lemma initUserData_add_node_witness :
  exists out, initUserData Init.sampleInput = Ok out /\
  contains out ("microk8s add-node --token-ttl " ++ Itoa 120 ++ " --token " ++ "token") = true.
Proof.
  eexists. split; [vm_compute; reflexivity|].
  apply (initUserData_add_node Init.sampleInput). vm_compute. reflexivity.
Defined.

End Render.
